(** * Shared Feetech bus: manager and per-component views

    A shallow embedding of
    [src/lerobot/robots/xlerobot/shared_bus_mode/shared_bus.py]
    ([FeetechBusView], [FeetechBusManager]) and the properties its
    specification states about it.

    Conventions of the embedding:
    - Python [int] is [Z]; [str] is [string]; [f"{a}{b}"] is [a +:+ b].
    - The tables owned by the manager ([_motor_defs], [_calibration],
      [views]) are only tested for membership and assigned by key: they are
      [gmap string _].
    - Dictionaries that the code iterates over (the [local_motors] argument,
      a view's [local_motors] and [local_to_bus], call payloads and results)
      are association lists in insertion order, with Python's
      [d[k] = v] as [dict_setitem].
    - A method is a computation [Py S A]: it takes the state of the objects
      it may mutate and gives back their state together with either a
      result or the exception raised.  An exception does not undo the
      mutations made before it.
    - The bus handle ([FeetechMotorsBus]) lives outside these sources; it is
      an interface ([MotorsBus]) and the code is embedded over any
      implementation of it. *)

From stdpp Require Import base option strings list gmap fin_maps.
From Stdlib Require Import ZArith Lia.

Local Open Scope Z_scope.

(** ** Python exceptions and computations *)

(** The handle's own failures (I/O errors and the like) are opaque to this
    layer; they are carried by their message. *)
Definition bus_exn := string.

Inductive exn :=
| ValueError (msg : string)
| RuntimeError (msg : string)
| KeyError (key : string)
| TypeError (msg : string)
| BusError (e : bus_exn).

Inductive outcome (A : Type) :=
| Return (a : A)
| Raise (e : exn).
Arguments Return {A} a.
Arguments Raise {A} e.

Definition Py (S A : Type) : Type := S → S * outcome A.

Definition py_ret {S A} (a : A) : Py S A := λ s, (s, Return a).

Definition py_bind {S A C} (f : A → Py S C) (c : Py S A) : Py S C :=
  λ s, match c s with
       | (s', Return a) => f a s'
       | (s', Raise e) => (s', Raise e)
       end.

#[export] Instance Py_ret {S} : MRet (Py S) := @py_ret S.
#[export] Instance Py_bind {S} : MBind (Py S) := @py_bind S.

Definition raise {S A} (e : exn) : Py S A := λ s, (s, Raise e).
Definition get {S} : Py S S := λ s, (s, Return s).
Definition put {S} (s : S) : Py S unit := λ _, (s, Return tt).
Definition modify {S} (f : S → S) : Py S unit := λ s, (f s, Return tt).

Definition raises {A} (o : outcome A) : bool :=
  match o with Raise _ => true | Return _ => false end.

(** ** Insertion-ordered dictionaries *)

Abbreviation pydict K A := (list (K * A)).

Section pydict.
Context {K : Type} `{EqDecision K} {A : Type}.

(** [d.get(k)]: the value bound to [k], if any. *)
Fixpoint dict_get (d : pydict K A) (k : K) : option A :=
  match d with
  | [] => None
  | (k', v) :: d' => if decide (k' = k) then Some v else dict_get d' k
  end.

(** [k in d] *)
Definition dict_contains (d : pydict K A) (k : K) : bool :=
  match dict_get d k with Some _ => true | None => false end.

(** [d[k] = v]: overwrite in place when [k] is bound, else append. *)
Fixpoint dict_setitem (d : pydict K A) (k : K) (v : A) : pydict K A :=
  match d with
  | [] => [(k, v)]
  | (k', v') :: d' =>
      if decide (k' = k) then (k', v) :: d' else (k', v') :: dict_setitem d' k v
  end.

(** [list(d)]: the keys in iteration order. *)
Definition dict_keys (d : pydict K A) : list K := d.*1.

(** [{k: v for k, v in items}] *)
Definition dict_of_items (items : list (K * A)) : pydict K A :=
  foldl (λ d kv, dict_setitem d kv.1 kv.2) [] items.
End pydict.

(** ** Data model *)

(** Modelled from the spec: the normalization mode of a motor is an
    enumeration declared in [lerobot.motors], outside these sources; this
    code only copies it.  It is represented by the member's name. *)
Definition MotorNormMode := string.

Module Motor.
Record t := make { id : Z; model : string; norm_mode : MotorNormMode }.
End Motor.

(** Modelled from the spec: a per-motor calibration payload (home offset,
    range limits), declared in [lerobot.motors]; opaque to this code beyond
    storage by motor name. *)
Module MotorCalibration.
Record t := make { homing_offset : Z; range_min : Z; range_max : Z }.
End MotorCalibration.

(** [config_xlerobot.SharedBusAssemblyConfig] *)
Module SharedBusAssemblyConfig.
Record t := make {
  type : string;
  port : string;
  protocol_version : Z;
  handshake_on_connect : bool
}.
End SharedBusAssemblyConfig.

(** The [motor] argument of single-motor operations: [str | int | None]. *)
Inductive motor_arg :=
| MotorNone
| MotorId (i : Z)
| MotorName (s : string).

(** The [motors] argument of subset operations:
    [int | str | list[str] | None]. *)
Inductive motors_arg :=
| MotorsNone
| MotorsName (s : string)
| MotorsList (l : list string)
| MotorsId (i : Z).

(** ** The bus handle interface *)

(** A call on the handle: the handle after the call, and its result or the
    error it raised. *)
Definition bus_call (B A : Type) : Type := B → B * (bus_exn + A).

(** Modelled from the spec: the Bus Handle, [lerobot.motors.feetech.
    FeetechMotorsBus], is an external collaborator: a synchronous driver
    with connect, disconnect, single and batch register read and write, and
    calibration storage.  Only the members this layer calls are listed;
    [bus_bool] is the truth value of the handle object as tested by
    [if self.bus]. *)
Class MotorsBus (Value B : Type) := {
  bus_init : string → gmap string Motor.t →
             option (gmap string MotorCalibration.t) → Z → bus_exn + B;
  bus_bool : B → bool;
  bus_is_connected : B → bool;
  bus_calibration : B → gmap string MotorCalibration.t;
  bus_connect : bool → bus_call B unit;
  bus_disconnect : bool → bus_call B unit;
  bus_disable_torque : list string → Z → bus_call B unit;
  bus_enable_torque : list string → Z → bus_call B unit;
  bus_configure_motors : list string → bus_call B unit;
  bus_write : string → motor_arg → Value → bool → Z → bus_call B unit;
  bus_sync_write : string → pydict string Value → bool → Z → bus_call B unit;
  bus_sync_read : string → list string → bool → Z →
                  bus_call B (pydict string Value);
  bus_set_half_turn_homings : list string → bus_call B (pydict string Z);
  bus_record_ranges_of_motion :
    list string → bus_call B (pydict string Z * pydict string Z);
  bus_write_calibration : pydict string MotorCalibration.t → bus_call B unit;
  bus_setup_motor : motor_arg → option Z → option Z → bus_call B unit
}.

(** ** Views and managers *)

(** [FeetechBusView].  The [manager] field is a reference to the shared
    manager object: the operations of a view take the manager's state as
    the state they run in. *)
Record FeetechBusView := {
  local_motors : pydict string Motor.t;
  local_to_bus : pydict string string;
  _connected : bool
}.

(** [FeetechBusManager].  [views] keeps each view as [register_component]
    built it; the code never reads it back. *)
Record FeetechBusManager (B : Type) := {
  name : string;
  config : SharedBusAssemblyConfig.t;
  _motor_defs : gmap string Motor.t;
  _calibration : gmap string MotorCalibration.t;
  views : gmap string FeetechBusView;
  bus : option B;
  _refcount : Z
}.
Arguments name {B} _.
Arguments config {B} _.
Arguments _motor_defs {B} _.
Arguments _calibration {B} _.
Arguments views {B} _.
Arguments bus {B} _.
Arguments _refcount {B} _.

Module Manager.
Section manager.
Context {Value B : Type} `{!MotorsBus Value B}.

Abbreviation M := (FeetechBusManager B).

(** [FeetechBusManager.__init__] *)
Definition __init__ (name : string) (config : SharedBusAssemblyConfig.t) : M :=
  {| name := name; config := config; _motor_defs := ∅; _calibration := ∅;
     views := ∅; bus := None; _refcount := 0 |}.

Definition set_motor_def (k : string) (v : Motor.t) (m : M) : M :=
  {| name := name m; config := config m;
     _motor_defs := <[k := v]> (_motor_defs m);
     _calibration := _calibration m; views := views m; bus := bus m;
     _refcount := _refcount m |}.

Definition set_calibration (k : string) (v : MotorCalibration.t) (m : M) : M :=
  {| name := name m; config := config m; _motor_defs := _motor_defs m;
     _calibration := <[k := v]> (_calibration m); views := views m;
     bus := bus m; _refcount := _refcount m |}.

Definition set_view (k : string) (v : FeetechBusView) (m : M) : M :=
  {| name := name m; config := config m; _motor_defs := _motor_defs m;
     _calibration := _calibration m; views := <[k := v]> (views m);
     bus := bus m; _refcount := _refcount m |}.

Definition set_bus (b : option B) (m : M) : M :=
  {| name := name m; config := config m; _motor_defs := _motor_defs m;
     _calibration := _calibration m; views := views m; bus := b;
     _refcount := _refcount m |}.

Definition set_refcount (n : Z) (m : M) : M :=
  {| name := name m; config := config m; _motor_defs := _motor_defs m;
     _calibration := _calibration m; views := views m; bus := bus m;
     _refcount := n |}.

(** The message of the [ValueError] raised on a name collision. *)
Definition collision_message (mgr_name bus_name : string) : string :=
  "Motor name collision on shared bus '" +:+ mgr_name +:+ "': " +:+ bus_name.

(** The motor stored for a local motor: same model and normalization
    mode, id shifted by the offset. *)
Definition updated_motor (motor : Motor.t) (motor_id_offset : Z) : Motor.t :=
  Motor.make (Motor.id motor + motor_id_offset) (Motor.model motor)
             (Motor.norm_mode motor).

(** [initial_calibration and motor_name in initial_calibration], giving
    the entry to copy. *)
Definition initial_entry (initial_calibration : option (pydict string MotorCalibration.t))
    (motor_name : string) : option MotorCalibration.t :=
  match initial_calibration with
  | None => None
  | Some [] => None
  | Some d => dict_get d motor_name
  end.

(** The loop of [register_component] over [local_motors.items()], with
    the two local dictionaries built so far as accumulators. *)
Fixpoint register_loop (items : list (string * Motor.t)) (prefix : string)
    (motor_id_offset : Z)
    (initial_calibration : option (pydict string MotorCalibration.t))
    (local_copy : pydict string Motor.t) (mapping : pydict string string)
    : Py M (pydict string Motor.t * pydict string string) :=
  match items with
  | [] => mret (local_copy, mapping)
  | (motor_name, motor) :: rest =>
      let bus_name := prefix +:+ motor_name in
      m ← get;
      if decide (is_Some (_motor_defs m !! bus_name)) then
        raise (ValueError (collision_message (name m) bus_name))
      else
        let updated := updated_motor motor motor_id_offset in
        modify (set_motor_def bus_name updated);;
        let local_copy' :=
          dict_setitem local_copy motor_name
            (Motor.make (Motor.id updated) (Motor.model updated)
                        (Motor.norm_mode updated)) in
        let mapping' := dict_setitem mapping motor_name bus_name in
        match initial_entry initial_calibration motor_name with
        | Some c => modify (set_calibration bus_name c)
        | None => mret tt
        end;;
        register_loop rest prefix motor_id_offset initial_calibration
                      local_copy' mapping'
  end.

(** [FeetechBusManager.register_component] *)
Definition register_component (component_name : string)
    (local_motors : pydict string Motor.t) (prefix : string)
    (motor_id_offset : Z)
    (initial_calibration : option (pydict string MotorCalibration.t))
    : Py M FeetechBusView :=
  '(local_copy, mapping) ←
    register_loop local_motors prefix motor_id_offset initial_calibration [] [];
  let view := {| local_motors := local_copy; local_to_bus := mapping;
                 _connected := false |} in
  modify (set_view component_name view);;
  mret view.

(** A call on the handle [b] held in [self.bus]: the handle is an object
    mutated in place, and an error it raises propagates unchanged. *)
Definition call_bus {A} (b : B) (c : bus_call B A) : Py M A :=
  λ m, match c b with
       | (b', inr a) => (set_bus (Some b') m, Return a)
       | (b', inl e) => (set_bus (Some b') m, Raise (BusError e))
       end.

(** [FeetechBusManager._ensure_bus].  The constructor is handed the
    manager's two dictionaries themselves (the calibration table only when
    it is not empty).  Whether the handle keeps these references or copies
    from them is the handle's business, outside these sources: the handle
    of the model holds what the tables contained when it was built, and
    the statements on [register_component] say of an existing handle only
    that it is neither replaced nor dropped. *)
Definition _ensure_bus : Py M unit :=
  m ← get;
  match bus m with
  | Some _ => mret tt
  | None =>
      let calibration :=
        if decide (_calibration m = ∅) then None else Some (_calibration m) in
      match bus_init (SharedBusAssemblyConfig.port (config m)) (_motor_defs m)
                     calibration
                     (SharedBusAssemblyConfig.protocol_version (config m)) with
      | inr b => modify (set_bus (Some b))
      | inl e => raise (BusError e)
      end
  end.

(** [FeetechBusManager.acquire] *)
Definition acquire (handshake : option bool) : Py M unit :=
  _ensure_bus;;
  modify (λ m, set_refcount (_refcount m + 1) m);;
  m ← get;
  match bus m with
  | Some b =>
      if bool_decide (_refcount m = 1) && bus_bool b && negb (bus_is_connected b)
      then
        let handshake_flag :=
          match handshake with
          | None => SharedBusAssemblyConfig.handshake_on_connect (config m)
          | Some h => h
          end in
        call_bus b (bus_connect handshake_flag)
      else mret tt
  | None => mret tt
  end.

(** [FeetechBusManager.release] *)
Definition release (disable_torque : bool) : Py M unit :=
  m ← get;
  if bool_decide (_refcount m = 0) then mret tt
  else
    modify (λ m, set_refcount (_refcount m - 1) m);;
    m ← get;
    match bus m with
    | Some b =>
        if bool_decide (_refcount m = 0) && bus_bool b && bus_is_connected b
        then call_bus b (bus_disconnect disable_torque)
        else mret tt
    | None => mret tt
    end.

(** [FeetechBusManager.is_connected] *)
Definition is_connected (m : M) : bool :=
  match bus m with
  | Some b => bus_bool b && bus_is_connected b
  | None => false
  end.

End manager.
End Manager.

Module View.
Section view.
Context {Value B : Type} `{!MotorsBus Value B}.

Abbreviation M := (FeetechBusManager B).

(** A pure step that may raise, run inside a computation. *)
Definition lift {S A} (o : outcome A) : Py S A := λ s, (s, o).

(** [d[k]], raising [KeyError] on a missing key. *)
Definition getitem {A} (d : pydict string A) (k : string) : outcome A :=
  match dict_get d k with
  | Some v => Return v
  | None => Raise (KeyError k)
  end.

(** [[d[name] for name in names]]: the first missing name raises. *)
Fixpoint getitems {A} (d : pydict string A) (names : list string)
    : outcome (list A) :=
  match names with
  | [] => Return []
  | n :: rest =>
      match dict_get d n with
      | None => Raise (KeyError n)
      | Some v =>
          match getitems d rest with
          | Return vs => Return (v :: vs)
          | Raise e => Raise e
          end
      end
  end.

(** [FeetechBusView._translate_motor] *)
Definition _translate_motor (self : FeetechBusView) (motor : motor_arg)
    : outcome motor_arg :=
  match motor with
  | MotorNone => Return MotorNone
  | MotorId i => Return (MotorId i)
  | MotorName s =>
      match getitem (local_to_bus self) s with
      | Return g => Return (MotorName g)
      | Raise e => Raise e
      end
  end.

(** [FeetechBusView._translate_motors] *)
Definition _translate_motors (self : FeetechBusView) (motors : motors_arg)
    : outcome (list string) :=
  match motors with
  | MotorsNone => getitems (local_to_bus self) (dict_keys (local_motors self))
  | MotorsName s =>
      match getitem (local_to_bus self) s with
      | Return g => Return [g]
      | Raise e => Raise e
      end
  | MotorsList l => getitems (local_to_bus self) l
  | MotorsId _ => Raise (TypeError "'int' object is not iterable")
  end.

(** The comprehension of [_translate_dict], with the dictionary built so
    far as accumulator. *)
Fixpoint translate_items {A} (l2b : pydict string string)
    (items : list (string * A)) (acc : pydict string A)
    : outcome (pydict string A) :=
  match items with
  | [] => Return acc
  | (n, value) :: rest =>
      match dict_get l2b n with
      | None => Raise (KeyError n)
      | Some g => translate_items l2b rest (dict_setitem acc g value)
      end
  end.

(** [FeetechBusView._translate_dict] *)
Definition _translate_dict {A} (self : FeetechBusView)
    (values : pydict string A) : outcome (pydict string A) :=
  translate_items (local_to_bus self) values [].

(** The [reverse] dictionary of [_map_dict_to_local]. *)
Definition reverse_map (l2b : pydict string string) : pydict string string :=
  dict_of_items ((λ kv, (kv.2, kv.1)) <$> l2b).

(** [FeetechBusView._map_dict_to_local] *)
Definition _map_dict_to_local {A} (self : FeetechBusView)
    (values : pydict string A) : pydict string A :=
  let reverse := reverse_map (local_to_bus self) in
  dict_of_items
    (omap (λ kv, match dict_get reverse kv.1 with
                 | Some l => Some (l, kv.2)
                 | None => None
                 end) values).

(** [FeetechBusView.motors] *)
Definition motors (self : FeetechBusView) : pydict string Motor.t :=
  local_motors self.

(** [FeetechBusView.port] *)
Definition port (m : M) : string := SharedBusAssemblyConfig.port (config m).

(** [FeetechBusView.is_connected] *)
Definition is_connected (m : M) : bool :=
  match bus m with
  | Some b => bus_bool b && bus_is_connected b
  | None => false
  end.

(** [all(self.local_to_bus[name] in calibration for name in names)]:
    stops at the first name that is not calibrated, raises at the first
    name it cannot translate. *)
Fixpoint all_calibrated (l2b : pydict string string)
    (calibration : gmap string MotorCalibration.t) (names : list string)
    : outcome bool :=
  match names with
  | [] => Return true
  | n :: rest =>
      match dict_get l2b n with
      | None => Raise (KeyError n)
      | Some g =>
          if decide (is_Some (calibration !! g))
          then all_calibrated l2b calibration rest
          else Return false
      end
  end.

(** [FeetechBusView.is_calibrated] *)
Definition is_calibrated (self : FeetechBusView) (m : M) : outcome bool :=
  match bus m with
  | None => Return false
  | Some b =>
      if negb (bus_is_connected b) then Return false
      else all_calibrated (local_to_bus self) (bus_calibration b)
                          (dict_keys (local_motors self))
  end.

(** The guard [if subset and self.manager.bus]: the handle to call, if
    any. *)
Definition guarded_bus (subset : list string) (m : M) : option B :=
  match subset with
  | [] => None
  | _ :: _ =>
      match bus m with
      | Some b => if bus_bool b then Some b else None
      | None => None
      end
  end.

(** [FeetechBusView.disable_torque] *)
Definition disable_torque (self : FeetechBusView) (motors : motors_arg)
    (num_retry : Z) : Py M unit :=
  subset ← lift (_translate_motors self motors);
  m ← get;
  match guarded_bus subset m with
  | Some b => Manager.call_bus b (bus_disable_torque subset num_retry)
  | None => mret tt
  end.

(** [FeetechBusView.enable_torque] *)
Definition enable_torque (self : FeetechBusView) (motors : motors_arg)
    (num_retry : Z) : Py M unit :=
  subset ← lift (_translate_motors self motors);
  m ← get;
  match guarded_bus subset m with
  | Some b => Manager.call_bus b (bus_enable_torque subset num_retry)
  | None => mret tt
  end.

(** [FeetechBusView.configure_motors] *)
Definition configure_motors (self : FeetechBusView) (motors : motors_arg)
    : Py M unit :=
  subset ← lift (_translate_motors self motors);
  m ← get;
  match guarded_bus subset m with
  | Some b => Manager.call_bus b (bus_configure_motors subset)
  | None => mret tt
  end.

(** [RuntimeError("Shared bus not initialized.")] *)
Definition UninitializedBusError : exn :=
  RuntimeError "Shared bus not initialized.".

(** The guard [if self.manager.bus is None: raise ...] followed by the
    rest of the method, which gets the handle. *)
Definition with_bus {A} (k : B → Py M A) : Py M A :=
  m ← get;
  match bus m with
  | None => raise UninitializedBusError
  | Some b => k b
  end.

(** [FeetechBusView.write] *)
Definition write (self : FeetechBusView) (data_name : string)
    (motor : motor_arg) (value : Value) (normalize : bool) (num_retry : Z)
    : Py M unit :=
  with_bus (λ b,
    target ← lift (_translate_motor self motor);
    Manager.call_bus b (bus_write data_name target value normalize num_retry)).

(** [FeetechBusView.sync_write] *)
Definition sync_write (self : FeetechBusView) (data_name : string)
    (values : pydict string Value) (normalize : bool) (num_retry : Z)
    : Py M unit :=
  with_bus (λ b,
    payload ← lift (_translate_dict self values);
    Manager.call_bus b (bus_sync_write data_name payload normalize num_retry)).

(** [FeetechBusView.sync_read] *)
Definition sync_read (self : FeetechBusView) (data_name : string)
    (motors : motors_arg) (normalize : bool) (num_retry : Z)
    : Py M (pydict string Value) :=
  with_bus (λ b,
    subset ← lift (_translate_motors self motors);
    result ← Manager.call_bus b
               (bus_sync_read data_name subset normalize num_retry);
    mret (_map_dict_to_local self result)).

(** [FeetechBusView.set_half_turn_homings] *)
Definition set_half_turn_homings (self : FeetechBusView) (motors : motors_arg)
    : Py M (pydict string Z) :=
  with_bus (λ b,
    subset ← lift (_translate_motors self motors);
    result ← Manager.call_bus b (bus_set_half_turn_homings subset);
    mret (_map_dict_to_local self result)).

(** [FeetechBusView.record_ranges_of_motion] *)
Definition record_ranges_of_motion (self : FeetechBusView)
    (motors : motors_arg) : Py M (pydict string Z * pydict string Z) :=
  with_bus (λ b,
    subset ← lift (_translate_motors self motors);
    result ← Manager.call_bus b (bus_record_ranges_of_motion subset);
    mret (_map_dict_to_local self result.1, _map_dict_to_local self result.2)).

(** [FeetechBusView.write_calibration] *)
Definition write_calibration (self : FeetechBusView)
    (calibration : pydict string MotorCalibration.t) : Py M unit :=
  with_bus (λ b,
    translated ← lift (_translate_dict self calibration);
    Manager.call_bus b (bus_write_calibration translated)).

(** [FeetechBusView.setup_motor] *)
Definition setup_motor (self : FeetechBusView) (motor : motor_arg)
    (initial_baudrate initial_id : option Z) : Py M unit :=
  with_bus (λ b,
    target ← lift (_translate_motor self motor);
    Manager.call_bus b (bus_setup_motor target initial_baudrate initial_id)).

(** The state of a view together with the manager it refers to. *)
Abbreviation VM := (FeetechBusView * M)%type.

(** A method of the manager (or a delegated operation, which leaves the
    view as it is) called from a method that may also mutate the view. *)
Definition on_manager {A} (c : Py M A) : Py VM A :=
  λ s, match c s.2 with (m', o) => ((s.1, m'), o) end.

Definition set_connected (flag : bool) (s : VM) : VM :=
  ({| local_motors := local_motors s.1; local_to_bus := local_to_bus s.1;
      _connected := flag |}, s.2).

(** [FeetechBusView.connect] *)
Definition connect (handshake : option bool) : Py VM unit :=
  let handshake_flag := handshake in
  on_manager (Manager.acquire handshake_flag);;
  modify (set_connected true).

(** [FeetechBusView.disconnect] *)
Definition disconnect (disable_torque_flag : bool) : Py VM unit :=
  s ← get;
  if negb (_connected s.1) then mret tt
  else
    (if disable_torque_flag && is_connected s.2
     then on_manager (disable_torque s.1 MotorsNone 0)
     else mret tt);;
    on_manager (Manager.release disable_torque_flag);;
    modify (set_connected false).

(** [FeetechBusView.calibration].  The handle's table is a [gmap], which
    does not keep Python's insertion order: the entries of the result are
    those of the source, their order is not tracked. *)
Definition calibration (self : FeetechBusView) (m : M)
    : pydict string MotorCalibration.t :=
  match bus m with
  | None => []
  | Some b => _map_dict_to_local self (map_to_list (bus_calibration b))
  end.

End view.
End View.

(** ** Component assembly

    [shared_bus_mode/component_assembly.py]: the binder that builds the
    sub-devices of an assembly and registers each on its shared bus. *)

(** The values of a free-form configuration mapping ([dict[str, Any]]). *)
#[warnings="-register-all"]
Inductive pyval :=
| PyNone
| PyBool (b : bool)
| PyInt (i : Z)
| PyStr (s : string)
| PyList (l : list pyval)
| PyDict (d : list (string * pyval)).

(** [d.setdefault(k, v)]: bind [k] to [v] unless [k] is bound. *)
Definition dict_setdefault {K} `{EqDecision K} {A} (d : pydict K A) (k : K)
    (v : A) : pydict K A :=
  if dict_contains d k then d else dict_setitem d k v.

(** [config_xlerobot.SharedComponentAssemblyConfig].  [action_aliases] is
    read as [action_aliases or []]: [None] stands for a value given as
    [None]. *)
Module SharedComponentAssemblyConfig.
Record t := make {
  name : string;
  type : string;
  role : string;
  bus : string;
  prefix : string;
  motor_id_offset : Z;
  action_aliases : option (list string);
  config : pydict string pyval
}.
End SharedComponentAssemblyConfig.

(** The sub-device classes the registry knows, each standing for the pair
    of a robot class and its configuration class. *)
Inductive component_class :=
| SO101Follower
| LeKiwiBase
| XLeRobotMount.

(** Modelled from the spec: the sub-device implementations and their
    configuration classes ([SO101Follower], [LeKiwiBase], [XLeRobotMount]
    and their configs) are external collaborators, specified only at the
    boundary the binder uses: constructing a configuration from keyword
    arguments, constructing the sub-device from it, reading the motor set
    of its private bus and its calibration, and replacing its bus
    reference. *)
Class SubDevices (Config Robot : Type) := {
  config_cls : component_class → pydict string pyval → outcome Config;
  robot_cls : component_class → Config → outcome Robot;
  robot_motors : Robot → pydict string Motor.t;
  robot_calibration : Robot → pydict string MotorCalibration.t;
  robot_set_bus : FeetechBusView → Robot → Robot
}.

Module Assembly.
Section assembly.
Context {Value B Config Robot : Type}
        `{!MotorsBus Value B} `{!SubDevices Config Robot}.

Abbreviation M := (FeetechBusManager B).
Abbreviation Spec := SharedComponentAssemblyConfig.t.

(** [ComponentBinding].  [bus_manager] refers to a manager of the returned
    dictionary: it is that manager's key. *)
Record ComponentBinding := {
  name : string;
  role : string;
  prefix : string;
  aliases : list string;
  robot : Robot;
  bus_manager : string
}.

(** [COMPONENT_REGISTRY] *)
Definition COMPONENT_REGISTRY : pydict string component_class :=
  [("so101_follower"%string, SO101Follower);
   ("lekiwi_base"%string, LeKiwiBase);
   ("xlerobot_mount"%string, XLeRobotMount)].

(** [_make_config] *)
Definition _make_config (cls : component_class) (raw_cfg : pydict string pyval)
    (port : string) : outcome Config :=
  let cfg_copy := raw_cfg in
  let cfg_copy := dict_setdefault cfg_copy "port"%string (PyStr port) in
  config_cls cls cfg_copy.

(** The alias list of a binding:
    [list(action_aliases or [])], with the prefix appended when it is not
    empty and not yet in the list. *)
Definition binding_aliases (action_aliases : option (list string))
    (prefix : string) : list string :=
  let aliases := default [] action_aliases in
  if negb (bool_decide (prefix = ""%string))
     && negb (bool_decide (prefix ∈ aliases))
  then aliases ++ [prefix]
  else aliases.

Definition unsupported_type_message (type : string) : string :=
  "Unsupported shared component type '" +:+ type +:+ "'.".

Definition unknown_bus_message (component bus_name : string) : string :=
  "Component '" +:+ component +:+ "' references unknown bus '"
  +:+ bus_name +:+ "'.".

(** A method run on the manager object stored under [k]: the object is
    mutated in place. *)
Definition on_manager_at {A} (k : string) (bus_manager : M) (c : Py M A)
    : Py (pydict string M) A :=
  λ managers, (dict_setitem managers k (c bus_manager).1, (c bus_manager).2).

(** One turn of the loop of [build_shared_components]. *)
Definition bind_component (component_spec : Spec)
    : Py (pydict string M) ComponentBinding :=
  match dict_get COMPONENT_REGISTRY
          (SharedComponentAssemblyConfig.type component_spec) with
  | None =>
      raise (ValueError (unsupported_type_message
                           (SharedComponentAssemblyConfig.type component_spec)))
  | Some cls =>
      bus_managers ← get;
      match dict_get bus_managers
              (SharedComponentAssemblyConfig.bus component_spec) with
      | None =>
          raise (ValueError
                   (unknown_bus_message
                      (SharedComponentAssemblyConfig.name component_spec)
                      (SharedComponentAssemblyConfig.bus component_spec)))
      | Some bus_manager =>
          component_config ←
            View.lift (_make_config cls
                         (SharedComponentAssemblyConfig.config component_spec)
                         (SharedBusAssemblyConfig.port (config bus_manager)));
          robot ← View.lift (robot_cls cls component_config);
          view ← on_manager_at
                   (SharedComponentAssemblyConfig.bus component_spec) bus_manager
                   (Manager.register_component
                      (SharedComponentAssemblyConfig.name component_spec)
                      (robot_motors robot)
                      (SharedComponentAssemblyConfig.prefix component_spec)
                      (SharedComponentAssemblyConfig.motor_id_offset component_spec)
                      (Some (robot_calibration robot)));
          let robot := robot_set_bus view robot in
          let aliases :=
            binding_aliases
              (SharedComponentAssemblyConfig.action_aliases component_spec)
              (SharedComponentAssemblyConfig.prefix component_spec) in
          mret {| name := SharedComponentAssemblyConfig.name component_spec;
                  role := SharedComponentAssemblyConfig.role component_spec;
                  prefix := SharedComponentAssemblyConfig.prefix component_spec;
                  aliases := aliases;
                  robot := robot;
                  bus_manager := SharedComponentAssemblyConfig.bus component_spec |}
      end
  end.

(** The loop of [build_shared_components], with the bindings made so far
    as accumulator. *)
Fixpoint bind_components (specs : list Spec) (bindings : list ComponentBinding)
    : Py (pydict string M) (list ComponentBinding) :=
  match specs with
  | [] => mret bindings
  | component_spec :: rest =>
      binding ← bind_component component_spec;
      bind_components rest (bindings ++ [binding])
  end.

(** [build_shared_components], on the two attributes of the configuration
    it reads. *)
Definition build_shared_components
    (shared_bus_configs : pydict string SharedBusAssemblyConfig.t)
    (shared_component_configs : list Spec)
    : outcome (list ComponentBinding * pydict string M) :=
  let bus_managers :=
    dict_of_items ((λ kv, (kv.1, Manager.__init__ kv.1 kv.2))
                     <$> shared_bus_configs) in
  match bind_components shared_component_configs [] bus_managers with
  | (bus_managers, Return bindings) => Return (bindings, bus_managers)
  | (_, Raise e) => Raise e
  end.

End assembly.
End Assembly.

(** ** Assembly configuration

    [config_xlerobot.XLeRobotConfig._init_shared_mode]: the validation of
    the shared-bus part of the configuration. *)

(** An entry of [shared_buses] or of [shared_components]: an instance of
    the dataclass already, or the keyword arguments to construct one
    from. *)
Inductive config_entry (T : Type) :=
| Instance (x : T)
| Kwargs (d : pydict string pyval).
Arguments Instance {T} x.
Arguments Kwargs {T} d.

(** The constructors that [@dataclass] generates for
    [SharedBusAssemblyConfig] and [SharedComponentAssemblyConfig], called
    with keyword arguments ([Cls( **d )]).  Which keys they accept, what
    they give and what they raise otherwise is left open. *)
Class Dataclasses := {
  bus_config_of_kwargs :
    pydict string pyval → outcome SharedBusAssemblyConfig.t;
  component_config_of_kwargs :
    pydict string pyval → outcome SharedComponentAssemblyConfig.t
}.

Module XLeRobotConfig.
Section config.
Context {Part : Type} `{!Dataclasses}.

(** The attributes of [XLeRobotConfig] that [_init_shared_mode] reads or
    assigns.  [Part] is whatever describes the arms, the base or the mount
    (a mapping or a configuration object); [None] in the last two fields
    stands for an attribute not assigned yet. *)
Record t := make {
  arms : option Part;
  base : option Part;
  mount : option Part;
  arms_config : option Part;
  base_config : option Part;
  mount_config : option Part;
  base_type : option string;
  bus_mode : string;
  shared_buses : pydict string (config_entry SharedBusAssemblyConfig.t);
  shared_components : list (config_entry SharedComponentAssemblyConfig.t);
  shared_bus_configs : option (pydict string SharedBusAssemblyConfig.t);
  shared_component_configs : option (list SharedComponentAssemblyConfig.t)
}.

Definition missing_buses_message : string :=
  "shared_buses must be provided when bus_mode is 'shared_buses'.".

Definition missing_components_message : string :=
  "shared_components must be provided when bus_mode is 'shared_buses'.".

Definition unsupported_bus_message : string :=
  "Only 'feetech' shared buses are supported currently.".

Definition unknown_bus_message (component bus_name : string) : string :=
  "Component '" +:+ component +:+ "' references unknown bus '"
  +:+ bus_name +:+ "'.".

(** The six assignments of [None] to the separate-mode attributes, and to
    [base_type]. *)
Definition clear_parts (self : t) : t :=
  {| arms := None; base := None; mount := None;
     arms_config := None; base_config := None; mount_config := None;
     base_type := None;
     bus_mode := bus_mode self;
     shared_buses := shared_buses self;
     shared_components := shared_components self;
     shared_bus_configs := shared_bus_configs self;
     shared_component_configs := shared_component_configs self |}.

Definition set_shared_configs
    (buses : pydict string SharedBusAssemblyConfig.t)
    (components : list SharedComponentAssemblyConfig.t) (self : t) : t :=
  {| arms := arms self; base := base self; mount := mount self;
     arms_config := arms_config self; base_config := base_config self;
     mount_config := mount_config self; base_type := base_type self;
     bus_mode := bus_mode self;
     shared_buses := shared_buses self;
     shared_components := shared_components self;
     shared_bus_configs := Some buses;
     shared_component_configs := Some components |}.

(** The loop over [self.shared_buses.items()], with the local dictionary
    built so far as accumulator. *)
Fixpoint convert_buses
    (items : list (string * config_entry SharedBusAssemblyConfig.t))
    (shared_buses : pydict string SharedBusAssemblyConfig.t)
    : outcome (pydict string SharedBusAssemblyConfig.t) :=
  match items with
  | [] => Return shared_buses
  | (name, cfg) :: rest =>
      match (match cfg with
             | Instance c => Return c
             | Kwargs d => bus_config_of_kwargs d
             end) with
      | Raise e => Raise e
      | Return c =>
          let shared_buses := dict_setitem shared_buses name c in
          if bool_decide (SharedBusAssemblyConfig.type c ≠ "feetech"%string)
          then Raise (ValueError unsupported_bus_message)
          else convert_buses rest shared_buses
      end
  end.

(** The loop over [self.shared_components], with the local list built so
    far as accumulator. *)
Fixpoint convert_components
    (shared_buses : pydict string SharedBusAssemblyConfig.t)
    (items : list (config_entry SharedComponentAssemblyConfig.t))
    (shared_components : list SharedComponentAssemblyConfig.t)
    : outcome (list SharedComponentAssemblyConfig.t) :=
  match items with
  | [] => Return shared_components
  | item :: rest =>
      match (match item with
             | Instance c => Return c
             | Kwargs d => component_config_of_kwargs d
             end) with
      | Raise e => Raise e
      | Return c =>
          let shared_components := shared_components ++ [c] in
          if negb (dict_contains shared_buses
                     (SharedComponentAssemblyConfig.bus c))
          then Raise (ValueError
                        (unknown_bus_message
                           (SharedComponentAssemblyConfig.name c)
                           (SharedComponentAssemblyConfig.bus c)))
          else convert_components shared_buses rest shared_components
      end
  end.

(** [XLeRobotConfig._init_shared_mode] *)
Definition _init_shared_mode : Py t unit :=
  self ← get;
  match shared_buses self with
  | [] => raise (ValueError missing_buses_message)
  | _ :: _ =>
      match shared_components self with
      | [] => raise (ValueError missing_components_message)
      | _ :: _ =>
          modify clear_parts;;
          buses ← View.lift (convert_buses (shared_buses self) []);
          components ←
            View.lift (convert_components buses (shared_components self) []);
          modify (set_shared_configs buses components)
      end
  end.

End config.
Arguments t : clear implicits.
End XLeRobotConfig.

(** ** A recording, echoing double of the bus handle

    A stand-in for the hardware used to observe what the layer does with
    its handle: it records every call it receives, in order, keeps the
    connection flag that [connect] and [disconnect] set, stores what is
    written to it and reads back what was stored. *)

Inductive bus_event (Value : Type) :=
| EvConnect (handshake : bool)
| EvDisconnect (disable_torque : bool)
| EvDisableTorque (motors : list string) (num_retry : Z)
| EvEnableTorque (motors : list string) (num_retry : Z)
| EvConfigureMotors (motors : list string)
| EvWrite (data_name : string) (motor : motor_arg) (value : Value)
          (normalize : bool) (num_retry : Z)
| EvSyncWrite (data_name : string) (values : pydict string Value)
              (normalize : bool) (num_retry : Z)
| EvSyncRead (data_name : string) (motors : list string)
             (normalize : bool) (num_retry : Z)
| EvSetHalfTurnHomings (motors : list string)
| EvRecordRangesOfMotion (motors : list string)
| EvWriteCalibration (calibration : pydict string MotorCalibration.t)
| EvSetupMotor (motor : motor_arg) (initial_baudrate initial_id : option Z).
Arguments EvConnect {Value} _.
Arguments EvDisconnect {Value} _.
Arguments EvDisableTorque {Value} _ _.
Arguments EvEnableTorque {Value} _ _.
Arguments EvConfigureMotors {Value} _.
Arguments EvWrite {Value} _ _ _ _ _.
Arguments EvSyncWrite {Value} _ _ _ _.
Arguments EvSyncRead {Value} _ _ _ _.
Arguments EvSetHalfTurnHomings {Value} _.
Arguments EvRecordRangesOfMotion {Value} _.
Arguments EvWriteCalibration {Value} _.
Arguments EvSetupMotor {Value} _ _ _.

Module EchoBus.
Section echo.
Context {Value : Type}.

(** Modelled from the spec: a test double of the Bus Handle that echoes
    back what was stored in it and observes the keys it is called with. *)
Record t := make {
  motors : gmap string Motor.t;
  calibration : gmap string MotorCalibration.t;
  is_connected : bool;
  (** what was written, by register name and motor name *)
  registers : pydict (string * string) Value;
  (** the calls received, oldest first *)
  calls : list (bus_event Value)
}.

Definition record (ev : bus_event Value) (b : t) : t :=
  make (motors b) (calibration b) (is_connected b) (registers b)
       (calls b ++ [ev]).

Definition set_is_connected (flag : bool) (b : t) : t :=
  make (motors b) (calibration b) flag (registers b) (calls b).

Definition set_registers (r : pydict (string * string) Value) (b : t) : t :=
  make (motors b) (calibration b) (is_connected b) r (calls b).

Definition set_calibration (c : gmap string MotorCalibration.t) (b : t) : t :=
  make (motors b) c (is_connected b) (registers b) (calls b).

Definition init (port : string) (motor_defs : gmap string Motor.t)
    (calibration : option (gmap string MotorCalibration.t))
    (protocol_version : Z) : bus_exn + t :=
  inr (make motor_defs (default ∅ calibration) false [] []).

Definition connect (handshake : bool) : bus_call t unit :=
  λ b, (set_is_connected true (record (EvConnect handshake) b), inr tt).

Definition disconnect (disable_torque : bool) : bus_call t unit :=
  λ b, (set_is_connected false (record (EvDisconnect disable_torque) b), inr tt).

Definition disable_torque (names : list string) (num_retry : Z)
    : bus_call t unit :=
  λ b, (record (EvDisableTorque names num_retry) b, inr tt).

Definition enable_torque (names : list string) (num_retry : Z)
    : bus_call t unit :=
  λ b, (record (EvEnableTorque names num_retry) b, inr tt).

Definition configure_motors (names : list string) : bus_call t unit :=
  λ b, (record (EvConfigureMotors names) b, inr tt).

(** Store every item of a batch under its register name. *)
Definition store (data_name : string) (values : pydict string Value)
    (r : pydict (string * string) Value) : pydict (string * string) Value :=
  foldl (λ r kv, dict_setitem r (data_name, kv.1) kv.2) r values.

(** Read the listed motors back; a motor never written is an error of the
    double. *)
Fixpoint fetch (data_name : string) (names : list string)
    (r : pydict (string * string) Value) (acc : pydict string Value)
    : bus_exn + pydict string Value :=
  match names with
  | [] => inr acc
  | n :: rest =>
      match dict_get r (data_name, n) with
      | Some v => fetch data_name rest r (dict_setitem acc n v)
      | None => inl ("nothing stored for " +:+ n)
      end
  end.

Definition write (data_name : string) (motor : motor_arg) (value : Value)
    (normalize : bool) (num_retry : Z) : bus_call t unit :=
  λ b,
    let b' := record (EvWrite data_name motor value normalize num_retry) b in
    match motor with
    | MotorName n =>
        (set_registers (dict_setitem (registers b') (data_name, n) value) b',
         inr tt)
    | _ => (b', inr tt)
    end.

Definition sync_write (data_name : string) (values : pydict string Value)
    (normalize : bool) (num_retry : Z) : bus_call t unit :=
  λ b,
    let b' := record (EvSyncWrite data_name values normalize num_retry) b in
    (set_registers (store data_name values (registers b')) b', inr tt).

Definition sync_read (data_name : string) (names : list string)
    (normalize : bool) (num_retry : Z) : bus_call t (pydict string Value) :=
  λ b,
    let b' := record (EvSyncRead data_name names normalize num_retry) b in
    (b', fetch data_name names (registers b') []).

Definition set_half_turn_homings (names : list string)
    : bus_call t (pydict string Z) :=
  λ b, (record (EvSetHalfTurnHomings names) b, inr ((λ n, (n, 0)) <$> names)).

Definition record_ranges_of_motion (names : list string)
    : bus_call t (pydict string Z * pydict string Z) :=
  λ b, (record (EvRecordRangesOfMotion names) b,
        inr ((λ n, (n, 0)) <$> names, (λ n, (n, 0)) <$> names)).

Definition write_calibration (c : pydict string MotorCalibration.t)
    : bus_call t unit :=
  λ b,
    let b' := record (EvWriteCalibration c) b in
    (set_calibration (foldl (λ t kv, <[kv.1 := kv.2]> t) (calibration b') c) b',
     inr tt).

Definition setup_motor (motor : motor_arg) (initial_baudrate initial_id : option Z)
    : bus_call t unit :=
  λ b, (record (EvSetupMotor motor initial_baudrate initial_id) b, inr tt).

End echo.
Arguments t : clear implicits.

#[global] Instance echo_bus {Value} : MotorsBus Value (t Value) := {|
  bus_init := init;
  bus_bool := λ _, true;
  bus_is_connected := is_connected;
  bus_calibration := calibration;
  bus_connect := connect;
  bus_disconnect := disconnect;
  bus_disable_torque := disable_torque;
  bus_enable_torque := enable_torque;
  bus_configure_motors := configure_motors;
  bus_write := write;
  bus_sync_write := sync_write;
  bus_sync_read := sync_read;
  bus_set_half_turn_homings := set_half_turn_homings;
  bus_record_ranges_of_motion := record_ranges_of_motion;
  bus_write_calibration := write_calibration;
  bus_setup_motor := setup_motor
|}.
End EchoBus.

(** The calls the manager's handle has received so far; none when the
    handle was never constructed. *)
Definition calls_seen {Value} (m : FeetechBusManager (EchoBus.t Value))
    : list (bus_event Value) :=
  match bus m with
  | Some b => EchoBus.calls b
  | None => []
  end.

(** ** Vocabulary of the statements *)

(** The flag [acquire] passes to the handle's [connect]: the caller's, or
    the configured one when the caller gives [None]. *)
Definition handshake_flag_of {B} (m : FeetechBusManager B) (h : option bool)
    : bool :=
  default (SharedBusAssemblyConfig.handshake_on_connect (config m)) h.

(** Run [f] on every element, in order, stopping at the first exception. *)
Fixpoint for_each {S X} (f : X → Py S unit) (xs : list X) : Py S unit :=
  match xs with
  | [] => mret tt
  | x :: rest => f x;; for_each f rest
  end.

(** The entries a registration adds to the Global Namespace for the listed
    local motors. *)
Definition add_defs (prefix : string) (motor_id_offset : Z)
    (items : list (string * Motor.t)) (defs : gmap string Motor.t)
    : gmap string Motor.t :=
  foldl (λ d kv, <[prefix +:+ kv.1 := Manager.updated_motor kv.2 motor_id_offset]> d)
        defs items.

(** The entries a registration adds to the Global Calibration Table for
    the listed local motors. *)
Definition add_calibration (prefix : string)
    (initial_calibration : option (pydict string MotorCalibration.t))
    (items : list (string * Motor.t))
    (table : gmap string MotorCalibration.t)
    : gmap string MotorCalibration.t :=
  foldl (λ t kv, match Manager.initial_entry initial_calibration kv.1 with
                 | Some c => <[prefix +:+ kv.1 := c]> t
                 | None => t
                 end)
        table items.

(** The manager once the listed local motors are committed. *)
Definition committed {B} (prefix : string) (motor_id_offset : Z)
    (initial_calibration : option (pydict string MotorCalibration.t))
    (items : list (string * Motor.t)) (m : FeetechBusManager B)
    : FeetechBusManager B :=
  {| name := name m; config := config m;
     _motor_defs := add_defs prefix motor_id_offset items (_motor_defs m);
     _calibration :=
       add_calibration prefix initial_calibration items (_calibration m);
     views := views m; bus := bus m; _refcount := _refcount m |}.

(** A local-to-global map is injective: no local name is bound twice, and
    no two local names go to the same bus-global name. *)
Definition injective_map (l2b : pydict string string) : Prop :=
  NoDup l2b.*1 ∧ NoDup l2b.*2.

(** Every listed name is a local name the map translates. *)
Definition translatable (l2b : pydict string string) (names : list string)
    : Prop :=
  ∀ n, n ∈ names → is_Some (dict_get l2b n).

(** The local names the [motors] argument of a subset operation stands
    for. *)
Definition named (self : FeetechBusView) (motors : motors_arg)
    : option (list string) :=
  match motors with
  | MotorsNone => Some (dict_keys (local_motors self))
  | MotorsName s => Some [s]
  | MotorsList l => Some l
  | MotorsId _ => None
  end.

(** [payload] is [values] with every local key replaced by its bus-global
    name, in the same order and with the same value. *)
Definition renamed {A} (l2b : pydict string string)
    (values payload : pydict string A) : Prop :=
  Forall2 (λ kv gv : string * A,
             dict_get l2b kv.1 = Some gv.1 ∧ kv.2 = gv.2) values payload.

(** The two managers agree on everything but the handle and the
    reference count: name, configuration, Global Namespace, Global
    Calibration Table and view registry. *)
Definition same_tables {B} (m m' : FeetechBusManager B) : Prop :=
  name m' = name m ∧ config m' = config m ∧
  _motor_defs m' = _motor_defs m ∧ _calibration m' = _calibration m ∧
  views m' = views m.

(** From [m] to [m'] nothing but the state of the handle may have
    changed: the tables and the reference count are the same, and a handle
    exists after exactly when it existed before. *)
Definition handle_only {B} (m m' : FeetechBusManager B) : Prop :=
  same_tables m m' ∧ _refcount m' = _refcount m ∧
  (is_Some (bus m') ↔ is_Some (bus m)).

(** The reference count is not negative, and the bus is connected exactly
    when it is positive. *)
Definition count_tracks_connection {Value B} `{!MotorsBus Value B}
    (m : FeetechBusManager B) : Prop :=
  0 ≤ _refcount m ∧ (Manager.is_connected m = true ↔ 0 < _refcount m).

(** Every bus-global name of the view is a key of the manager's Global
    Namespace. *)
Definition names_registered {B} (v : FeetechBusView) (m : FeetechBusManager B)
    : Prop :=
  ∀ g, g ∈ (local_to_bus v).*2 → is_Some (_motor_defs m !! g).

(** The view [register_component] builds for the listed local motors: the
    same local names in the same order, each with its renumbered motor and
    its bus-global name. *)
Definition registered_view (prefix : string) (motor_id_offset : Z)
    (items : pydict string Motor.t) : FeetechBusView :=
  {| local_motors :=
       (λ kv, (kv.1, Manager.updated_motor kv.2 motor_id_offset)) <$> items;
     local_to_bus := (λ kv, (kv.1, prefix +:+ kv.1)) <$> items;
     _connected := false |}.

(** A call on a manager, as a client may issue it. *)
Inductive manager_op :=
| OpRegister (component_name : string) (local_motors : pydict string Motor.t)
             (prefix : string) (motor_id_offset : Z)
             (initial_calibration : option (pydict string MotorCalibration.t))
| OpAcquire (handshake : option bool)
| OpRelease (disable_torque : bool).

(** The manager after one call, whether it returned or raised. *)
Definition after_op {Value B} `{!MotorsBus Value B} (m : FeetechBusManager B)
    (op : manager_op) : FeetechBusManager B :=
  match op with
  | OpRegister c lm p o ic => (Manager.register_component c lm p o ic m).1
  | OpAcquire h => (Manager.acquire h m).1
  | OpRelease d => (Manager.release d m).1
  end.

(** The manager after a sequence of calls, each issued whatever became of
    the one before. *)
Definition after_ops {Value B} `{!MotorsBus Value B} (m : FeetechBusManager B)
    (ops : list manager_op) : FeetechBusManager B :=
  foldl after_op m ops.

(** [binding] is what the binder makes of [component_spec] on a bus
    configured with [bus_cfg], [r] being the sub-device as constructed,
    before its bus reference is replaced by the view. *)
Definition binds {Config Robot} `{!SubDevices Config Robot}
    (component_spec : SharedComponentAssemblyConfig.t)
    (bus_cfg : SharedBusAssemblyConfig.t) (r : Robot)
    (binding : Assembly.ComponentBinding) : Prop :=
  ∃ cls cfg,
    dict_get Assembly.COMPONENT_REGISTRY
      (SharedComponentAssemblyConfig.type component_spec) = Some cls ∧
    Assembly._make_config cls
      (SharedComponentAssemblyConfig.config component_spec)
      (SharedBusAssemblyConfig.port bus_cfg) = Return cfg ∧
    robot_cls cls cfg = Return r ∧
    binding
    = {| Assembly.name := SharedComponentAssemblyConfig.name component_spec;
         Assembly.role := SharedComponentAssemblyConfig.role component_spec;
         Assembly.prefix := SharedComponentAssemblyConfig.prefix component_spec;
         Assembly.aliases :=
           Assembly.binding_aliases
             (SharedComponentAssemblyConfig.action_aliases component_spec)
             (SharedComponentAssemblyConfig.prefix component_spec);
         Assembly.robot :=
           robot_set_bus
             (registered_view
                (SharedComponentAssemblyConfig.prefix component_spec)
                (SharedComponentAssemblyConfig.motor_id_offset component_spec)
                (robot_motors r)) r;
         Assembly.bus_manager :=
           SharedComponentAssemblyConfig.bus component_spec |}.

(** The sub-device of [component_spec] can be constructed, and is [r]: its
    type is registered, its bus is configured, and the configuration class
    and the robot class return. *)
Definition constructible {Config Robot} `{!SubDevices Config Robot}
    (buses : pydict string SharedBusAssemblyConfig.t)
    (component_spec : SharedComponentAssemblyConfig.t) (r : Robot) : Prop :=
  ∃ bus_cfg cls cfg,
    dict_get buses (SharedComponentAssemblyConfig.bus component_spec)
    = Some bus_cfg ∧
    dict_get Assembly.COMPONENT_REGISTRY
      (SharedComponentAssemblyConfig.type component_spec) = Some cls ∧
    Assembly._make_config cls
      (SharedComponentAssemblyConfig.config component_spec)
      (SharedBusAssemblyConfig.port bus_cfg) = Return cfg ∧
    robot_cls cls cfg = Return r.

(** The bus-global names the listed components compute on the bus [k], in
    the order of the components and of their motors. *)
Fixpoint global_names_on {Config Robot} `{!SubDevices Config Robot}
    (k : string) (specs : list SharedComponentAssemblyConfig.t)
    (robots : list Robot) : list string :=
  match specs, robots with
  | component_spec :: specs', r :: robots' =>
      (if decide (SharedComponentAssemblyConfig.bus component_spec = k)
       then (λ n, SharedComponentAssemblyConfig.prefix component_spec +:+ n)
              <$> dict_keys (robot_motors r)
       else [])
      ++ global_names_on k specs' robots'
  | _, _ => []
  end.

(** The bus configuration an entry of [shared_buses] stands for. *)
Definition bus_entry_gives `{!Dataclasses}
    (e : config_entry SharedBusAssemblyConfig.t)
    (c : SharedBusAssemblyConfig.t) : Prop :=
  match e with
  | Instance x => c = x
  | Kwargs d => bus_config_of_kwargs d = Return c
  end.

(** The component description an entry of [shared_components] stands
    for. *)
Definition component_entry_gives `{!Dataclasses}
    (e : config_entry SharedComponentAssemblyConfig.t)
    (c : SharedComponentAssemblyConfig.t) : Prop :=
  match e with
  | Instance x => c = x
  | Kwargs d => component_config_of_kwargs d = Return c
  end.

(** [kc] is the entry [kv] of [shared_buses] accepted: same key, the
    configuration the entry stands for, of type "feetech". *)
Definition accepted_bus `{!Dataclasses}
    (kv : string * config_entry SharedBusAssemblyConfig.t)
    (kc : string * SharedBusAssemblyConfig.t) : Prop :=
  kc.1 = kv.1 ∧ bus_entry_gives kv.2 kc.2 ∧
  SharedBusAssemblyConfig.type kc.2 = "feetech"%string.

(** [c] is the entry [e] of [shared_components] accepted against the
    buses [buses]: the description the entry stands for, on a bus that is
    a key of [buses]. *)
Definition accepted_component `{!Dataclasses}
    (buses : pydict string SharedBusAssemblyConfig.t)
    (e : config_entry SharedComponentAssemblyConfig.t)
    (c : SharedComponentAssemblyConfig.t) : Prop :=
  component_entry_gives e c ∧
  is_Some (dict_get buses (SharedComponentAssemblyConfig.bus c)).

(** The manager stored under [k] has [motor] registered under the
    bus-global name [g]. *)
Definition registered_at {B} (managers : pydict string (FeetechBusManager B))
    (k g : string) (motor : Motor.t) : Prop :=
  ∃ m, dict_get managers k = Some m ∧ _motor_defs m !! g = Some motor.

(** The managers of an assembly as the binder keeps them: one per
    configured bus, under the bus's key, named by it and holding its
    configuration, with no handle constructed and a reference count of
    zero. *)
Definition closed_managers {B}
    (buses : pydict string SharedBusAssemblyConfig.t)
    (managers : pydict string (FeetechBusManager B)) : Prop :=
  dict_keys managers = dict_keys buses ∧
  ∀ k m, dict_get managers k = Some m →
         name m = k ∧ dict_get buses k = Some (config m) ∧
         bus m = None ∧ _refcount m = 0.

(** ** A two-arm assembly on one bus

    Component "left" (prefix [left_], one motor [shoulder] with id 1) and
    component "right" (prefix [right_], motor [shoulder] with id 1, id
    offset 6) on one manager whose handle is the double, with integers as
    register values. *)
Module Scenario.

Definition bus_config : SharedBusAssemblyConfig.t :=
  SharedBusAssemblyConfig.make "feetech" "/dev/ttyACM0" 0 true.

Definition shoulder : Motor.t := Motor.make 1 "sts3215" "RANGE_M100_100".
Definition elbow : Motor.t := Motor.make 2 "sts3215" "RANGE_M100_100".

Definition shoulder_calibration : MotorCalibration.t :=
  MotorCalibration.make 0 900 3100.

Definition empty_manager : FeetechBusManager (EchoBus.t Z) :=
  Manager.__init__ "bus0" bus_config.

Definition arm : pydict string Motor.t := [("shoulder"%string, shoulder)].

Definition arm_calibration : pydict string MotorCalibration.t :=
  [("shoulder"%string, shoulder_calibration)].

(** after [register_component("left", arm, "left_", 0, arm_calibration)] *)
Definition with_left : FeetechBusManager (EchoBus.t Z) :=
  (Manager.register_component "left" arm "left_" 0 (Some arm_calibration)
     empty_manager).1.

Definition left_view : FeetechBusView :=
  {| local_motors := [("shoulder"%string, shoulder)];
     local_to_bus := [("shoulder"%string, "left_shoulder"%string)];
     _connected := false |}.

(** after [register_component("right", arm, "right_", 6)] as well *)
Definition with_both : FeetechBusManager (EchoBus.t Z) :=
  (Manager.register_component "right" arm "right_" 6 None with_left).1.

Definition right_view : FeetechBusView :=
  {| local_motors := [("shoulder"%string, Motor.make 7 "sts3215" "RANGE_M100_100")];
     local_to_bus := [("shoulder"%string, "right_shoulder"%string)];
     _connected := false |}.

(** A second component that reuses the prefix [left_]: its second motor
    computes the taken name [left_shoulder]. *)
Definition clashing_arm : pydict string Motor.t :=
  [("elbow"%string, elbow); ("shoulder"%string, shoulder)].

(** the manager after the first [acquire] *)
Definition live : FeetechBusManager (EchoBus.t Z) :=
  (Manager.acquire (Some true) with_both).1.

End Scenario.

(** ** A two-arm assembly, from its configuration

    Stand-ins for the collaborators of the binder and of the validation,
    and the configuration of the two arms above as a shared-bus
    assembly. *)
Module AssemblyScenario.

(** A sub-device that remembers the class and the configuration it was
    built from, and the bus reference it was given. *)
Record robot := {
  robot_class : component_class;
  robot_kwargs : pydict string pyval;
  robot_bus : option FeetechBusView
}.

Definition motors_of (cls : component_class) : pydict string Motor.t :=
  match cls with
  | SO101Follower => [("shoulder"%string, Scenario.shoulder);
                      ("elbow"%string, Scenario.elbow)]
  | LeKiwiBase => [("wheel"%string, Motor.make 7 "sts3215" "RANGE_M100_100")]
  | XLeRobotMount => [("pan"%string, Motor.make 1 "sts3215" "RANGE_M100_100")]
  end.

Definition devices : SubDevices (pydict string pyval) robot := {|
  config_cls := λ _ kwargs, Return kwargs;
  robot_cls := λ cls cfg,
    Return {| robot_class := cls; robot_kwargs := cfg; robot_bus := None |};
  robot_motors := λ r, motors_of (robot_class r);
  robot_calibration := λ _, [];
  robot_set_bus := λ view r,
    {| robot_class := robot_class r; robot_kwargs := robot_kwargs r;
       robot_bus := Some view |}
|}.

(** Keyword constructors for the two dataclasses, field by field as
    [config_xlerobot] declares them: every field is taken from the keyword
    of its name, a field with a default may be left out, a field without
    one may not, and a keyword that names no field is refused
    ([TypeError]).  A value of another type than the field's annotation,
    which a generated constructor stores as it is, is refused as well, the
    records here being typed. *)
Definition as_str (x : pyval) : option string :=
  match x with PyStr s => Some s | _ => None end.

Definition as_int (x : pyval) : option Z :=
  match x with PyInt i => Some i | _ => None end.

Definition as_bool (x : pyval) : option bool :=
  match x with PyBool b => Some b | _ => None end.

Definition as_aliases (x : pyval) : option (option (list string)) :=
  match x with
  | PyNone => Some None
  | PyList l => Some <$> mapM as_str l
  | _ => None
  end.

Definition as_dict (x : pyval) : option (pydict string pyval) :=
  match x with PyDict d => Some d | _ => None end.

Definition keyword {A} (d : pydict string pyval) (k : string)
    (read : pyval → option A) (default : option A) : outcome A :=
  match dict_get d k with
  | Some x =>
      match read x with
      | Some a => Return a
      | None => Raise (TypeError ("unexpected value for field " +:+ k))
      end
  | None =>
      match default with
      | Some a => Return a
      | None => Raise (TypeError ("missing required argument: " +:+ k))
      end
  end.

Definition then_ {A C} (o : outcome A) (f : A → outcome C) : outcome C :=
  match o with Return a => f a | Raise e => Raise e end.

Definition only_keywords (fields : list string) (d : pydict string pyval)
    : outcome unit :=
  match filter (λ k, k ∉ fields) (dict_keys d) with
  | [] => Return tt
  | k :: _ => Raise (TypeError ("unexpected keyword argument " +:+ k))
  end.

Definition bus_config_of (d : pydict string pyval)
    : outcome SharedBusAssemblyConfig.t :=
  then_ (only_keywords ["type"; "port"; "protocol_version";
                        "handshake_on_connect"] d) (λ _,
  then_ (keyword d "type" as_str (Some "feetech")) (λ type,
  then_ (keyword d "port" as_str (Some "")) (λ port,
  then_ (keyword d "protocol_version" as_int (Some 0)) (λ protocol_version,
  then_ (keyword d "handshake_on_connect" as_bool (Some true)) (λ handshake,
  Return (SharedBusAssemblyConfig.make type port protocol_version
            handshake)))))).

Definition component_config_of (d : pydict string pyval)
    : outcome SharedComponentAssemblyConfig.t :=
  then_ (only_keywords ["name"; "type"; "role"; "bus"; "prefix";
                        "motor_id_offset"; "action_aliases"; "config"] d)
    (λ _,
  then_ (keyword d "name" as_str None) (λ name,
  then_ (keyword d "type" as_str None) (λ type,
  then_ (keyword d "role" as_str None) (λ role,
  then_ (keyword d "bus" as_str None) (λ bus,
  then_ (keyword d "prefix" as_str (Some "")) (λ prefix,
  then_ (keyword d "motor_id_offset" as_int (Some 0)) (λ motor_id_offset,
  then_ (keyword d "action_aliases" as_aliases (Some (Some []))) (λ aliases,
  then_ (keyword d "config" as_dict (Some [])) (λ config,
  Return (SharedComponentAssemblyConfig.make name type role bus prefix
            motor_id_offset aliases config)))))))))).

Definition dataclasses : Dataclasses := {|
  bus_config_of_kwargs := bus_config_of;
  component_config_of_kwargs := component_config_of
|}.

(** A handle whose port cannot be opened: [connect] raises, everything
    else does nothing. *)
Definition stuck_bus : MotorsBus Z unit := {|
  bus_init := λ _ _ _ _, inr tt;
  bus_bool := λ _, true;
  bus_is_connected := λ _, false;
  bus_calibration := λ _, ∅;
  bus_connect := λ _ b, (b, inl "could not open port"%string);
  bus_disconnect := λ _ b, (b, inr tt);
  bus_disable_torque := λ _ _ b, (b, inr tt);
  bus_enable_torque := λ _ _ b, (b, inr tt);
  bus_configure_motors := λ _ b, (b, inr tt);
  bus_write := λ _ _ _ _ _ b, (b, inr tt);
  bus_sync_write := λ _ _ _ _ b, (b, inr tt);
  bus_sync_read := λ _ _ _ _ b, (b, inr []);
  bus_set_half_turn_homings := λ _ b, (b, inr []);
  bus_record_ranges_of_motion := λ _ b, (b, inr ([], []));
  bus_write_calibration := λ _ b, (b, inr tt);
  bus_setup_motor := λ _ _ _ b, (b, inr tt)
|}.

Definition stuck_manager : FeetechBusManager unit :=
  Manager.set_bus (Some tt) (Manager.__init__ "bus0" Scenario.bus_config).

Definition buses : pydict string SharedBusAssemblyConfig.t :=
  [("bus0"%string, Scenario.bus_config)].

(** the handle of [Scenario.live] *)
Definition live_bus : EchoBus.t Z :=
  EchoBus.make (_motor_defs Scenario.with_both)
    (_calibration Scenario.with_both) true [] [EvConnect true].

Definition left_spec : SharedComponentAssemblyConfig.t :=
  SharedComponentAssemblyConfig.make "left" "so101_follower" "arm" "bus0"
    "left_" 0 None [].

Definition right_spec : SharedComponentAssemblyConfig.t :=
  SharedComponentAssemblyConfig.make "right" "so101_follower" "arm" "bus0"
    "right_" 6 (Some ["right_arm"%string]) [].

(** A component of a type that is not registered, on a bus that is not
    configured either. *)
Definition gripper_spec : SharedComponentAssemblyConfig.t :=
  SharedComponentAssemblyConfig.make "gripper" "gripper" "tool" "bus9"
    "grip_" 0 None [].

(** A component of a registered type on a bus that is not configured. *)
Definition stray_spec : SharedComponentAssemblyConfig.t :=
  SharedComponentAssemblyConfig.make "mount" "xlerobot_mount" "mount" "bus9"
    "mount_" 0 None [].

Definition left_robot : robot :=
  {| robot_class := SO101Follower;
     robot_kwargs := [("port"%string, PyStr "/dev/ttyACM0")];
     robot_bus := None |}.

(** what the binder returns for the two arms *)
Definition built
    : list (@Assembly.ComponentBinding robot)
      * pydict string (FeetechBusManager (EchoBus.t Z)) :=
  match @Assembly.build_shared_components (EchoBus.t Z) _ _ devices buses
          [left_spec; right_spec] with
  | Return x => x
  | Raise _ => ([], [])
  end.

(** the configuration object before and after validation *)
Definition raw_config : XLeRobotConfig.t unit :=
  XLeRobotConfig.make (Some tt) (Some tt) None None None None
    (Some "lekiwi_base"%string) "shared_buses"
    [("bus0"%string, Kwargs [("port"%string, PyStr "/dev/ttyACM0")])]
    [Instance left_spec;
     Kwargs [("name"%string, PyStr "right");
             ("type"%string, PyStr "so101_follower");
             ("role"%string, PyStr "arm");
             ("bus"%string, PyStr "bus0");
             ("prefix"%string, PyStr "right_");
             ("motor_id_offset"%string, PyInt 6);
             ("action_aliases"%string, PyList [PyStr "right_arm"])]]
    None None.

Definition validated_config : XLeRobotConfig.t unit :=
  (@XLeRobotConfig._init_shared_mode unit dataclasses raw_config).1.

End AssemblyScenario.

(** ** A registration after the bus has been opened

    The left arm is registered without calibration and opens the bus; the
    right arm is registered, with its calibration, only then. *)

Module LateRegistration.




End LateRegistration.

(** * Properties *)

(** ** Dictionaries *)

Section pydict_facts.
Context {K : Type} `{EqDecision K} {A : Type}.
Implicit Types (d : pydict K A) (k : K) (v : A).

Lemma dict_get_None d k : dict_get d k = None ↔ k ∉ d.*1.
Proof.
  induction d as [|[k' v'] d IH]; simpl.
  - split; [intros _; apply not_elem_of_nil | done].
  - rewrite not_elem_of_cons. destruct (decide (k' = k)) as [->|Hne].
    + split; [done | intros [? _]; done].
    + rewrite IH. split; [intros ?; split; [congruence | done] | intros [_ ?]; done].
Qed.

Lemma dict_get_Some_elem d k v : dict_get d k = Some v → (k, v) ∈ d.
Proof.
  induction d as [|[k' v'] d IH]; simpl; [done|].
  destruct (decide (k' = k)) as [->|Hne].
  - intros [= ->]. apply list_elem_of_here.
  - intros ?. apply list_elem_of_further. auto.
Qed.

Lemma dict_get_elem d k v : NoDup d.*1 → (k, v) ∈ d → dict_get d k = Some v.
Proof.
  induction d as [|[k' v'] d IH]; simpl; intros Hnd Hin.
  - by apply elem_of_nil in Hin.
  - apply NoDup_cons in Hnd as [Hk' Hnd].
    apply elem_of_cons in Hin as [[= <- <-]|Hin].
    + by rewrite decide_True.
    + rewrite decide_False; [auto|].
      intros ->. apply Hk'. apply list_elem_of_fmap. by exists (k, v).
Qed.

Lemma dict_setitem_fresh d k v : k ∉ d.*1 → dict_setitem d k v = d ++ [(k, v)].
Proof.
  induction d as [|[k' v'] d IH]; simpl; [done|].
  rewrite not_elem_of_cons. intros [Hne Hk].
  rewrite decide_False by congruence. by rewrite IH.
Qed.

Lemma dict_get_setitem_eq d k v : dict_get (dict_setitem d k v) k = Some v.
Proof.
  induction d as [|[k' v'] d IH]; simpl.
  - by rewrite decide_True.
  - destruct (decide (k' = k)) as [->|Hne]; simpl.
    + by rewrite decide_True.
    + by rewrite decide_False.
Qed.

Lemma dict_get_setitem_ne d k k' v :
  k ≠ k' → dict_get (dict_setitem d k v) k' = dict_get d k'.
Proof.
  intros Hne. induction d as [|[k0 v0] d IH]; simpl.
  - by rewrite decide_False.
  - destruct (decide (k0 = k)) as [->|Hne0]; simpl.
    + by rewrite !decide_False.
    + by rewrite IH.
Qed.

Lemma dict_keys_setitem_bound d k v :
  k ∈ d.*1 → (dict_setitem d k v).*1 = d.*1.
Proof.
  induction d as [|[k' v'] d IH]; simpl.
  - intros Hin. by apply elem_of_nil in Hin.
  - intros Hin. destruct (decide (k' = k)) as [->|Hne]; simpl; [done|].
    apply elem_of_cons in Hin as [?|Hin]; [congruence|]. f_equal. by apply IH.
Qed.

(** A comprehension over items with distinct keys appends them one by one. *)
Lemma foldl_setitem_fresh (items : list (K * A)) d :
  NoDup (d.*1 ++ items.*1) →
  foldl (λ d kv, dict_setitem d kv.1 kv.2) d items = d ++ items.
Proof.
  revert d. induction items as [|[k v] items IH]; intros d Hnd; simpl.
  - by rewrite app_nil_r.
  - assert (k ∉ d.*1) as Hk.
    { apply NoDup_app in Hnd as (_ & Hdis & _). intros Hin.
      apply (Hdis k Hin). simpl. apply list_elem_of_here. }
    rewrite dict_setitem_fresh by done. rewrite IH.
    + by rewrite <- app_assoc.
    + rewrite fmap_app. simpl. rewrite <- app_assoc. done.
Qed.

Lemma dict_of_items_NoDup (items : list (K * A)) :
  NoDup items.*1 → dict_of_items items = items.
Proof. intros Hnd. unfold dict_of_items. by rewrite foldl_setitem_fresh. Qed.

End pydict_facts.

Lemma append_inj (p a b : string) : p +:+ a = p +:+ b → a = b.
Proof. induction p as [|c p IH]; simpl; [done|]. intros [= ?]. auto. Qed.

(** ** Registration *)

Ltac py_unfold :=
  unfold mbind, mret, Py_bind, Py_ret, py_bind, py_ret, get, put, modify,
    raise, View.lift, View.on_manager, View.with_bus in *.

Section add_facts.
Context (prefix : string) (off : Z)
        (ic : option (pydict string MotorCalibration.t)).

Lemma add_defs_lookup_out items (d : gmap string Motor.t) g :
  (∀ k, k ∈ items.*1 → g ≠ prefix +:+ k) →
  add_defs prefix off items d !! g = d !! g.
Proof.
  revert d. induction items as [|[n mot] items IH]; intros d Hout; [done|].
  unfold add_defs in *. simpl. rewrite IH.
  - apply lookup_insert_ne. apply not_eq_sym, Hout. simpl. apply list_elem_of_here.
  - intros k Hk. apply Hout. simpl. by apply list_elem_of_further.
Qed.

Lemma add_defs_lookup_in items (d : gmap string Motor.t) n mot :
  NoDup items.*1 → (n, mot) ∈ items →
  add_defs prefix off items d !! (prefix +:+ n)
  = Some (Manager.updated_motor mot off).
Proof.
  revert d. induction items as [|[n0 mot0] items IH]; intros d Hnd Hin.
  - by apply elem_of_nil in Hin.
  - simpl in Hnd. apply NoDup_cons in Hnd as [Hn0 Hnd].
    apply elem_of_cons in Hin as [[= -> ->]|Hin].
    + change (add_defs prefix off items
                (<[prefix +:+ n0 := Manager.updated_motor mot0 off]> d)
                !! (prefix +:+ n0) = Some (Manager.updated_motor mot0 off)).
      rewrite add_defs_lookup_out; [apply lookup_insert_eq|].
      intros k Hk Heq. apply append_inj in Heq. by subst.
    + by apply (IH _ Hnd Hin).
Qed.

Lemma add_calibration_lookup_out items (t : gmap string MotorCalibration.t) g :
  (∀ k, k ∈ items.*1 → g ≠ prefix +:+ k) →
  add_calibration prefix ic items t !! g = t !! g.
Proof.
  revert t. induction items as [|[n mot] items IH]; intros t Hout; [done|].
  unfold add_calibration in *. simpl. rewrite IH.
  - destruct (Manager.initial_entry ic n); [|done].
    apply lookup_insert_ne. apply not_eq_sym, Hout. simpl. apply list_elem_of_here.
  - intros k Hk. apply Hout. simpl. by apply list_elem_of_further.
Qed.

Lemma add_calibration_lookup_in items (t : gmap string MotorCalibration.t) n c :
  NoDup items.*1 → n ∈ items.*1 → Manager.initial_entry ic n = Some c →
  add_calibration prefix ic items t !! (prefix +:+ n) = Some c.
Proof.
  revert t. induction items as [|[n0 mot0] items IH]; intros t Hnd Hin Hc.
  - by apply elem_of_nil in Hin.
  - simpl in Hnd, Hin. apply NoDup_cons in Hnd as [Hn0 Hnd].
    apply elem_of_cons in Hin as [->|Hin].
    + change (add_calibration prefix ic items
                (match Manager.initial_entry ic n0 with
                 | Some c => <[prefix +:+ n0 := c]> t
                 | None => t
                 end) !! (prefix +:+ n0) = Some c).
      rewrite Hc. rewrite add_calibration_lookup_out; [apply lookup_insert_eq|].
      intros k Hk Heq. apply append_inj in Heq. by subst.
    + by apply (IH _ Hnd Hin).
Qed.

End add_facts.

Section register_facts.
Context {B : Type}.
Implicit Types (m : FeetechBusManager B) (items : list (string * Motor.t)).
Context (prefix : string) (off : Z)
        (ic : option (pydict string MotorCalibration.t)).

Lemma committed_nil m : committed prefix off ic [] m = m.
Proof. by destruct m. Qed.

Lemma committed_cons x items m :
  committed prefix off ic (x :: items) m
  = committed prefix off ic items (committed prefix off ic [x] m).
Proof. reflexivity. Qed.

Lemma register_loop_collides n mot rest lc mp m :
  is_Some (_motor_defs m !! (prefix +:+ n)) →
  Manager.register_loop ((n, mot) :: rest) prefix off ic lc mp m
  = (m, Raise (ValueError (Manager.collision_message (name m) (prefix +:+ n)))).
Proof. intros Hin. simpl. py_unfold. by rewrite decide_True. Qed.

Lemma register_loop_commits n mot rest lc mp m :
  _motor_defs m !! (prefix +:+ n) = None →
  Manager.register_loop ((n, mot) :: rest) prefix off ic lc mp m
  = Manager.register_loop rest prefix off ic
      (dict_setitem lc n (Manager.updated_motor mot off))
      (dict_setitem mp n (prefix +:+ n))
      (committed prefix off ic [(n, mot)] m).
Proof.
  intros Hfresh. simpl. py_unfold. rewrite decide_False.
  - unfold committed, add_defs, add_calibration. simpl.
    by destruct (Manager.initial_entry ic n).
  - rewrite Hfresh. by intros [? ?].
Qed.

(** When no computed name is taken, the loop commits every motor and
    builds the two local dictionaries. *)
Lemma register_loop_fresh items lc mp m :
  NoDup items.*1 →
  (∀ k, k ∈ items.*1 → _motor_defs m !! (prefix +:+ k) = None) →
  Manager.register_loop items prefix off ic lc mp m
  = (committed prefix off ic items m,
     Return (foldl (λ d kv, dict_setitem d kv.1 kv.2) lc
               ((λ kv, (kv.1, Manager.updated_motor kv.2 off)) <$> items),
             foldl (λ d kv, dict_setitem d kv.1 kv.2) mp
               ((λ kv, (kv.1, prefix +:+ kv.1)) <$> items))).
Proof.
  revert lc mp m. induction items as [|[n mot] items IH]; intros lc mp m Hnd Hfresh.
  - simpl. by rewrite committed_nil.
  - simpl in Hnd. apply NoDup_cons in Hnd as [Hn Hnd].
    rewrite register_loop_commits
      by (apply Hfresh; simpl; apply list_elem_of_here).
    rewrite IH; [by rewrite committed_cons|done|].
    intros k Hk. simpl. unfold add_defs. simpl. rewrite lookup_insert_ne.
    + apply Hfresh. simpl. by apply list_elem_of_further.
    + intros Heq. apply append_inj in Heq. by subst.
Qed.

(** The loop stops at the first motor whose computed name is taken, with
    the motors before it committed. *)
Lemma register_loop_stops pre n mot post lc mp m :
  NoDup pre.*1 →
  (∀ k, k ∈ pre.*1 → _motor_defs m !! (prefix +:+ k) = None) →
  is_Some (_motor_defs m !! (prefix +:+ n)) →
  Manager.register_loop (pre ++ (n, mot) :: post) prefix off ic lc mp m
  = (committed prefix off ic pre m,
     Raise (ValueError (Manager.collision_message (name m) (prefix +:+ n)))).
Proof.
  revert lc mp m. induction pre as [|[n0 mot0] pre IH]; intros lc mp m Hnd Hfresh Hin.
  - simpl app. rewrite register_loop_collides by done. by rewrite committed_nil.
  - simpl in Hnd. apply NoDup_cons in Hnd as [Hn0 Hnd].
    simpl app. rewrite register_loop_commits
      by (apply Hfresh; simpl; apply list_elem_of_here).
    rewrite IH; [by rewrite committed_cons|done| |].
    + intros k Hk. simpl. unfold add_defs. simpl. rewrite lookup_insert_ne.
      * apply Hfresh. simpl. by apply list_elem_of_further.
      * intros Heq. apply append_inj in Heq. by subst.
    + simpl. unfold add_defs. simpl. rewrite lookup_insert.
      case_decide; [by eexists | done].
Qed.

(** A loop that runs to its end met no taken name, and no local name
    twice. *)
Lemma register_loop_returns items lc mp m m' r :
  Manager.register_loop items prefix off ic lc mp m = (m', Return r) →
  NoDup items.*1 ∧
  (∀ k, k ∈ items.*1 → _motor_defs m !! (prefix +:+ k) = None).
Proof.
  revert lc mp m. induction items as [|[n mot] items IH]; intros lc mp m Hrun.
  - split; [constructor | intros k Hk; by apply elem_of_nil in Hk].
  - destruct (_motor_defs m !! (prefix +:+ n)) as [x|] eqn:Hn.
    { rewrite register_loop_collides in Hrun by (rewrite Hn; by eexists).
      discriminate. }
    rewrite register_loop_commits in Hrun by done.
    apply IH in Hrun as [Hnd Hfresh].
    assert (n ∉ items.*1) as Hnotin.
    { intros Hin. specialize (Hfresh n Hin). simpl in Hfresh.
      unfold add_defs in Hfresh. simpl in Hfresh.
      by rewrite lookup_insert_eq in Hfresh. }
    split; [simpl; by apply NoDup_cons|].
    intros k Hk. simpl in Hk. apply elem_of_cons in Hk as [->|Hk]; [done|].
    specialize (Hfresh k Hk). simpl in Hfresh. unfold add_defs in Hfresh.
    simpl in Hfresh. rewrite lookup_insert_ne in Hfresh; [done|].
    intros Heq. apply append_inj in Heq. by subst.
Qed.

End register_facts.

Section registration.
Context {B : Type}.
Implicit Types (m : FeetechBusManager B) (items : list (string * Motor.t)).

Lemma register_component_unfold cname items prefix off ic m :
  Manager.register_component cname items prefix off ic m
  = match Manager.register_loop items prefix off ic [] [] m with
    | (m1, Return r) =>
        let view := {| local_motors := r.1; local_to_bus := r.2;
                       _connected := false |} in
        (Manager.set_view cname view m1, Return view)
    | (m1, Raise e) => (m1, Raise e)
    end.
Proof.
  unfold Manager.register_component. py_unfold.
  destruct (Manager.register_loop _ _ _ _ _ _ _) as [m1 [[lc mp]|e]]; done.
Qed.

(** Among the motors of a call that has a taken name, one is the first. *)
Lemma first_taken items prefix (defs : gmap string Motor.t) :
  (∃ n mot, (n, mot) ∈ items ∧ is_Some (defs !! (prefix +:+ n))) →
  ∃ pre n mot post,
    items = pre ++ (n, mot) :: post ∧
    is_Some (defs !! (prefix +:+ n)) ∧
    ∀ k, k ∈ dict_keys pre → defs !! (prefix +:+ k) = None.
Proof.
  induction items as [|[n0 mot0] items IH]; intros (n & mot & Hin & Htaken).
  - by apply elem_of_nil in Hin.
  - destruct (defs !! (prefix +:+ n0)) as [x|] eqn:Hn0.
    + exists [], n0, mot0, items. rewrite Hn0. split_and!; [done|by eexists|].
      intros k Hk. by apply elem_of_nil in Hk.
    + apply elem_of_cons in Hin as [[= -> ->]|Hin].
      { rewrite Hn0 in Htaken. by destruct Htaken. }
      destruct IH as (pre & n1 & mot1 & post & -> & Ht & Hfresh); [by eauto|].
      exists ((n0, mot0) :: pre), n1, mot1, post. split_and!; [done..|].
      intros k Hk. unfold dict_keys in Hk. simpl in Hk.
      apply elem_of_cons in Hk as [->|Hk]; [done|]. by apply Hfresh.
Qed.

(** C2. A successful [register_component] with prefix [prefix] and id offset
    [off] puts, for every local motor [(n, mot)] of the component, the key
    [prefix +:+ n] into the Global Namespace, bound to a motor with id
    [id mot + off] and the model and normalization mode of [mot]; the view
    it returns holds the same local names, in the same order, each with that
    renumbered motor, and its local-to-global map sends [n] to
    [prefix +:+ n]. *)
Theorem register_component_places_motors cname items prefix off ic m m' view :
  Manager.register_component cname items prefix off ic m = (m', Return view) →
  dict_keys (local_motors view) = dict_keys items ∧
  dict_keys (local_to_bus view) = dict_keys items ∧
  ∀ n mot, (n, mot) ∈ items →
    let placed := Motor.make (Motor.id mot + off) (Motor.model mot)
                             (Motor.norm_mode mot) in
    _motor_defs m' !! (prefix +:+ n) = Some placed ∧
    dict_get (local_motors view) n = Some placed ∧
    dict_get (local_to_bus view) n = Some (prefix +:+ n).
Proof.
  rewrite register_component_unfold.
  destruct (Manager.register_loop _ _ _ _ _ _ _) as [m1 [r|e]] eqn:Hloop;
    [|discriminate].
  destruct (register_loop_returns _ _ _ _ _ _ _ _ _ Hloop) as [Hnd Hfresh].
  rewrite register_loop_fresh in Hloop by done.
  injection Hloop as <- <-. intros [= <- <-]. simpl.
  rewrite !foldl_setitem_fresh
    by (simpl; rewrite <- list_fmap_compose; exact Hnd).
  simpl. unfold dict_keys. rewrite <- !list_fmap_compose.
  split_and!; [done..|].
  intros n mot Hin. split_and!.
  - by apply add_defs_lookup_in.
  - apply dict_get_elem; [by rewrite <- list_fmap_compose|].
    apply list_elem_of_fmap. by exists (n, mot).
  - apply dict_get_elem; [by rewrite <- list_fmap_compose|].
    apply list_elem_of_fmap. by exists (n, mot).
Qed.

(** C1, as the code has it.  A [register_component] call one of whose
    computed names is already in the Global Namespace raises the collision
    error ([ValueError]) and returns no view; the view registry and the
    reference count are untouched, no handle is constructed, and no entry
    that existed is changed.  The motors that come before the first colliding motor in the
    iteration order of the input dictionary have been committed by then, to
    the Global Namespace and (when they have an initial calibration) to the
    Global Calibration Table, and stay committed; only when the first motor
    of the dictionary collides is the manager left exactly as it was. *)
Theorem register_component_collision cname items prefix off ic m :
  NoDup (dict_keys items) →
  (∃ n mot, (n, mot) ∈ items ∧ is_Some (_motor_defs m !! (prefix +:+ n))) →
  ∃ pre n mot post m',
    items = pre ++ (n, mot) :: post ∧
    is_Some (_motor_defs m !! (prefix +:+ n)) ∧
    (∀ k, k ∈ dict_keys pre → _motor_defs m !! (prefix +:+ k) = None) ∧
    Manager.register_component cname items prefix off ic m
    = (m', Raise (ValueError
                    (Manager.collision_message (name m) (prefix +:+ n)))) ∧
    (pre = [] → m' = m) ∧
    (∀ k mot', (k, mot') ∈ pre →
       _motor_defs m' !! (prefix +:+ k)
       = Some (Motor.make (Motor.id mot' + off) (Motor.model mot')
                          (Motor.norm_mode mot'))) ∧
    (∀ k c, k ∈ dict_keys pre → Manager.initial_entry ic k = Some c →
       _calibration m' !! (prefix +:+ k) = Some c) ∧
    (∀ g, (∀ k, k ∈ dict_keys pre → g ≠ prefix +:+ k) →
       _motor_defs m' !! g = _motor_defs m !! g ∧
       _calibration m' !! g = _calibration m !! g) ∧
    views m' = views m ∧ (bus m = None → bus m' = None) ∧
    _refcount m' = _refcount m.
Proof.
  intros Hnd Htaken.
  destruct (first_taken _ _ _ Htaken) as (pre & n & mot & post & -> & Hn & Hfresh).
  assert (NoDup pre.*1) as Hpre.
  { unfold dict_keys in Hnd. rewrite fmap_app in Hnd.
    by apply NoDup_app in Hnd as [? _]. }
  exists pre, n, mot, post, (committed prefix off ic pre m).
  split_and!; try done.
  - rewrite register_component_unfold. by rewrite register_loop_stops.
  - intros ->. apply committed_nil.
  - intros k mot' Hin. simpl. by apply add_defs_lookup_in.
  - intros k c Hk Hc. simpl. by apply add_calibration_lookup_in.
  - intros g Hg. simpl. split.
    + by apply add_defs_lookup_out.
    + by apply add_calibration_lookup_out.
Qed.

End registration.

(** ** Connection lifecycle *)

Section lifecycle_any_handle.
Context {Value B : Type} `{!MotorsBus Value B}.
Implicit Types (m : FeetechBusManager B) (v : FeetechBusView).

Lemma set_refcount_same m : Manager.set_refcount (_refcount m) m = m.
Proof. by destruct m. Qed.

Lemma set_bus_same m : Manager.set_bus (bus m) m = m.
Proof. by destruct m. Qed.

Lemma release_at_zero m d :
  _refcount m = 0 → Manager.release d m = (m, Return tt).
Proof.
  intros Hz. unfold Manager.release. py_unfold.
  by rewrite bool_decide_eq_true_2.
Qed.

(** Once constructed, the handle stays: neither [acquire] nor [release]
    ever resets [self.bus]. *)
Lemma acquire_keeps_handle m h :
  is_Some (bus m) → is_Some (bus (Manager.acquire h m).1).
Proof.
  intros [b Hb]. unfold Manager.acquire, Manager._ensure_bus, Manager.call_bus.
  py_unfold. rewrite Hb. simpl. rewrite Hb.
  repeat case_match; simplify_eq; simpl; by eexists.
Qed.

Lemma release_keeps_handle m d :
  is_Some (bus m) → is_Some (bus (Manager.release d m).1).
Proof.
  intros [b Hb]. unfold Manager.release, Manager.call_bus. py_unfold.
  repeat case_match; simplify_eq; simpl in *; simplify_eq; by eexists.
Qed.

Lemma disconnect_detached_view lm l2b m d :
  View.disconnect d ({| local_motors := lm; local_to_bus := l2b;
                        _connected := false |}, m)
  = (({| local_motors := lm; local_to_bus := l2b; _connected := false |}, m),
     Return tt).
Proof. reflexivity. Qed.

Lemma disconnect_leaves_detached d s s' :
  View.disconnect d s = (s', Return tt) → _connected s'.1 = false.
Proof.
  unfold View.disconnect. py_unfold. destruct s as [v m]. simpl.
  intros Hrun. repeat case_match; simplify_eq; simpl; try done.
  by destruct (_connected v).
Qed.

End lifecycle_any_handle.

Section lifecycle_theorems.
Context {Value B : Type} `{!MotorsBus Value B}.

(** C8. [disconnect] on a view that is not attached (never connected, or
    already disconnected) returns at once: the manager, its reference count
    and its handle, and the view are exactly as before, so no torque call
    and no release happen.  Hence a second [disconnect] right after a first
    one adds nothing: the two calls in a row behave as the first alone. *)
Theorem disconnect_idempotent :
  (∀ lm l2b (m : FeetechBusManager B) d,
     let detached := {| local_motors := lm; local_to_bus := l2b;
                        _connected := false |} in
     View.disconnect d (detached, m) = ((detached, m), Return tt)) ∧
  (∀ (s : FeetechBusView * FeetechBusManager B) d d',
     (View.disconnect d;; View.disconnect d') s = View.disconnect d s).
Proof.
  split; [intros; apply disconnect_detached_view|].
  intros s d d'. unfold mbind, Py_bind, py_bind.
  destruct (View.disconnect d s) as [s1 [[]|e]] eqn:Hfirst; [|done].
  apply disconnect_leaves_detached in Hfirst.
  destruct s1 as [[lm l2b c] m1]. simpl in Hfirst. subst c.
  apply disconnect_detached_view.
Qed.

End lifecycle_theorems.

Section lifecycle_echo.
Context {Value : Type}.
Implicit Types (m : FeetechBusManager (EchoBus.t Value)).

Lemma acquire_from_zero m h :
  _refcount m = 0 → Manager.is_connected m = false →
  ∃ m', Manager.acquire h m = (m', Return tt) ∧
        calls_seen m' = calls_seen m ++ [EvConnect (handshake_flag_of m h)] ∧
        _refcount m' = 1 ∧ Manager.is_connected m' = true ∧
        config m' = config m.
Proof.
  intros Hz Hc. unfold Manager.is_connected in Hc.
  destruct m as [nm cfg defs cal vs [b|] rc]; simpl in *; subst rc.
  - unfold Manager.acquire, Manager._ensure_bus. py_unfold. simpl.
    rewrite Hc. simpl. eexists. split; [reflexivity|].
    unfold calls_seen, Manager.is_connected, handshake_flag_of. simpl.
    by destruct h.
  - unfold Manager.acquire, Manager._ensure_bus. py_unfold. simpl.
    eexists. split; [reflexivity|].
    unfold calls_seen, Manager.is_connected, handshake_flag_of. simpl.
    by destruct h.
Qed.

Lemma acquire_held m h :
  0 < _refcount m →
  ∃ m', Manager.acquire h m = (m', Return tt) ∧
        calls_seen m' = calls_seen m ∧
        _refcount m' = _refcount m + 1 ∧
        Manager.is_connected m' = Manager.is_connected m ∧
        config m' = config m.
Proof.
  intros Hpos. destruct m as [nm cfg defs cal vs [b|] rc]; simpl in *.
  - unfold Manager.acquire, Manager._ensure_bus. py_unfold. simpl.
    rewrite bool_decide_eq_false_2 by lia. simpl.
    eexists. split; [reflexivity|]. done.
  - unfold Manager.acquire, Manager._ensure_bus. py_unfold. simpl.
    rewrite bool_decide_eq_false_2 by lia. simpl.
    eexists. split; [reflexivity|]. done.
Qed.

Lemma acquire_all_held hs m :
  0 < _refcount m →
  ∃ m', for_each Manager.acquire hs m = (m', Return tt) ∧
        calls_seen m' = calls_seen m ∧
        _refcount m' = _refcount m + Z.of_nat (length hs) ∧
        Manager.is_connected m' = Manager.is_connected m ∧
        config m' = config m.
Proof.
  revert m. induction hs as [|h hs IH]; intros m Hpos.
  - exists m. simpl. split_and!; try done. lia.
  - destruct (acquire_held m h Hpos) as (m1 & Hrun & Hcalls & Hrc & Hconn & Hcfg).
    destruct (IH m1) as (m2 & Hrun2 & Hcalls2 & Hrc2 & Hconn2 & Hcfg2); [lia|].
    exists m2. split_and!.
    + simpl. py_unfold. by rewrite Hrun.
    + congruence.
    + rewrite Hrc2, Hrc. simpl length. lia.
    + congruence.
    + congruence.
Qed.

Lemma release_held m d :
  1 < _refcount m →
  ∃ m', Manager.release d m = (m', Return tt) ∧
        calls_seen m' = calls_seen m ∧
        _refcount m' = _refcount m - 1 ∧
        Manager.is_connected m' = Manager.is_connected m.
Proof.
  intros Hpos. destruct m as [nm cfg defs cal vs ob rc]; simpl in *.
  unfold Manager.release. py_unfold. simpl.
  rewrite bool_decide_eq_false_2 by lia. simpl.
  destruct ob as [b|]; simpl.
  - rewrite bool_decide_eq_false_2 by lia. simpl.
    eexists. split; [reflexivity|]. done.
  - eexists. split; [reflexivity|]. done.
Qed.

Lemma release_all_held ds m :
  Z.of_nat (length ds) < _refcount m →
  ∃ m', for_each Manager.release ds m = (m', Return tt) ∧
        calls_seen m' = calls_seen m ∧
        _refcount m' = _refcount m - Z.of_nat (length ds) ∧
        Manager.is_connected m' = Manager.is_connected m.
Proof.
  revert m. induction ds as [|d ds IH]; intros m Hlen.
  - exists m. simpl. split_and!; try done. lia.
  - simpl length in Hlen.
    destruct (release_held m d) as (m1 & Hrun & Hcalls & Hrc & Hconn); [lia|].
    destruct (IH m1) as (m2 & Hrun2 & Hcalls2 & Hrc2 & Hconn2); [lia|].
    exists m2. split_and!.
    + simpl. py_unfold. by rewrite Hrun.
    + congruence.
    + rewrite Hrc2, Hrc. simpl length. lia.
    + congruence.
Qed.

Lemma release_last m d :
  _refcount m = 1 → Manager.is_connected m = true →
  ∃ m', Manager.release d m = (m', Return tt) ∧
        calls_seen m' = calls_seen m ++ [EvDisconnect d] ∧
        _refcount m' = 0 ∧
        Manager.is_connected m' = false.
Proof.
  intros Hone Hc. unfold Manager.is_connected in Hc.
  destruct m as [nm cfg defs cal vs [b|] rc]; simpl in *; [|discriminate].
  subst rc.
  unfold Manager.release. py_unfold. simpl. rewrite Hc. simpl.
  eexists. split; [reflexivity|]. done.
Qed.

Lemma for_each_snoc {S X} (f : X → Py S unit) xs x (s s1 : S) :
  for_each f xs s = (s1, Return tt) →
  for_each f (xs ++ [x]) s = (f x;; mret tt) s1.
Proof.
  revert s. induction xs as [|y xs IH]; intros s Hrun; simpl in *.
  - by injection Hrun as ->.
  - py_unfold. destruct (f y s) as [s' [[]|e]]; [|discriminate]. by apply IH.
Qed.

Lemma getitems_translatable (l2b : pydict string string) names :
  translatable l2b names →
  ∃ gs, View.getitems l2b names = Return gs ∧
        Forall2 (λ n g, dict_get l2b n = Some g) names gs.
Proof.
  induction names as [|n names IH]; intros Htr.
  - exists []. split; [done | constructor].
  - destruct (Htr n) as [g Hg]; [apply list_elem_of_here|].
    destruct IH as (gs & Hgs & Hall).
    { intros k Hk. apply Htr. by apply list_elem_of_further. }
    exists (g :: gs). simpl. rewrite Hg, Hgs. split; [done | by constructor].
Qed.

(** On the double, a torque call of a view goes through and leaves the
    reference count and the connection as they are. *)
Lemma disable_torque_echo (v : FeetechBusView) motors names n m :
  named v motors = Some names →
  translatable (local_to_bus v) names →
  ∃ m', View.disable_torque v motors n m = (m', Return tt) ∧
        _refcount m' = _refcount m ∧
        Manager.is_connected m' = Manager.is_connected m.
Proof.
  intros Hnamed Htr.
  destruct (getitems_translatable _ _ Htr) as (gs & Hgs & _).
  assert (View._translate_motors v motors = Return gs) as Ht.
  { destruct motors; simpl in *; simplify_eq; try done.
    unfold View.getitem. simpl in Hgs.
    destruct (dict_get (local_to_bus v) s); [|discriminate].
    destruct gs as [|g [|? ?]]; simplify_eq. done. }
  unfold View.disable_torque. py_unfold. rewrite Ht.
  unfold View.guarded_bus. destruct gs as [|g gs]; [by eexists|].
  destruct m as [nm cfg defs cal vs [b|] rc]; simpl; by eexists.
Qed.

(** C3. On a manager whose reference count is zero and whose bus is not
    connected, [k >= 1] calls to [acquire] make the handle receive exactly
    one [connect], on the first call (the 0-to-1 transition), with the
    handshake flag of that call; the count is then [k] and later calls only
    count.  Of [k] following calls to [release], the first [k - 1] reach the
    handle with nothing, and the one that brings the count back to zero
    makes it receive exactly one [disconnect]; a [release] at count zero
    changes nothing. *)
Theorem acquire_release_once m h hs :
  _refcount m = 0 → Manager.is_connected m = false →
  ∃ m1,
    for_each Manager.acquire (h :: hs) m = (m1, Return tt) ∧
    calls_seen m1 = calls_seen m ++ [EvConnect (handshake_flag_of m h)] ∧
    _refcount m1 = Z.of_nat (length (h :: hs)) ∧
    Manager.is_connected m1 = true ∧
    (∀ ds, (length ds < length (h :: hs))%nat →
       ∃ m2, for_each Manager.release ds m1 = (m2, Return tt) ∧
             calls_seen m2 = calls_seen m1 ∧
             _refcount m2 = Z.of_nat (length (h :: hs)) - Z.of_nat (length ds) ∧
             Manager.is_connected m2 = true) ∧
    (∀ ds d, length (ds ++ [d]) = length (h :: hs) →
       ∃ m3, for_each Manager.release (ds ++ [d]) m1 = (m3, Return tt) ∧
             calls_seen m3 = calls_seen m1 ++ [EvDisconnect d] ∧
             _refcount m3 = 0 ∧
             Manager.is_connected m3 = false ∧
             ∀ d', Manager.release d' m3 = (m3, Return tt)).
Proof.
  intros Hz Hc.
  destruct (acquire_from_zero m h Hz Hc) as (m0 & Hrun0 & Hcalls0 & Hrc0 & Hconn0 & _).
  destruct (acquire_all_held hs m0) as (m1 & Hrun1 & Hcalls1 & Hrc1 & Hconn1 & _);
    [lia|].
  assert (_refcount m1 = Z.of_nat (length (h :: hs))) as Hrc.
  { rewrite Hrc1, Hrc0. simpl length. lia. }
  assert (∀ ds, (length ds < length (h :: hs))%nat →
            ∃ m2, for_each Manager.release ds m1 = (m2, Return tt) ∧
                  calls_seen m2 = calls_seen m1 ∧
                  _refcount m2
                  = Z.of_nat (length (h :: hs)) - Z.of_nat (length ds) ∧
                  Manager.is_connected m2 = true) as Hheld.
  { intros ds Hlen.
    destruct (release_all_held ds m1) as (m2 & Hrun2 & Hcalls2 & Hrc2 & Hconn2);
      [lia|].
    exists m2. split_and!; [done|done|lia|congruence]. }
  exists m1. split_and!.
  - simpl. py_unfold. by rewrite Hrun0.
  - congruence.
  - done.
  - congruence.
  - done.
  - intros ds d Hlen. rewrite length_app in Hlen. simpl in Hlen.
    destruct (Hheld ds) as (m2 & Hrun2 & Hcalls2 & Hrc2 & Hconn2);
      [simpl; lia|].
    destruct (release_last m2 d) as (m3 & Hrun3 & Hcalls3 & Hrc3 & Hconn3);
      [simpl length in Hrc2; lia|done|].
    exists m3. split_and!.
    + rewrite (for_each_snoc _ _ _ _ _ Hrun2). py_unfold. by rewrite Hrun3.
    + congruence.
    + done.
    + done.
    + intros d'. by apply release_at_zero.
Qed.

(** C10. [connect] on a view is not idempotent although [disconnect] is:
    every [connect] increments the manager's reference count, while the
    view remembers only one flag.  From a manager at count zero, connect,
    connect, disconnect, disconnect on one view leaves the count at 1 and
    the bus connected: the first [disconnect] releases once and clears the
    flag, the second does nothing. *)
Theorem connect_twice_keeps_bus_open (v : FeetechBusView) m h1 h2 d1 d2 :
  _refcount m = 0 → Manager.is_connected m = false →
  translatable (local_to_bus v) (dict_keys (local_motors v)) →
  ∃ s1 s2 s3,
    View.connect h1 (v, m) = (s1, Return tt) ∧ _refcount s1.2 = 1 ∧
    View.connect h2 s1 = (s2, Return tt) ∧ _refcount s2.2 = 2 ∧
    View.disconnect d1 s2 = (s3, Return tt) ∧
    View.disconnect d2 s3 = (s3, Return tt) ∧
    _connected s3.1 = false ∧
    _refcount s3.2 = 1 ∧
    Manager.is_connected s3.2 = true.
Proof.
  intros Hz Hc Htr.
  destruct (acquire_from_zero m h1 Hz Hc) as (m1 & Hrun1 & _ & Hrc1 & Hconn1 & _).
  destruct (acquire_held m1 h2) as (m2 & Hrun2 & _ & Hrc2 & Hconn2 & _); [lia|].
  set (attached := {| local_motors := local_motors v;
                      local_to_bus := local_to_bus v; _connected := true |}).
  assert (∃ m3, (if d1 && View.is_connected m2
                 then View.disable_torque attached MotorsNone 0
                 else mret tt) m2 = (m3, Return tt) ∧
                _refcount m3 = _refcount m2 ∧
                Manager.is_connected m3 = Manager.is_connected m2)
    as (m3 & Hrun3 & Hrc3 & Hconn3).
  { destruct (d1 && View.is_connected m2); [|by exists m2].
    by apply (disable_torque_echo attached MotorsNone
                (dict_keys (local_motors v))). }
  destruct (release_held m3 d1) as (m4 & Hrun4 & _ & Hrc4 & Hconn4); [lia|].
  exists (attached, m1), (attached, m2),
    ({| local_motors := local_motors v; local_to_bus := local_to_bus v;
        _connected := false |}, m4).
  split_and!.
  - unfold View.connect. py_unfold. simpl. by rewrite Hrun1.
  - done.
  - unfold View.connect. py_unfold. simpl. by rewrite Hrun2.
  - simpl. lia.
  - unfold View.disconnect. py_unfold. simpl.
    destruct (d1 && View.is_connected m2); simpl in *.
    + rewrite Hrun3. simpl. by rewrite Hrun4.
    + injection Hrun3 as <-. by rewrite Hrun4.
  - apply disconnect_detached_view.
  - done.
  - simpl. lia.
  - simpl. congruence.
Qed.

End lifecycle_echo.

(** ** Name translation *)

Section translation_facts.
Context {A : Type}.
Implicit Types (l2b : pydict string string) (values res : pydict string A).

Lemma elem_of_setitem {K} `{EqDecision K} (d : pydict K A) k v k' v' :
  (k', v') ∈ dict_setitem d k v → (k', v') ∈ d ∨ (k', v') = (k, v).
Proof.
  induction d as [|[k0 v0] d IH]; simpl.
  - intros Hin. apply list_elem_of_singleton in Hin. by right.
  - destruct (decide (k0 = k)) as [->|Hne]; intros Hin.
    + apply elem_of_cons in Hin as [->|Hin]; [by right|].
      left. by apply list_elem_of_further.
    + apply elem_of_cons in Hin as [->|Hin]; [left; apply list_elem_of_here|].
      destruct (IH Hin) as [?|?]; [left; by apply list_elem_of_further|by right].
Qed.

Lemma elem_of_foldl_setitem {K} `{EqDecision K} (items d : pydict K A) k v :
  (k, v) ∈ foldl (λ d kv, dict_setitem d kv.1 kv.2) d items →
  (k, v) ∈ d ∨ (k, v) ∈ items.
Proof.
  revert d. induction items as [|[k0 v0] items IH]; intros d Hin; simpl in *.
  - by left.
  - destruct (IH _ Hin) as [Hd|Hi]; [|right; by apply list_elem_of_further].
    destruct (elem_of_setitem _ _ _ _ _ Hd) as [?|[= -> ->]]; [by left|].
    right. apply list_elem_of_here.
Qed.

Lemma elem_of_dict_of_items {K} `{EqDecision K} (items : pydict K A) k v :
  (k, v) ∈ dict_of_items items → (k, v) ∈ items.
Proof.
  intros Hin. apply elem_of_foldl_setitem in Hin as [Hin|Hin]; [|done].
  by apply elem_of_nil in Hin.
Qed.

End translation_facts.

Section reverse_facts.
Implicit Types (l2b : pydict string string).

(** Whatever the reverse dictionary sends a bus-global name to is a local
    name bound to it. *)
Lemma reverse_map_sound l2b g n :
  dict_get (View.reverse_map l2b) g = Some n → (n, g) ∈ l2b.
Proof.
  intros Hget. apply dict_get_Some_elem, elem_of_dict_of_items in Hget.
  apply list_elem_of_fmap in Hget as ([n' g'] & [= -> ->] & Hin). done.
Qed.

Lemma reverse_map_injective_map l2b :
  injective_map l2b → View.reverse_map l2b = (λ kv, (kv.2, kv.1)) <$> l2b.
Proof.
  intros [_ Hvals]. unfold View.reverse_map. apply dict_of_items_NoDup.
  by rewrite <- list_fmap_compose.
Qed.

Lemma reverse_map_lookup l2b g n :
  injective_map l2b →
  dict_get (View.reverse_map l2b) g = Some n ↔ dict_get l2b n = Some g.
Proof.
  intros Hinj. split.
  - intros Hget. apply reverse_map_sound in Hget.
    apply dict_get_elem; [apply Hinj | done].
  - intros Hget. rewrite reverse_map_injective_map by done.
    apply dict_get_elem.
    + rewrite <- list_fmap_compose. apply Hinj.
    + apply list_elem_of_fmap. exists (n, g). split; [done|].
      by apply dict_get_Some_elem.
Qed.

Lemma dict_get_injective l2b n1 n2 g :
  injective_map l2b →
  dict_get l2b n1 = Some g → dict_get l2b n2 = Some g → n1 = n2.
Proof.
  intros Hinj H1 H2.
  apply (reverse_map_lookup _ _ _ Hinj) in H1, H2. congruence.
Qed.

End reverse_facts.

Section map_back_facts.
Context {A : Type}.
Implicit Types (v : FeetechBusView) (res : pydict string A).

(** The items of [_map_dict_to_local], before they are gathered in a
    dictionary. *)
Lemma elem_of_mapped_back v res n x :
  (n, x) ∈ omap (λ kv : string * A,
                   match dict_get (View.reverse_map (local_to_bus v)) kv.1 with
                   | Some l => Some (l, kv.2)
                   | None => None
                   end) res ↔
  ∃ g, (g, x) ∈ res ∧ dict_get (View.reverse_map (local_to_bus v)) g = Some n.
Proof.
  rewrite list_elem_of_omap. split.
  - intros ([g x'] & Hin & Hf). simpl in Hf.
    destruct (dict_get _ g) as [l|] eqn:Hg; simplify_eq. by exists g.
  - intros (g & Hin & Hg). exists (g, x). simpl. by rewrite Hg.
Qed.

Lemma mapped_back_keys_NoDup v res :
  NoDup (local_to_bus v).*1 → NoDup res.*1 →
  NoDup (omap (λ kv : string * A,
                 match dict_get (View.reverse_map (local_to_bus v)) kv.1 with
                 | Some l => Some (l, kv.2)
                 | None => None
                 end) res).*1.
Proof.
  intros Hl2b. induction res as [|[g x] res IH]; intros Hnd; simpl.
  - constructor.
  - simpl in Hnd. apply NoDup_cons in Hnd as [Hg Hnd].
    destruct (dict_get _ g) as [n|] eqn:Hrev; simpl; [|by apply IH].
    apply NoDup_cons. split; [|by apply IH].
    intros Hin. apply list_elem_of_fmap in Hin as ([n' x'] & -> & Hin).
    apply elem_of_mapped_back in Hin as (g' & Hin' & Hrev').
    apply reverse_map_sound in Hrev, Hrev'. simpl in Hrev.
    assert (g' = g) as ->.
    { apply (dict_get_elem _ _ _ Hl2b) in Hrev, Hrev'. congruence. }
    apply Hg. apply list_elem_of_fmap. by exists (g, x').
Qed.

End map_back_facts.

(** ** Delegated operations *)

Section delegation.
Context {Value B : Type} `{!MotorsBus Value B}.
Implicit Types (v : FeetechBusView) (m : FeetechBusManager B).

Lemma getitems_not_runtime {A} (d : pydict string A) names msg :
  View.getitems d names ≠ Raise (RuntimeError msg).
Proof.
  induction names as [|n names IH]; simpl; [done|].
  destruct (dict_get d n); [|done].
  destruct (View.getitems d names) as [vs|e]; [done|]. congruence.
Qed.

Lemma translate_motor_not_runtime v motor msg :
  View._translate_motor v motor ≠ Raise (RuntimeError msg).
Proof.
  destruct motor; simpl; try done. unfold View.getitem.
  by destruct (dict_get _ _).
Qed.

Lemma translate_motors_not_runtime v motors msg :
  View._translate_motors v motors ≠ Raise (RuntimeError msg).
Proof.
  destruct motors; simpl; try done; try apply getitems_not_runtime.
  unfold View.getitem. by destruct (dict_get _ _).
Qed.

Lemma translate_dict_not_runtime {A} v (values : pydict string A) msg :
  View._translate_dict v values ≠ Raise (RuntimeError msg).
Proof.
  unfold View._translate_dict. generalize (@nil (string * A)).
  induction values as [|[n x] values IH]; intros acc; simpl; [done|].
  destruct (dict_get _ n); [apply IH | done].
Qed.

Lemma call_bus_not_runtime {A} b (c : bus_call B A) m msg :
  (Manager.call_bus b c m).2 ≠ Raise (RuntimeError msg).
Proof. unfold Manager.call_bus. by destruct (c b) as [b' [e|a]]. Qed.

(** A guarded operation raises the guard's error exactly when there is no
    handle, provided what follows the guard never raises that error. *)
Lemma with_bus_guard {A} (k : B → Py (FeetechBusManager B) A) m :
  (∀ b, (k b m).2 ≠ Raise View.UninitializedBusError) →
  (View.with_bus k m).2 = Raise View.UninitializedBusError ↔ bus m = None.
Proof.
  intros Hk. unfold View.with_bus. py_unfold.
  destruct (bus m) as [b|]; simpl; [|done].
  split; [|done]. intros Hr. by apply Hk in Hr.
Qed.

Lemma translated_call_not_runtime {X A}
    (o : outcome X) (c : X → bus_call B A) b m :
  (∀ msg, o ≠ Raise (RuntimeError msg)) →
  ((x ← View.lift o; Manager.call_bus b (c x)) m).2
  ≠ Raise View.UninitializedBusError.
Proof.
  intros Ho. py_unfold. destruct o as [x|e]; simpl.
  - apply call_bus_not_runtime.
  - intros [= ->]. by eapply Ho.
Qed.

Lemma translated_read_not_runtime {X A C}
    (o : outcome X) (c : X → bus_call B A) (f : A → C) b m :
  (∀ msg, o ≠ Raise (RuntimeError msg)) →
  ((x ← View.lift o; r ← Manager.call_bus b (c x); mret (f r)) m).2
  ≠ Raise View.UninitializedBusError.
Proof.
  intros Ho. py_unfold. destruct o as [x|e]; simpl.
  - unfold Manager.call_bus. by destruct (c x b) as [b' [e|a]].
  - intros [= ->]. by eapply Ho.
Qed.

(** C5. Each of [write], [sync_write], [sync_read],
    [set_half_turn_homings], [record_ranges_of_motion],
    [write_calibration] and [setup_motor] raises the uninitialized-bus error
    ([RuntimeError("Shared bus not initialized.")]) if and only if the
    manager's handle is absent, that is, was never constructed.  With the
    handle absent, [enable_torque] and [disable_torque] return normally and
    change nothing when their [motors] argument is [None], a local motor
    name the view translates, or a list of such names; a name the view
    does not know makes them raise [KeyError] instead, with or without a
    handle. *)
Theorem uninitialized_bus_guard v m :
  (∀ dn motor val nz nr,
     (View.write v dn motor val nz nr m).2 = Raise View.UninitializedBusError
     ↔ bus m = None) ∧
  (∀ dn values nz nr,
     (View.sync_write v dn values nz nr m).2 = Raise View.UninitializedBusError
     ↔ bus m = None) ∧
  (∀ dn motors nz nr,
     (View.sync_read v dn motors nz nr m).2 = Raise View.UninitializedBusError
     ↔ bus m = None) ∧
  (∀ motors,
     (View.set_half_turn_homings v motors m).2 = Raise View.UninitializedBusError
     ↔ bus m = None) ∧
  (∀ motors,
     (View.record_ranges_of_motion v motors m).2
     = Raise View.UninitializedBusError
     ↔ bus m = None) ∧
  (∀ calibration,
     (View.write_calibration v calibration m).2
     = Raise View.UninitializedBusError
     ↔ bus m = None) ∧
  (∀ motor br id,
     (View.setup_motor v motor br id m).2 = Raise View.UninitializedBusError
     ↔ bus m = None) ∧
  (∀ motors names nr,
     bus m = None →
     named v motors = Some names →
     translatable (local_to_bus v) names →
     View.enable_torque v motors nr m = (m, Return tt) ∧
     View.disable_torque v motors nr m = (m, Return tt)) ∧
  (∀ n nr,
     dict_get (local_to_bus v) n = None →
     View.enable_torque v (MotorsName n) nr m = (m, Raise (KeyError n)) ∧
     View.disable_torque v (MotorsName n) nr m = (m, Raise (KeyError n))).
Proof.
  split_and!.
  - intros. apply with_bus_guard. intros b.
    apply translated_call_not_runtime. intros. apply translate_motor_not_runtime.
  - intros. apply with_bus_guard. intros b.
    apply translated_call_not_runtime. intros. apply translate_dict_not_runtime.
  - intros. apply with_bus_guard. intros b.
    apply translated_read_not_runtime. intros. apply translate_motors_not_runtime.
  - intros. apply with_bus_guard. intros b.
    apply translated_read_not_runtime. intros. apply translate_motors_not_runtime.
  - intros. apply with_bus_guard. intros b.
    apply (translated_read_not_runtime _ _
             (λ r, (View._map_dict_to_local v r.1, View._map_dict_to_local v r.2))).
    intros. apply translate_motors_not_runtime.
  - intros. apply with_bus_guard. intros b.
    apply translated_call_not_runtime. intros. apply translate_dict_not_runtime.
  - intros. apply with_bus_guard. intros b.
    apply translated_call_not_runtime. intros. apply translate_motor_not_runtime.
  - intros motors names nr Hbus Hnamed Htr.
    destruct (getitems_translatable _ _ Htr) as (gs & Hgs & _).
    assert (View._translate_motors v motors = Return gs) as Ht.
    { destruct motors; simpl in *; simplify_eq; try done.
      unfold View.getitem. simpl in Hgs.
      destruct (dict_get (local_to_bus v) s); [|discriminate].
      destruct gs as [|g [|? ?]]; simplify_eq. done. }
    unfold View.enable_torque, View.disable_torque. py_unfold. rewrite Ht.
    unfold View.guarded_bus. rewrite Hbus. by destruct gs.
  - intros n nr Hn.
    unfold View.enable_torque, View.disable_torque. py_unfold. simpl.
    unfold View.getitem. by rewrite Hn.
Qed.

Lemma all_calibrated_true (l2b : pydict string string)
    (table : gmap string MotorCalibration.t) names :
  View.all_calibrated l2b table names = Return true ↔
  ∀ n, n ∈ names → ∃ g, dict_get l2b n = Some g ∧ is_Some (table !! g).
Proof.
  induction names as [|n names IH]; simpl.
  - split; [|done]. intros _ k Hk. by apply elem_of_nil in Hk.
  - destruct (dict_get l2b n) as [g|] eqn:Hg.
    + destruct (decide (is_Some (table !! g))) as [Hcal|Hcal].
      * rewrite IH. split.
        -- intros Hall k Hk. apply elem_of_cons in Hk as [->|Hk]; eauto.
        -- intros Hall k Hk. apply Hall. by apply list_elem_of_further.
      * split; [done|]. intros Hall.
        destruct (Hall n) as (g' & Hg' & Hin); [apply list_elem_of_here|].
        congruence.
    + split; [done|]. intros Hall.
      destruct (Hall n) as (g' & Hg' & _); [apply list_elem_of_here|].
      congruence.
Qed.


(** C9. An integer [motor] argument goes through a view as it is:
    [_translate_motor] returns it unchanged, so [write] and [setup_motor]
    hand the very same id to the shared handle, for every view and every
    id: no prefix, no id offset, and no check that the id is one of the
    view's motors. *)
Theorem integer_motor_forwarded_unchanged v m b i :
  View._translate_motor v (MotorId i) = Return (MotorId i) ∧
  (∀ dn val nz nr,
     View.write v dn (MotorId i) val nz nr (Manager.set_bus (Some b) m)
     = Manager.call_bus b (bus_write dn (MotorId i) val nz nr)
         (Manager.set_bus (Some b) m)) ∧
  (∀ br id,
     View.setup_motor v (MotorId i) br id (Manager.set_bus (Some b) m)
     = Manager.call_bus b (bus_setup_motor (MotorId i) br id)
         (Manager.set_bus (Some b) m)).
Proof. split_and!; reflexivity. Qed.

(** C6. What a view returns from [sync_read], [set_half_turn_homings] and
    [record_ranges_of_motion] is the handle's result passed through
    [_map_dict_to_local].  Every entry of a mapped-back dictionary is keyed
    by a local name of the view and carries the value the handle returned
    under that name's bus-global name, so nothing of another sub-device
    appears; and, the view's map being injective, a local name is bound in
    the result exactly when its bus-global name is bound in what the handle
    returned, with the same value: keys in the map are renamed, keys absent
    from it are dropped. *)
Theorem results_keyed_by_local_names v :
  (∀ m b dn motors subset nz nr b' res,
     View._translate_motors v motors = Return subset →
     bus_sync_read dn subset nz nr b = (b', inr res) →
     View.sync_read v dn motors nz nr (Manager.set_bus (Some b) m)
     = (Manager.set_bus (Some b') m, Return (View._map_dict_to_local v res))) ∧
  (∀ m b motors subset b' res,
     View._translate_motors v motors = Return subset →
     bus_set_half_turn_homings subset b = (b', inr res) →
     View.set_half_turn_homings v motors (Manager.set_bus (Some b) m)
     = (Manager.set_bus (Some b') m, Return (View._map_dict_to_local v res))) ∧
  (∀ m b motors subset b' mins maxes,
     View._translate_motors v motors = Return subset →
     bus_record_ranges_of_motion subset b = (b', inr (mins, maxes)) →
     View.record_ranges_of_motion v motors (Manager.set_bus (Some b) m)
     = (Manager.set_bus (Some b') m,
        Return (View._map_dict_to_local v mins,
                View._map_dict_to_local v maxes))) ∧
  (∀ (A : Type) (res : pydict string A) n x,
     (n, x) ∈ View._map_dict_to_local v res →
     ∃ g, (n, g) ∈ local_to_bus v ∧ (g, x) ∈ res) ∧
  (∀ (A : Type) (res : pydict string A),
     injective_map (local_to_bus v) → NoDup (dict_keys res) →
     ∀ n x, dict_get (View._map_dict_to_local v res) n = Some x ↔
            ∃ g, dict_get (local_to_bus v) n = Some g ∧
                 dict_get res g = Some x).
Proof.
  split_and!.
  - intros m b dn motors subset nz nr b' res Ht Hread.
    unfold View.sync_read, View.with_bus, Manager.call_bus. py_unfold. simpl.
    rewrite Ht. simpl. by rewrite Hread.
  - intros m b motors subset b' res Ht Hread.
    unfold View.set_half_turn_homings, View.with_bus, Manager.call_bus. py_unfold. simpl.
    rewrite Ht. simpl. by rewrite Hread.
  - intros m b motors subset b' mins maxes Ht Hread.
    unfold View.record_ranges_of_motion, View.with_bus, Manager.call_bus. py_unfold. simpl.
    rewrite Ht. simpl. by rewrite Hread.
  - intros A res n x Hin. unfold View._map_dict_to_local in Hin.
    apply elem_of_dict_of_items, elem_of_mapped_back in Hin as (g & Hin & Hrev).
    exists g. split; [by apply reverse_map_sound | done].
  - intros A res Hinj Hres n x. unfold View._map_dict_to_local.
    pose proof (mapped_back_keys_NoDup v res (proj1 Hinj) Hres) as Hnd.
    rewrite dict_of_items_NoDup by done. split.
    + intros Hget. apply dict_get_Some_elem, elem_of_mapped_back in Hget
        as (g & Hin & Hrev).
      exists g. split; [by apply reverse_map_lookup | by apply dict_get_elem].
    + intros (g & Hg & Hx). apply dict_get_elem; [done|].
      apply elem_of_mapped_back. exists g.
      split; [by apply dict_get_Some_elem | by apply reverse_map_lookup].
Qed.

End delegation.

(** ** Round trip through the double *)

Section round_trip.
Context {Value : Type}.
Implicit Types (v : FeetechBusView) (l2b : pydict string string)
               (values payload : pydict string Value).

Lemma translate_items_translatable l2b values acc :
  translatable l2b (dict_keys values) →
  ∃ payload, renamed l2b values payload ∧
             View.translate_items l2b values acc
             = Return (foldl (λ d kv, dict_setitem d kv.1 kv.2) acc payload).
Proof.
  revert acc. induction values as [|[n x] values IH]; intros acc Htr.
  - exists []. split; [constructor | done].
  - destruct (Htr n) as [g Hg]; [apply list_elem_of_here|].
    destruct (IH (dict_setitem acc g x)) as (payload & Hren & Hrun).
    { intros k Hk. apply Htr. by apply list_elem_of_further. }
    exists ((g, x) :: payload). split; [by constructor|].
    simpl. by rewrite Hg, Hrun.
Qed.

Lemma renamed_keys_NoDup l2b values payload :
  injective_map l2b → NoDup (dict_keys values) → renamed l2b values payload →
  NoDup (dict_keys payload).
Proof.
  intros Hinj Hnd Hren. induction Hren as [|[n x] [g y] values payload [Hg _] Hren IH].
  - constructor.
  - unfold dict_keys in *. simpl in *. apply NoDup_cons in Hnd as [Hn Hnd].
    apply NoDup_cons. split; [|by apply IH].
    intros Hin. apply list_elem_of_fmap in Hin as ([g' y'] & -> & Hin).
    apply list_elem_of_lookup in Hin as [i Hi].
    destruct (Forall2_lookup_r _ _ _ _ _ Hren Hi) as ([n' x'] & Hi' & Hg' & _).
    simpl in *. assert (n' = n) as -> by eauto using dict_get_injective.
    apply Hn. apply list_elem_of_fmap. exists (n, x'). split; [done|].
    by eapply list_elem_of_lookup_2.
Qed.

Lemma getitems_renamed l2b values payload :
  renamed l2b values payload →
  View.getitems l2b (dict_keys values) = Return (dict_keys payload).
Proof.
  intros Hren. induction Hren as [|[n x] [g y] values payload [Hg _] Hren IH];
    [done|].
  unfold dict_keys in *. rewrite !fmap_cons. cbn [View.getitems fst] in *.
  by rewrite Hg, IH.
Qed.

Lemma mapped_back_renamed v values payload :
  injective_map (local_to_bus v) → renamed (local_to_bus v) values payload →
  omap (λ kv : string * Value,
          match dict_get (View.reverse_map (local_to_bus v)) kv.1 with
          | Some l => Some (l, kv.2)
          | None => None
          end) payload = values.
Proof.
  intros Hinj Hren.
  induction Hren as [|[n x] [g y] values payload [Hg Hxy] Hren IH]; [done|].
  cbn [fst snd] in *. apply (reverse_map_lookup _ _ _ Hinj) in Hg.
  cbn [omap list_omap fst snd]. rewrite Hg. f_equal; [by rewrite Hxy | exact IH].
Qed.

Lemma store_lookup_out dn payload (r : pydict (string * string) Value) key :
  (∀ g, g ∈ dict_keys payload → key ≠ (dn, g)) →
  dict_get (EchoBus.store dn payload r) key = dict_get r key.
Proof.
  revert r. induction payload as [|[g x] payload IH]; intros r Hout; [done|].
  unfold EchoBus.store in *. simpl. rewrite IH.
  - apply dict_get_setitem_ne. apply not_eq_sym, Hout. apply list_elem_of_here.
  - intros g' Hg'. apply Hout. by apply list_elem_of_further.
Qed.

Lemma store_lookup_in dn payload (r : pydict (string * string) Value) g x :
  NoDup (dict_keys payload) → (g, x) ∈ payload →
  dict_get (EchoBus.store dn payload r) (dn, g) = Some x.
Proof.
  revert r. induction payload as [|[g0 x0] payload IH]; intros r Hnd Hin.
  - by apply elem_of_nil in Hin.
  - unfold dict_keys in Hnd. simpl in Hnd. apply NoDup_cons in Hnd as [Hg0 Hnd].
    apply elem_of_cons in Hin as [[= -> ->]|Hin].
    + change (dict_get (EchoBus.store dn payload (dict_setitem r (dn, g0) x0))
                (dn, g0) = Some x0).
      rewrite store_lookup_out; [apply dict_get_setitem_eq|].
      intros g' Hg' [= ->]. done.
    + by apply (IH _ Hnd Hin).
Qed.

Lemma fetch_stored dn payload (r : pydict (string * string) Value) acc :
  (∀ g x, (g, x) ∈ payload → dict_get r (dn, g) = Some x) →
  EchoBus.fetch dn (dict_keys payload) r acc
  = inr (foldl (λ d kv, dict_setitem d kv.1 kv.2) acc payload).
Proof.
  revert acc. induction payload as [|[g x] payload IH]; intros acc Hall; [done|].
  simpl. rewrite (Hall g x) by apply list_elem_of_here.
  apply IH. intros g' x' Hin. apply Hall. by apply list_elem_of_further.
Qed.

(** C4. For a view with an injective local-to-global map and a dictionary
    of values keyed by local motor names of the view, [sync_write] of the
    values followed by [sync_read] of the same local names, against the
    echoing double, returns the dictionary that was written, unchanged; the
    double saw two calls, the write keyed by the bus-global names of those
    motors and the read listing the same bus-global names. *)
Theorem sync_write_then_sync_read v values
    (m : FeetechBusManager (EchoBus.t Value)) b dn nz nr nz' nr' :
  injective_map (local_to_bus v) →
  NoDup (dict_keys values) →
  translatable (local_to_bus v) (dict_keys values) →
  bus m = Some b →
  ∃ m1 m2 payload,
    View.sync_write v dn values nz nr m = (m1, Return tt) ∧
    View.sync_read v dn (MotorsList (dict_keys values)) nz' nr' m1
    = (m2, Return values) ∧
    calls_seen m2
    = calls_seen m ++ [EvSyncWrite dn payload nz nr;
                       EvSyncRead dn (dict_keys payload) nz' nr'] ∧
    renamed (local_to_bus v) values payload.
Proof.
  intros Hinj Hnd Htr Hbus.
  destruct (translate_items_translatable (local_to_bus v) values [] Htr)
    as (payload & Hren & Htrans).
  pose proof (renamed_keys_NoDup _ _ _ Hinj Hnd Hren) as Hpnd.
  rewrite foldl_setitem_fresh in Htrans by done. simpl in Htrans.
  destruct m as [nm cfg defs cal vs ob rc]. simpl in Hbus. subst ob.
  eexists _, _, payload. split_and!.
  - unfold View.sync_write, View.with_bus, View._translate_dict,
      Manager.call_bus. py_unfold. simpl. rewrite Htrans. reflexivity.
  - unfold View.sync_read, View.with_bus, Manager.call_bus. py_unfold. simpl.
    rewrite (getitems_renamed _ _ _ Hren). simpl.
    rewrite fetch_stored.
    + rewrite foldl_setitem_fresh by done. simpl.
      unfold View._map_dict_to_local.
      rewrite (mapped_back_renamed _ _ _ Hinj Hren).
      rewrite dict_of_items_NoDup by done. reflexivity.
    + intros g x Hin. by apply store_lookup_in.
  - unfold calls_seen. simpl. by rewrite <- app_assoc.
  - done.
Qed.

End round_trip.

(** ** The two-arm assembly, checked *)

Section scenario_checks.
Import Scenario.
Local Open Scope string_scope.

(** Registration of the two arms gives the expected Global Namespace and
    the expected views. *)
Example scenario_namespace :
  Manager.register_component "left" arm "left_" 0 (Some arm_calibration)
    empty_manager = (with_left, Return left_view) ∧
  Manager.register_component "right" arm "right_" 6 None with_left
  = (with_both, Return right_view) ∧
  _motor_defs with_both !! "left_shoulder" = Some shoulder ∧
  _motor_defs with_both !! "right_shoulder"
  = Some (Motor.make 7 "sts3215" "RANGE_M100_100") ∧
  size (_motor_defs with_both) = 2%nat ∧
  _calibration with_both !! "left_shoulder" = Some shoulder_calibration.
Proof. vm_compute. split_and!; reflexivity. Qed.

(** The first [connect] from either view connects; [left.disconnect()]
    then [right.disconnect()] disconnects only on the second call. *)
Example scenario_lifecycle :
  let both := (left_view, with_both) in
  let s1 := (View.connect (Some true) both).1 in
  let s2 := (View.connect (Some true) (right_view, s1.2)).1 in
  let s3 := (View.disconnect true (s1.1, s2.2)).1 in
  let s4 := (View.disconnect true (s2.1, s3.2)).1 in
  calls_seen s1.2 = [EvConnect true] ∧
  calls_seen s2.2 = [EvConnect true] ∧
  calls_seen s3.2 = [EvConnect true; EvDisableTorque ["left_shoulder"] 0] ∧
  calls_seen s4.2 = [EvConnect true; EvDisableTorque ["left_shoulder"] 0;
                     EvDisableTorque ["right_shoulder"] 0; EvDisconnect true] ∧
  _refcount s4.2 = 0.
Proof. vm_compute. split_and!; reflexivity. Qed.

(** The handle is seeded with the manager's tables when it is built. *)
Example scenario_handle_tables :
  ∃ b, bus live = Some b ∧
       bus_calibration b = _calibration with_both ∧
       EchoBus.motors b = _motor_defs with_both ∧
       View.is_calibrated left_view live = Return true ∧
       View.is_calibrated right_view live = Return false.
Proof. eexists. vm_compute. split_and!; reflexivity. Qed.

(** A view reaches a motor of another component by its raw id. *)
Example scenario_raw_id :
  calls_seen (View.write right_view "Goal_Position" (MotorId 1) 2048 true 0 live).1
  = [EvConnect true; EvWrite "Goal_Position" (MotorId 1) 2048 true 0].
Proof. vm_compute. reflexivity. Qed.

Lemma register_component_places_motors_witness :
  Manager.register_component "right" arm "right_" 6 None with_left
  = (with_both, Return right_view) ∧
  _motor_defs with_both !! "right_shoulder"
  = Some (Motor.make 7 "sts3215" "RANGE_M100_100") ∧
  dict_get (local_to_bus right_view) "shoulder" = Some "right_shoulder".
Proof.
  assert (Manager.register_component "right" arm "right_" 6 None with_left
          = (with_both, Return right_view)) as Hrun by (vm_compute; reflexivity).
  split; [exact Hrun|].
  destruct (register_component_places_motors _ _ _ _ _ _ _ _ Hrun)
    as (_ & _ & Hall).
  destruct (Hall "shoulder" shoulder) as (Hdefs & _ & Hmap);
    [apply list_elem_of_here|].
  split; [exact Hdefs | exact Hmap].
Defined.

(** C1, counterexample to atomicity.  The second motor of [clashing_arm]
    collides with [left_shoulder]; the call raises, and [left_elbow], which
    came first, stays in the Global Namespace, whose size went from 1 to
    2. *)
Lemma register_component_partial_commit :
  let failed :=
    Manager.register_component "again" clashing_arm "left_" 0 None with_left in
  is_Some (_motor_defs with_left !! ("left_" +:+ "shoulder")) ∧
  failed.2
  = Raise (ValueError "Motor name collision on shared bus 'bus0': left_shoulder") ∧
  _motor_defs with_left !! "left_elbow" = None ∧
  _motor_defs failed.1 !! "left_elbow" = Some elbow ∧
  size (_motor_defs with_left) = 1%nat ∧
  size (_motor_defs failed.1) = 2%nat ∧
  _motor_defs failed.1 ≠ _motor_defs with_left.
Proof.
  split_and!; try (vm_compute; reflexivity).
  - vm_compute. by eexists.
  - intros Heq. apply (f_equal (λ d, d !! "left_elbow")) in Heq.
    vm_compute in Heq. discriminate.
Qed.

Lemma register_component_collision_witness :
  NoDup (dict_keys clashing_arm) ∧
  (∃ n mot, (n, mot) ∈ clashing_arm ∧
            is_Some (_motor_defs with_left !! ("left_" +:+ n))) ∧
  ∃ n m', Manager.register_component "again" clashing_arm "left_" 0 None
            with_left
          = (m', Raise (ValueError
                          (Manager.collision_message "bus0" ("left_" +:+ n)))) ∧
          views m' = views with_left.
Proof.
  assert (NoDup (dict_keys clashing_arm)) as Hnd
    by (apply (bool_decide_unpack _); vm_compute; reflexivity).
  assert (∃ n mot, (n, mot) ∈ clashing_arm ∧
                   is_Some (_motor_defs with_left !! ("left_" +:+ n)))
    as Htaken.
  { exists "shoulder", shoulder. split.
    - apply list_elem_of_further, list_elem_of_here.
    - vm_compute. by eexists. }
  split; [exact Hnd|]. split; [exact Htaken|].
  destruct (register_component_collision "again" clashing_arm "left_" 0 None
              with_left Hnd Htaken)
    as (pre & n & mot & post & m' & _ & _ & _ & Hrun & _ & _ & _ & _ & Hviews & _).
  exists n, m'. split; [exact Hrun | exact Hviews].
Defined.

Lemma acquire_release_once_witness :
  _refcount with_both = 0 ∧ Manager.is_connected with_both = false ∧
  ∃ m1, for_each Manager.acquire [Some true; Some false; None] with_both
        = (m1, Return tt) ∧
        calls_seen m1 = [EvConnect true] ∧ _refcount m1 = 3.
Proof.
  split; [reflexivity|]. split; [reflexivity|].
  destruct (acquire_release_once with_both (Some true) [Some false; None])
    as (m1 & Hrun & Hcalls & Hrc & _); [reflexivity..|].
  exists m1. split_and!; [exact Hrun | exact Hcalls | exact Hrc].
Defined.

Lemma connect_twice_keeps_bus_open_witness :
  _refcount with_both = 0 ∧ Manager.is_connected with_both = false ∧
  translatable (local_to_bus left_view) (dict_keys (local_motors left_view)) ∧
  ∃ s, (View.connect (Some true);; View.connect (Some true);;
        View.disconnect true;; View.disconnect true) (left_view, with_both)
       = (s, Return tt) ∧
       _refcount s.2 = 1 ∧ Manager.is_connected s.2 = true.
Proof.
  assert (translatable (local_to_bus left_view)
            (dict_keys (local_motors left_view))) as Htr.
  { intros n Hn. apply list_elem_of_singleton in Hn as ->. by eexists. }
  split; [reflexivity|]. split; [reflexivity|]. split; [exact Htr|].
  destruct (connect_twice_keeps_bus_open left_view with_both (Some true)
              (Some true) true true)
    as (s1 & s2 & s3 & H1 & _ & H2 & _ & H3 & H4 & _ & Hrc & Hconn);
    [reflexivity | reflexivity | exact Htr |].
  exists s3. split_and!; [|exact Hrc|exact Hconn].
  unfold mbind, Py_bind, py_bind. by rewrite H1, H2, H3, H4.
Defined.

Lemma uninitialized_bus_guard_witness :
  bus with_both = None ∧
  named left_view MotorsNone = Some ["shoulder"] ∧
  translatable (local_to_bus left_view) ["shoulder"] ∧
  View.enable_torque left_view MotorsNone 0 with_both = (with_both, Return tt) ∧
  View.disable_torque left_view MotorsNone 0 with_both = (with_both, Return tt).
Proof.
  assert (translatable (local_to_bus left_view) ["shoulder"]) as Htr.
  { intros n Hn. apply list_elem_of_singleton in Hn as ->. by eexists. }
  split; [reflexivity|]. split; [reflexivity|]. split; [exact Htr|].
  destruct (uninitialized_bus_guard left_view with_both)
    as (_ & _ & _ & _ & _ & _ & _ & Htorque & _).
  exact (Htorque MotorsNone ["shoulder"] 0 eq_refl eq_refl Htr).
Defined.



(** C5, counterexample to the unconditional no-op.  No handle has been
    constructed, and [disable_torque] and [enable_torque] on a motor name
    the view does not know raise [KeyError] instead of returning. *)
Lemma torque_on_unknown_name_raises_without_handle :
  bus with_both = None ∧
  View.disable_torque left_view (MotorsName "wrist") 0 with_both
  = (with_both, Raise (KeyError "wrist")) ∧
  View.enable_torque left_view (MotorsName "wrist") 0 with_both
  = (with_both, Raise (KeyError "wrist")).
Proof. by vm_compute. Qed.

Lemma results_keyed_by_local_names_witness :
  let res := [("left_shoulder", 10); ("right_shoulder", 20)] in
  injective_map (local_to_bus right_view) ∧ NoDup (dict_keys res) ∧
  dict_get (View._map_dict_to_local right_view res) "shoulder" = Some 20 ∧
  View._map_dict_to_local right_view res = [("shoulder", 20)].
Proof.
  intros res.
  assert (injective_map (local_to_bus right_view)) as Hinj.
  { split; apply (bool_decide_unpack _); vm_compute; reflexivity. }
  assert (NoDup (dict_keys res)) as Hnd
    by (apply (bool_decide_unpack _); vm_compute; reflexivity).
  split; [exact Hinj|]. split; [exact Hnd|]. split; [|reflexivity].
  destruct (results_keyed_by_local_names (Value:=Z) (B:=EchoBus.t Z) right_view)
    as (_ & _ & _ & _ & Hiff).
  apply (Hiff Z res Hinj Hnd). exists "right_shoulder". split; reflexivity.
Defined.

Lemma sync_write_then_sync_read_witness :
  let values := [("shoulder", 2048)] in
  injective_map (local_to_bus left_view) ∧ NoDup (dict_keys values) ∧
  translatable (local_to_bus left_view) (dict_keys values) ∧
  ∃ m1 m2,
    View.sync_write left_view "Goal_Position" values true 0 live
    = (m1, Return tt) ∧
    View.sync_read left_view "Goal_Position" (MotorsList ["shoulder"]) true 0 m1
    = (m2, Return values).
Proof.
  intros values.
  assert (injective_map (local_to_bus left_view)) as Hinj.
  { split; apply (bool_decide_unpack _); vm_compute; reflexivity. }
  assert (NoDup (dict_keys values)) as Hnd
    by (apply (bool_decide_unpack _); vm_compute; reflexivity).
  assert (translatable (local_to_bus left_view) (dict_keys values)) as Htr.
  { intros n Hn. apply list_elem_of_singleton in Hn as ->. by eexists. }
  split; [exact Hinj|]. split; [exact Hnd|]. split; [exact Htr|].
  destruct (sync_write_then_sync_read left_view values live
              (EchoBus.make (_motor_defs with_both) (_calibration with_both)
                 true [] [EvConnect true])
              "Goal_Position" true 0 true 0 Hinj Hnd Htr)
    as (m1 & m2 & payload & Hw & Hr & _); [vm_compute; reflexivity|].
  exists m1, m2. split; [exact Hw | exact Hr].
Defined.

End scenario_checks.

(** ** More on registration *)

Section registration_more.
Context {B : Type}.
Implicit Types (m : FeetechBusManager B) (items : pydict string Motor.t).

(** What a registration that meets no taken name does, in full. *)
Lemma register_component_fresh cname items prefix off ic m :
  NoDup (dict_keys items) →
  (∀ n, n ∈ dict_keys items → _motor_defs m !! (prefix +:+ n) = None) →
  Manager.register_component cname items prefix off ic m
  = (Manager.set_view cname (registered_view prefix off items)
       (committed prefix off ic items m),
     Return (registered_view prefix off items)).
Proof.
  intros Hnd Hfresh. rewrite register_component_unfold.
  rewrite register_loop_fresh by done. simpl.
  rewrite !foldl_setitem_fresh
    by (simpl; rewrite <- list_fmap_compose; exact Hnd).
  reflexivity.
Qed.

(** A registration that returns a view met no taken name, and is the one
    above. *)
Lemma register_component_returns cname items prefix off ic m m' view :
  Manager.register_component cname items prefix off ic m = (m', Return view) →
  NoDup (dict_keys items) ∧
  (∀ n, n ∈ dict_keys items → _motor_defs m !! (prefix +:+ n) = None) ∧
  view = registered_view prefix off items ∧
  m' = Manager.set_view cname view (committed prefix off ic items m).
Proof.
  intros Hrun. pose proof Hrun as Hrun'.
  rewrite register_component_unfold in Hrun'.
  destruct (Manager.register_loop _ _ _ _ _ _ _) as [m1 [r|e]] eqn:Hloop;
    [|discriminate].
  destruct (register_loop_returns _ _ _ _ _ _ _ _ _ Hloop) as [Hnd Hfresh].
  rewrite register_component_fresh in Hrun by done.
  injection Hrun as <- <-. done.
Qed.

Lemma global_names_NoDup prefix items :
  NoDup (dict_keys items) → NoDup ((λ kv : string * Motor.t, prefix +:+ kv.1) <$> items).
Proof.
  unfold dict_keys. induction items as [|[n mot] items IH]; simpl; intros Hnd.
  - constructor.
  - apply NoDup_cons in Hnd as [Hn Hnd]. apply NoDup_cons. split; [|auto].
    intros Hin. apply list_elem_of_fmap in Hin as ([n' mot'] & Heq & Hin).
    simpl in Heq. apply append_inj in Heq as ->.
    apply Hn. apply list_elem_of_fmap. by exists (n', mot').
Qed.

Lemma add_defs_size prefix off items (d : gmap string Motor.t) :
  NoDup (dict_keys items) →
  (∀ n, n ∈ dict_keys items → d !! (prefix +:+ n) = None) →
  size (add_defs prefix off items d) = (size d + length items)%nat.
Proof.
  unfold dict_keys. revert d.
  induction items as [|[n mot] items IH]; intros d Hnd Hfresh; simpl.
  - unfold add_defs. simpl. lia.
  - simpl in Hnd. apply NoDup_cons in Hnd as [Hn Hnd].
    change (size (add_defs prefix off items
                    (<[prefix +:+ n := Manager.updated_motor mot off]> d))
            = (size d + S (length items))%nat).
    rewrite IH; [|done|].
    + rewrite map_size_insert_None; [lia|].
      apply Hfresh. simpl. apply list_elem_of_here.
    + intros k Hk. rewrite lookup_insert_ne.
      * apply Hfresh. simpl. by apply list_elem_of_further.
      * intros Heq. apply append_inj in Heq. by subst.
Qed.

Lemma add_calibration_None prefix items (t : gmap string MotorCalibration.t) :
  add_calibration prefix None items t = t.
Proof.
  revert t. induction items as [|[n mot] items IH]; intros t; [done|].
  unfold add_calibration in *. simpl. apply IH.
Qed.

Lemma add_calibration_lookup_keep prefix ic items
    (t : gmap string MotorCalibration.t) n :
  Manager.initial_entry ic n = None →
  add_calibration prefix ic items t !! (prefix +:+ n) = t !! (prefix +:+ n).
Proof.
  intros Hn. revert t. induction items as [|[n0 mot0] items IH]; intros t;
    [done|].
  unfold add_calibration in *. simpl. rewrite IH.
  destruct (Manager.initial_entry ic n0) as [c0|] eqn:Hc0; [|done].
  apply lookup_insert_ne. intros Heq. apply append_inj in Heq. congruence.
Qed.

Lemma initial_entry_get ic n :
  Manager.initial_entry ic n
  = match ic with Some d => dict_get d n | None => None end.
Proof. by destruct ic as [[|? ?]|]. Qed.

(** X1. Whether a registration goes through depends on the names alone:
    for an input dictionary (distinct local names), [register_component]
    returns a view exactly when none of the names it computes is yet in the
    Global Namespace; the view and the manager it then produces are given
    in full. *)
Theorem register_component_succeeds_iff cname items prefix off ic m :
  NoDup (dict_keys items) →
  ((∃ m' view,
      Manager.register_component cname items prefix off ic m
      = (m', Return view)) ↔
   ∀ n, n ∈ dict_keys items → _motor_defs m !! (prefix +:+ n) = None) ∧
  ((∀ n, n ∈ dict_keys items → _motor_defs m !! (prefix +:+ n) = None) →
   Manager.register_component cname items prefix off ic m
   = (Manager.set_view cname (registered_view prefix off items)
        (committed prefix off ic items m),
      Return (registered_view prefix off items))).
Proof.
  intros Hnd. split; [split|].
  - intros (m' & view & Hrun).
    by destruct (register_component_returns _ _ _ _ _ _ _ _ Hrun) as (_ & ? & _).
  - intros Hfresh. eexists _, _. by apply register_component_fresh.
  - intros Hfresh. by apply register_component_fresh.
Qed.

(** X2. The view a registration returns satisfies the invariant the
    translation relies on: its local-to-global map is injective, binds
    exactly the names of its local motors, in the same order, and each
    local name once; every bus-global name it holds is a key of the Global
    Namespace; and the view starts detached. *)
Theorem registered_view_well_formed cname items prefix off ic m m' view :
  Manager.register_component cname items prefix off ic m = (m', Return view) →
  injective_map (local_to_bus view) ∧
  dict_keys (local_to_bus view) = dict_keys (local_motors view) ∧
  NoDup (dict_keys (local_motors view)) ∧
  translatable (local_to_bus view) (dict_keys (local_motors view)) ∧
  names_registered view m' ∧
  _connected view = false.
Proof.
  intros Hrun.
  destruct (register_component_returns _ _ _ _ _ _ _ _ Hrun)
    as (Hnd & Hfresh & -> & ->).
  unfold injective_map, dict_keys, registered_view. simpl.
  rewrite <- !list_fmap_compose.
  assert (NoDup ((λ kv : string * Motor.t, prefix +:+ kv.1) <$> items)) as Hg
    by by apply global_names_NoDup.
  split_and!; try done.
  - intros n Hn. apply list_elem_of_fmap in Hn as ([n' mot] & -> & Hin).
    exists (prefix +:+ n'). apply dict_get_elem.
    + by rewrite <- list_fmap_compose.
    + apply list_elem_of_fmap. by exists (n', mot).
  - intros g Hin. simpl in *. rewrite <- list_fmap_compose in Hin.
    apply list_elem_of_fmap in Hin as ([n mot] & -> & Hin). simpl.
    rewrite (add_defs_lookup_in prefix off items _ n mot Hnd Hin). by eexists.
Qed.

(** X3. A successful registration only adds: the Global Namespace grows by
    exactly one entry per local motor, every name other than the computed
    ones keeps its entry in both tables, the registry binds the component
    name to the returned view, no handle is constructed or dropped, and
    the reference count, the name and the configuration of the manager are
    untouched. *)
Theorem register_component_only_adds cname items prefix off ic m m' view :
  Manager.register_component cname items prefix off ic m = (m', Return view) →
  size (_motor_defs m') = (size (_motor_defs m) + length items)%nat ∧
  (∀ g, (∀ n, n ∈ dict_keys items → g ≠ prefix +:+ n) →
        _motor_defs m' !! g = _motor_defs m !! g ∧
        _calibration m' !! g = _calibration m !! g) ∧
  views m' = <[cname := view]> (views m) ∧
  (is_Some (bus m') ↔ is_Some (bus m)) ∧ _refcount m' = _refcount m ∧
  name m' = name m ∧ config m' = config m.
Proof.
  intros Hrun.
  destruct (register_component_returns _ _ _ _ _ _ _ _ Hrun)
    as (Hnd & Hfresh & -> & ->).
  simpl. split_and!; try done.
  - by apply add_defs_size.
  - intros g Hg. split.
    + by apply add_defs_lookup_out.
    + by apply add_calibration_lookup_out.
Qed.

(** X4. Views registered on one manager never share a bus-global name: if
    the names of a view are in the Global Namespace, a later successful
    registration returns a view none of whose bus-global names is one of
    them, the first view's names stay registered with the same motors,
    and the new view maps back nothing of a result keyed by the first
    view's names. *)
Theorem registered_views_disjoint (v1 : FeetechBusView) cname items prefix off ic
    m m' v2 :
  names_registered v1 m →
  Manager.register_component cname items prefix off ic m = (m', Return v2) →
  (∀ g, g ∈ (local_to_bus v1).*2 → g ∉ (local_to_bus v2).*2) ∧
  names_registered v1 m' ∧
  (∀ g, g ∈ (local_to_bus v1).*2 → _motor_defs m' !! g = _motor_defs m !! g) ∧
  (∀ (A : Type) (res : pydict string A),
     (∀ g, g ∈ dict_keys res → g ∈ (local_to_bus v1).*2) →
     View._map_dict_to_local v2 res = []).
Proof.
  intros Hreg Hrun.
  destruct (register_component_returns _ _ _ _ _ _ _ _ Hrun)
    as (Hnd & Hfresh & -> & ->).
  assert (∀ g, g ∈ (local_to_bus v1).*2 →
               g ∉ (local_to_bus (registered_view prefix off items)).*2) as Hdis.
  { intros g Hg Hin. simpl in Hin. rewrite <- list_fmap_compose in Hin.
    apply list_elem_of_fmap in Hin as ([n mot] & -> & Hin). simpl in Hg.
    destruct (Hreg _ Hg) as [x Hx]. rewrite Hfresh in Hx; [done|].
    apply list_elem_of_fmap. by exists (n, mot). }
  assert (∀ g, g ∈ (local_to_bus v1).*2 →
               _motor_defs (Manager.set_view cname
                              (registered_view prefix off items)
                              (committed prefix off ic items m)) !! g
               = _motor_defs m !! g) as Hsame.
  { intros g Hg. simpl. apply add_defs_lookup_out. intros n Hn ->.
    apply (Hdis _ Hg). simpl. rewrite <- list_fmap_compose.
    apply list_elem_of_fmap in Hn as ([n' mot] & -> & Hin).
    apply list_elem_of_fmap. by exists (n', mot). }
  split_and!; try done.
  - intros g Hg. rewrite Hsame by done. by apply Hreg.
  - intros A res Hres. unfold View._map_dict_to_local.
    replace (omap _ res) with (@nil (string * A)); [done|].
    symmetry. induction res as [|[g x] res IH]; [done|].
    cbn [omap list_omap fst snd].
    destruct (dict_get _ g) as [n|] eqn:Hrev.
    + apply reverse_map_sound in Hrev. exfalso.
      apply (Hdis g).
      * apply Hres. apply list_elem_of_here.
      * apply list_elem_of_fmap. by exists (n, g).
    + apply IH. intros g' Hg'. apply Hres. by apply list_elem_of_further.
Qed.

(** X5. How a successful registration seeds the Global Calibration Table:
    the bus-global name of a local motor gets the motor's entry of
    [initial_calibration] when there is one, and keeps what it had
    otherwise; without [initial_calibration] the table is unchanged. *)
Theorem register_component_seeds_calibration cname items prefix off ic
    m m' view :
  Manager.register_component cname items prefix off ic m = (m', Return view) →
  (∀ n, n ∈ dict_keys items →
     _calibration m' !! (prefix +:+ n)
     = match ic with
       | Some d =>
           match dict_get d n with
           | Some c => Some c
           | None => _calibration m !! (prefix +:+ n)
           end
       | None => _calibration m !! (prefix +:+ n)
       end) ∧
  (ic = None → _calibration m' = _calibration m).
Proof.
  intros Hrun.
  destruct (register_component_returns _ _ _ _ _ _ _ _ Hrun)
    as (Hnd & Hfresh & -> & ->).
  simpl. split.
  - intros n Hn. pose proof (initial_entry_get ic n) as Hentry.
    destruct (Manager.initial_entry ic n) as [c|] eqn:Hc.
    + rewrite (add_calibration_lookup_in prefix ic items _ n c Hnd Hn Hc).
      destruct ic as [d|]; [by rewrite <- Hentry | done].
    + rewrite add_calibration_lookup_keep by done.
      destruct ic as [d|]; [by rewrite <- Hentry | done].
  - intros ->. apply add_calibration_None.
Qed.

(** X6. Registration never compares ids.  If the names are free the call
    succeeds even when a renumbered motor gets the id of a motor that is
    already registered under another name: both entries are then in the
    Global Namespace with the same id. *)
Theorem register_component_ignores_id_clash cname items prefix off ic m
    g0 mot0 n mot :
  NoDup (dict_keys items) →
  (∀ k, k ∈ dict_keys items → _motor_defs m !! (prefix +:+ k) = None) →
  _motor_defs m !! g0 = Some mot0 →
  (n, mot) ∈ items →
  Motor.id mot + off = Motor.id mot0 →
  ∃ m' view mot',
    Manager.register_component cname items prefix off ic m
    = (m', Return view) ∧
    g0 ≠ prefix +:+ n ∧
    _motor_defs m' !! g0 = Some mot0 ∧
    _motor_defs m' !! (prefix +:+ n) = Some mot' ∧
    Motor.id mot' = Motor.id mot0.
Proof.
  intros Hnd Hfresh Hg0 Hin Hid.
  assert (∀ k, k ∈ dict_keys items → g0 ≠ prefix +:+ k) as Hout.
  { intros k Hk ->. rewrite Hfresh in Hg0; done. }
  eexists _, _, (Manager.updated_motor mot off). split_and!.
  - by apply register_component_fresh.
  - apply Hout. apply list_elem_of_fmap. by exists (n, mot).
  - simpl. by rewrite add_defs_lookup_out.
  - simpl. by apply add_defs_lookup_in.
  - done.
Qed.

End registration_more.

(** ** More on name translation *)

Section translation_more.
Context {A : Type}.
Implicit Types (v : FeetechBusView) (l2b : pydict string string)
               (values payload res : pydict string A).

(** For an injective map, a local name is bound in a mapped-back
    dictionary exactly when its bus-global name is bound in the
    original. *)
Lemma map_dict_to_local_lookup v res n x :
  injective_map (local_to_bus v) → NoDup (dict_keys res) →
  dict_get (View._map_dict_to_local v res) n = Some x ↔
  ∃ g, dict_get (local_to_bus v) n = Some g ∧ dict_get res g = Some x.
Proof.
  intros Hinj Hres. unfold View._map_dict_to_local.
  pose proof (mapped_back_keys_NoDup v res (proj1 Hinj) Hres) as Hnd.
  rewrite dict_of_items_NoDup by done. split.
  - intros Hget. apply dict_get_Some_elem, elem_of_mapped_back in Hget
      as (g & Hin & Hrev).
    exists g. split; [by apply reverse_map_lookup | by apply dict_get_elem].
  - intros (g & Hg & Hx). apply dict_get_elem; [done|].
    apply elem_of_mapped_back. exists g.
    split; [by apply dict_get_Some_elem | by apply reverse_map_lookup].
Qed.

Lemma renamed_functional l2b values payload payload' :
  renamed l2b values payload → renamed l2b values payload' → payload = payload'.
Proof.
  intros Hren. revert payload'.
  induction Hren as [|[n x] [g y] values payload [Hg Hxy] Hren IH];
    intros payload' Hren'.
  - by apply Forall2_nil_inv_l in Hren'.
  - apply Forall2_cons_inv_l in Hren' as ([g' y'] & rest & [Hg' Hxy'] & Hrest & ->).
    simpl in *. f_equal; [|by apply IH]. congruence.
Qed.

(** The items mapped back from a dictionary whose keys are all bus-global
    names of the view are that dictionary with the keys renamed. *)
Lemma mapped_back_in_range v res :
  injective_map (local_to_bus v) →
  (∀ g, g ∈ dict_keys res → g ∈ (local_to_bus v).*2) →
  renamed (local_to_bus v)
    (omap (λ kv : string * A,
             match dict_get (View.reverse_map (local_to_bus v)) kv.1 with
             | Some l => Some (l, kv.2)
             | None => None
             end) res) res.
Proof.
  intros Hinj. induction res as [|[g x] res IH]; intros Hrange.
  - constructor.
  - assert (∃ n, dict_get (local_to_bus v) n = Some g) as [n Hn].
    { assert (g ∈ (local_to_bus v).*2) as Hin
        by (apply Hrange; apply list_elem_of_here).
      apply list_elem_of_fmap in Hin as ([n g'] & -> & Hin).
      exists n. apply dict_get_elem; [apply Hinj | done]. }
    cbn [omap list_omap fst snd].
    rewrite (proj2 (reverse_map_lookup _ _ _ Hinj) Hn).
    constructor; [done|]. apply IH.
    intros g' Hg'. apply Hrange. by apply list_elem_of_further.
Qed.

Lemma translate_items_unknown l2b (pre post : pydict string A) n x acc :
  translatable l2b (dict_keys pre) → dict_get l2b n = None →
  View.translate_items l2b (pre ++ (n, x) :: post) acc = Raise (KeyError n).
Proof.
  revert acc. induction pre as [|[k y] pre IH]; intros acc Htr Hn; simpl.
  - by rewrite Hn.
  - destruct (Htr k) as [g Hg]; [apply list_elem_of_here|]. rewrite Hg.
    apply IH; [|done]. intros k' Hk'. apply Htr. by apply list_elem_of_further.
Qed.

Lemma getitems_unknown l2b (pre post : list string) n :
  translatable l2b pre → dict_get l2b n = None →
  View.getitems l2b (pre ++ n :: post) = Raise (KeyError n).
Proof.
  induction pre as [|k pre IH]; intros Htr Hn; simpl.
  - by rewrite Hn.
  - destruct (Htr k) as [g Hg]; [apply list_elem_of_here|]. rewrite Hg.
    rewrite IH; [done| |done].
    intros k' Hk'. apply Htr. by apply list_elem_of_further.
Qed.

(** X7. Translating a dictionary to bus-global names and mapping the
    result back gives the dictionary again: for an injective map and
    distinct local keys the view translates, [_translate_dict] returns the
    same values under the bus-global names, in the same order, and
    [_map_dict_to_local] of that is the original. *)
Theorem translate_then_map_back v values :
  injective_map (local_to_bus v) →
  NoDup (dict_keys values) →
  translatable (local_to_bus v) (dict_keys values) →
  ∃ payload,
    View._translate_dict v values = Return payload ∧
    renamed (local_to_bus v) values payload ∧
    NoDup (dict_keys payload) ∧
    View._map_dict_to_local v payload = values.
Proof.
  intros Hinj Hnd Htr.
  destruct (translate_items_translatable (local_to_bus v) values [] Htr)
    as (payload & Hren & Htrans).
  pose proof (renamed_keys_NoDup _ _ _ Hinj Hnd Hren) as Hpnd.
  rewrite foldl_setitem_fresh in Htrans by done.
  exists payload. split_and!; try done.
  unfold View._map_dict_to_local.
  rewrite (mapped_back_renamed _ _ _ Hinj Hren).
  by apply dict_of_items_NoDup.
Qed.

(** X8. The other way round: for an injective map, a dictionary with
    distinct keys that are all bus-global names of the view is mapped back
    to local names and translated again to itself. *)
Theorem map_back_then_translate v res :
  injective_map (local_to_bus v) →
  NoDup (dict_keys res) →
  (∀ g, g ∈ dict_keys res → g ∈ (local_to_bus v).*2) →
  View._translate_dict v (View._map_dict_to_local v res) = Return res.
Proof.
  intros Hinj Hnd Hrange.
  pose proof (mapped_back_in_range v res Hinj Hrange) as Hren.
  unfold View._map_dict_to_local, View._translate_dict.
  rewrite dict_of_items_NoDup
    by (by apply mapped_back_keys_NoDup; [apply Hinj|]).
  set (values := omap _ res) in *.
  destruct (translate_items_translatable (local_to_bus v) values []) as
    (payload & Hren' & ->).
  { intros n Hn. apply list_elem_of_fmap in Hn as ([n' x] & -> & Hin).
    apply list_elem_of_lookup in Hin as [i Hi].
    destruct (Forall2_lookup_l _ _ _ _ _ Hren Hi) as ([g y] & _ & Hg & _).
    by exists g. }
  rewrite (renamed_functional _ _ _ _ Hren' Hren).
  by rewrite foldl_setitem_fresh.
Qed.

End translation_more.

(** ** More on the delegated operations *)

Section delegation_more.
Context {Value B : Type} `{!MotorsBus Value B}.
Implicit Types (v : FeetechBusView) (m : FeetechBusManager B).

Lemma handle_only_refl m : handle_only m m.
Proof. by repeat split. Qed.

Lemma call_bus_handle_only {A} b (c : bus_call B A) m :
  is_Some (bus m) → handle_only m (Manager.call_bus b c m).1.
Proof.
  intros Hb. unfold Manager.call_bus.
  destruct (c b) as [b' [e|a]]; simpl; repeat split; simpl; by eauto.
Qed.

Lemma translated_call_handle_only {X A}
    (o : outcome X) (c : X → bus_call B A) b m :
  is_Some (bus m) →
  handle_only m ((x ← View.lift o; Manager.call_bus b (c x)) m).1.
Proof.
  intros Hb. py_unfold. destruct o as [x|e]; simpl.
  - by apply call_bus_handle_only.
  - apply handle_only_refl.
Qed.

Lemma translated_read_handle_only {X A C}
    (o : outcome X) (c : X → bus_call B A) (f : A → C) b m :
  is_Some (bus m) →
  handle_only m
    ((x ← View.lift o; r ← Manager.call_bus b (c x); mret (f r)) m).1.
Proof.
  intros Hb. py_unfold. destruct o as [x|e]; simpl; [|apply handle_only_refl].
  pose proof (call_bus_handle_only b (c x) m Hb) as Hc.
  by destruct (Manager.call_bus b (c x) m) as [m' [a|e]].
Qed.

Lemma with_bus_handle_only {A} (k : B → Py (FeetechBusManager B) A) m :
  (∀ b, is_Some (bus m) → handle_only m (k b m).1) →
  handle_only m (View.with_bus k m).1.
Proof.
  intros Hk. unfold View.with_bus. py_unfold.
  destruct (bus m) as [b|] eqn:Hb; simpl; [|apply handle_only_refl].
  apply Hk. by eexists.
Qed.

Lemma guarded_call_handle_only (o : outcome (list string))
    (c : list string → bus_call B unit) m :
  handle_only m
    ((subset ← View.lift o;
      m0 ← get;
      match View.guarded_bus subset m0 with
      | Some b => Manager.call_bus b (c subset)
      | None => mret tt
      end) m).1.
Proof.
  py_unfold. destruct o as [subset|e]; simpl; [|apply handle_only_refl].
  unfold View.guarded_bus. destruct subset as [|g gs]; [apply handle_only_refl|].
  destruct (bus m) as [b|] eqn:Hb; [|apply handle_only_refl].
  destruct (bus_bool b); [|apply handle_only_refl].
  apply call_bus_handle_only. by eexists.
Qed.

(** X9. No operation a view delegates to the handle touches the manager's
    own state: after [write], [sync_write], [sync_read],
    [set_half_turn_homings], [record_ranges_of_motion],
    [write_calibration], [setup_motor], [enable_torque], [disable_torque]
    or [configure_motors], whether it returned or raised, the Global
    Namespace, the Global Calibration Table, the view registry and the
    reference count are what they were, and no handle was constructed or
    dropped.  In particular [write_calibration] does not update the
    manager's calibration table. *)
Theorem delegated_operations_touch_handle_only v m :
  (∀ dn motor val nz nr, handle_only m (View.write v dn motor val nz nr m).1) ∧
  (∀ dn values nz nr, handle_only m (View.sync_write v dn values nz nr m).1) ∧
  (∀ dn motors nz nr, handle_only m (View.sync_read v dn motors nz nr m).1) ∧
  (∀ motors, handle_only m (View.set_half_turn_homings v motors m).1) ∧
  (∀ motors, handle_only m (View.record_ranges_of_motion v motors m).1) ∧
  (∀ cal, handle_only m (View.write_calibration v cal m).1) ∧
  (∀ motor br id, handle_only m (View.setup_motor v motor br id m).1) ∧
  (∀ motors nr, handle_only m (View.enable_torque v motors nr m).1) ∧
  (∀ motors nr, handle_only m (View.disable_torque v motors nr m).1) ∧
  (∀ motors, handle_only m (View.configure_motors v motors m).1).
Proof.
  split_and!; intros.
  - apply with_bus_handle_only. intros. by apply translated_call_handle_only.
  - apply with_bus_handle_only. intros. by apply translated_call_handle_only.
  - apply with_bus_handle_only. intros. by apply translated_read_handle_only.
  - apply with_bus_handle_only. intros. by apply translated_read_handle_only.
  - apply with_bus_handle_only. intros.
    by apply (translated_read_handle_only _ _
                (λ r, (View._map_dict_to_local v r.1,
                       View._map_dict_to_local v r.2))).
  - apply with_bus_handle_only. intros. by apply translated_call_handle_only.
  - apply with_bus_handle_only. intros. by apply translated_call_handle_only.
  - apply (guarded_call_handle_only _ (λ s, bus_enable_torque s nr)).
  - apply (guarded_call_handle_only _ (λ s, bus_disable_torque s nr)).
  - apply (guarded_call_handle_only _ (λ s, bus_configure_motors s)).
Qed.

(** X10. A local name the view does not know stops an operation before the
    handle is reached.  For [write], [setup_motor], [sync_write],
    [write_calibration] and [sync_read] this holds once the handle exists:
    the call raises [KeyError] with that name and the manager, handle
    included, is exactly as before; while the handle is absent the guard
    comes first and they raise the uninitialized-bus [RuntimeError]
    instead.  [enable_torque], [disable_torque] and [configure_motors]
    translate before they look at the handle and raise [KeyError] with or
    without one.  For a batch it is the first unknown name, in the order of
    the argument, that is reported. *)
Theorem unknown_name_raises_before_handle v m n :
  dict_get (local_to_bus v) n = None →
  (is_Some (bus m) →
   (∀ dn val nz nr,
      View.write v dn (MotorName n) val nz nr m = (m, Raise (KeyError n))) ∧
   (∀ br id,
      View.setup_motor v (MotorName n) br id m = (m, Raise (KeyError n))) ∧
   (∀ dn pre x post nz nr,
      translatable (local_to_bus v) (dict_keys pre) →
      View.sync_write v dn (pre ++ (n, x) :: post) nz nr m
      = (m, Raise (KeyError n))) ∧
   (∀ pre c post,
      translatable (local_to_bus v) (dict_keys pre) →
      View.write_calibration v (pre ++ (n, c) :: post) m
      = (m, Raise (KeyError n))) ∧
   (∀ dn pre post nz nr,
      translatable (local_to_bus v) pre →
      View.sync_read v dn (MotorsList (pre ++ n :: post)) nz nr m
      = (m, Raise (KeyError n)))) ∧
  (∀ pre post nr,
     translatable (local_to_bus v) pre →
     View.enable_torque v (MotorsList (pre ++ n :: post)) nr m
     = (m, Raise (KeyError n)) ∧
     View.disable_torque v (MotorsList (pre ++ n :: post)) nr m
     = (m, Raise (KeyError n)) ∧
     View.configure_motors v (MotorsList (pre ++ n :: post)) m
     = (m, Raise (KeyError n))) ∧
  (bus m = None →
   (∀ dn val nz nr,
      View.write v dn (MotorName n) val nz nr m
      = (m, Raise View.UninitializedBusError)) ∧
   (∀ br id,
      View.setup_motor v (MotorName n) br id m
      = (m, Raise View.UninitializedBusError)) ∧
   (∀ dn pre x post nz nr,
      View.sync_write v dn (pre ++ (n, x) :: post) nz nr m
      = (m, Raise View.UninitializedBusError)) ∧
   (∀ pre c post,
      View.write_calibration v (pre ++ (n, c) :: post) m
      = (m, Raise View.UninitializedBusError)) ∧
   (∀ dn pre post nz nr,
      View.sync_read v dn (MotorsList (pre ++ n :: post)) nz nr m
      = (m, Raise View.UninitializedBusError))).
Proof.
  intros Hn. split; [|split].
  - intros [b Hb]. split_and!; intros.
    + unfold View.write, View.with_bus. py_unfold. rewrite Hb. simpl.
      unfold View.getitem. by rewrite Hn.
    + unfold View.setup_motor, View.with_bus. py_unfold. rewrite Hb. simpl.
      unfold View.getitem. by rewrite Hn.
    + unfold View.sync_write, View.with_bus, View._translate_dict. py_unfold.
      rewrite Hb. by rewrite translate_items_unknown.
    + unfold View.write_calibration, View.with_bus, View._translate_dict.
      py_unfold. rewrite Hb. by rewrite translate_items_unknown.
    + unfold View.sync_read, View.with_bus. py_unfold. rewrite Hb. simpl.
      by rewrite getitems_unknown.
  - intros pre post nr Htr.
    unfold View.enable_torque, View.disable_torque, View.configure_motors.
    py_unfold. simpl. by rewrite getitems_unknown.
  - intros Hnone. split_and!; intros.
    + unfold View.write, View.with_bus. py_unfold. by rewrite Hnone.
    + unfold View.setup_motor, View.with_bus. py_unfold. by rewrite Hnone.
    + unfold View.sync_write, View.with_bus. py_unfold. by rewrite Hnone.
    + unfold View.write_calibration, View.with_bus. py_unfold.
      by rewrite Hnone.
    + unfold View.sync_read, View.with_bus. py_unfold. by rewrite Hnone.
Qed.

(** X11. The [calibration] property of a view is empty while no handle
    exists; with a handle and an injective map, a local name is bound in it
    exactly when its bus-global name is bound in the handle's calibration
    table, to the same calibration, so entries of other components never
    show. *)
Theorem calibration_is_own_part v m :
  (bus m = None → View.calibration v m = []) ∧
  (∀ b, bus m = Some b → injective_map (local_to_bus v) →
        ∀ n c, dict_get (View.calibration v m) n = Some c ↔
               ∃ g, dict_get (local_to_bus v) n = Some g ∧
                    bus_calibration b !! g = Some c).
Proof.
  unfold View.calibration. split; [by intros ->|].
  intros b -> Hinj n c.
  rewrite map_dict_to_local_lookup; [|done|apply NoDup_fst_map_to_list].
  split; intros (g & Hg & Hc); exists g; split; try done.
  - by apply dict_get_Some_elem, elem_of_map_to_list in Hc.
  - apply dict_get_elem; [apply NoDup_fst_map_to_list|].
    by apply elem_of_map_to_list.
Qed.

(** X12. [is_calibrated] and [calibration] agree: on a connected bus, for
    a view with an injective map, [is_calibrated] is true exactly when
    every local motor of the view is a key of the view's [calibration]. *)
Theorem is_calibrated_matches_calibration v m b :
  bus m = Some b → bus_is_connected b = true →
  injective_map (local_to_bus v) →
  View.is_calibrated v m = Return true ↔
  ∀ n, n ∈ dict_keys (local_motors v) →
       is_Some (dict_get (View.calibration v m) n).
Proof.
  intros Hb Hc Hinj. unfold View.is_calibrated, View.calibration.
  rewrite Hb, Hc. simpl. rewrite all_calibrated_true.
  split; intros Hall n Hn.
  - destruct (Hall n Hn) as (g & Hg & [c Hcal]). exists c.
    apply map_dict_to_local_lookup; [done|apply NoDup_fst_map_to_list|].
    exists g. split; [done|]. apply dict_get_elem;
      [apply NoDup_fst_map_to_list | by apply elem_of_map_to_list].
  - destruct (Hall n Hn) as [c Hget].
    apply map_dict_to_local_lookup in Hget as (g & Hg & Hcal);
      [|done|apply NoDup_fst_map_to_list].
    exists g. split; [done|]. exists c.
    by apply dict_get_Some_elem, elem_of_map_to_list in Hcal.
Qed.

End delegation_more.

(** ** More on the connection lifecycle *)

Section lifecycle_more.
Context {Value B : Type} `{!MotorsBus Value B}.
Implicit Types (v : FeetechBusView) (m : FeetechBusManager B).

(** Whatever becomes of a registration, the manager it leaves has some
    first motors of the call committed, and its view registry possibly
    extended: the handle and the reference count are as before. *)
Lemma register_loop_state items prefix off ic lc mp m :
  ∃ pre, (Manager.register_loop items prefix off ic lc mp m).1
         = committed prefix off ic pre m.
Proof.
  revert lc mp m. induction items as [|[n mot] items IH]; intros lc mp m.
  - exists []. simpl. by rewrite committed_nil.
  - destruct (_motor_defs m !! (prefix +:+ n)) as [x|] eqn:Hn.
    + exists []. rewrite register_loop_collides by (rewrite Hn; by eexists).
      simpl. by rewrite committed_nil.
    + rewrite register_loop_commits by done.
      destruct (IH (dict_setitem lc n (Manager.updated_motor mot off))
                   (dict_setitem mp n (prefix +:+ n))
                   (committed prefix off ic [(n, mot)] m)) as [pre Hpre].
      exists ((n, mot) :: pre). by rewrite Hpre, committed_cons.
Qed.

Lemma register_component_keeps_handle cname items prefix off ic m :
  bus (Manager.register_component cname items prefix off ic m).1 = bus m ∧
  _refcount (Manager.register_component cname items prefix off ic m).1
  = _refcount m.
Proof.
  rewrite register_component_unfold.
  destruct (register_loop_state items prefix off ic [] [] m) as [pre Hpre].
  destruct (Manager.register_loop _ _ _ _ _ _ _) as [m1 [r|e]];
    simpl in *; by subst.
Qed.

Lemma acquire_refcount m h :
  _refcount (Manager.acquire h m).1 = _refcount m ∨
  _refcount (Manager.acquire h m).1 = _refcount m + 1.
Proof.
  unfold Manager.acquire, Manager._ensure_bus, Manager.call_bus. py_unfold.
  destruct m as [nm cfg defs cal vs [b|] rc]; simpl.
  - repeat case_match; simplify_eq; simpl; by right.
  - repeat case_match; simplify_eq; simpl; auto.
Qed.

Lemma release_refcount m d :
  (_refcount m = 0 ∧ _refcount (Manager.release d m).1 = 0) ∨
  (_refcount m ≠ 0 ∧ _refcount (Manager.release d m).1 = _refcount m - 1).
Proof.
  unfold Manager.release, Manager.call_bus. py_unfold.
  destruct (decide (_refcount m = 0)) as [Hz|Hnz].
  - left. by rewrite bool_decide_eq_true_2.
  - right. rewrite bool_decide_eq_false_2 by done. split; [done|].
    destruct m as [nm cfg defs cal vs [b|] rc]; simpl;
      repeat case_match; simplify_eq; simpl; done.
Qed.

(** X13. The reference count never goes negative: starting from a count
    that is not negative (zero for a new manager), it is not negative after
    any sequence of [register_component], [acquire] and [release] calls,
    with any handle and whichever of the calls raise. *)
Theorem refcount_never_negative m ops :
  0 ≤ _refcount m → 0 ≤ _refcount (after_ops m ops).
Proof.
  revert m. induction ops as [|op ops IH]; intros m Hm; [done|].
  simpl. apply IH. destruct op as [c lm p o ic|h|d]; simpl.
  - by rewrite (proj2 (register_component_keeps_handle c lm p o ic m)).
  - destruct (acquire_refcount m h) as [->| ->]; lia.
  - destruct (release_refcount m d) as [[_ ->]|[? ->]]; lia.
Qed.

(** X14. When the handle's [connect] raises, [View.connect] lets the error
    through with the reference count already incremented and the view not
    marked attached, so the view's [disconnect] will not give the count
    back.  A second [connect] then returns normally: it only counts, does
    not call the handle again, and marks the view attached. *)
Theorem failed_connect_keeps_count v m b b' e h :
  bus m = Some b → _refcount m = 0 →
  bus_bool b = true → bus_is_connected b = false →
  bus_connect (handshake_flag_of m h) b = (b', inl e) →
  let m1 := Manager.set_refcount 1 (Manager.set_bus (Some b') m) in
  View.connect h (v, m) = ((v, m1), Raise (BusError e)) ∧
  (_connected v = false → ∀ d, View.disconnect d (v, m1) = ((v, m1), Return tt)) ∧
  (∀ h2, View.connect h2 (v, m1)
         = (({| local_motors := local_motors v; local_to_bus := local_to_bus v;
                _connected := true |},
             Manager.set_refcount 2 m1), Return tt)).
Proof.
  intros Hb Hz Htruthy Hc Hfail.
  destruct m as [nm cfg defs cal vs ob rc]. simpl in *. subst ob rc.
  unfold handshake_flag_of in Hfail. simpl in Hfail. split_and!.
  - unfold View.connect, Manager.acquire, Manager._ensure_bus, Manager.call_bus.
    py_unfold. simpl. rewrite Htruthy, Hc. simpl.
    destruct h as [hs|]; simpl in *; by rewrite Hfail.
  - intros Hv d. unfold View.disconnect. py_unfold. simpl. by rewrite Hv.
  - intros h2. reflexivity.
Qed.

End lifecycle_more.

Section lifecycle_double.
Context {Value : Type}.
Implicit Types (v : FeetechBusView) (m : FeetechBusManager (EchoBus.t Value)).

Lemma register_component_keeps_connection cname items prefix off ic m :
  Manager.is_connected (Manager.register_component cname items prefix off ic m).1
  = Manager.is_connected m.
Proof.
  unfold Manager.is_connected.
  by rewrite (proj1 (register_component_keeps_handle cname items prefix off ic m)).
Qed.

(** X15. With a handle whose [connect] and [disconnect] do what they say
    (the double), the bus is connected exactly when the reference count is
    positive, in every state a manager reaches from construction through
    [register_component], [acquire] and [release] calls in any order. *)
Theorem connection_tracks_count nm cfg ops :
  count_tracks_connection
    (after_ops (Manager.__init__ (B:=EchoBus.t Value) nm cfg) ops).
Proof.
  assert (∀ m, count_tracks_connection m →
               count_tracks_connection (after_ops m ops)) as Hinv.
  { induction ops as [|op ops IH]; intros m Hm; [done|].
    simpl. apply IH. destruct Hm as [Hpos Hiff].
    destruct op as [c lm p o ic|h|d]; simpl.
    - split.
      + by rewrite (proj2 (register_component_keeps_handle c lm p o ic m)).
      + rewrite register_component_keeps_connection.
        by rewrite (proj2 (register_component_keeps_handle c lm p o ic m)).
    - destruct (decide (_refcount m = 0)) as [Hz|Hnz].
      + destruct (acquire_from_zero m h Hz) as (m' & -> & _ & Hrc & Hconn & _).
        { destruct (Manager.is_connected m); [|done].
          destruct Hiff as [Hlt _]. specialize (Hlt eq_refl). lia. }
        simpl. split; [lia|]. rewrite Hrc, Hconn. split; [lia | done].
      + destruct (acquire_held m h) as (m' & -> & _ & Hrc & Hconn & _); [lia|].
        simpl. split; [lia|]. rewrite Hrc, Hconn.
        split; [lia|]. intros _. apply Hiff. lia.
    - destruct (decide (_refcount m = 0)) as [Hz|Hnz].
      + rewrite release_at_zero by done. done.
      + destruct (decide (_refcount m = 1)) as [Hone|Hmore].
        * destruct (release_last m d Hone) as (m' & -> & _ & Hrc & Hconn);
            [apply Hiff; lia|].
          simpl. split; [lia|]. rewrite Hrc, Hconn. split; [done | lia].
        * destruct (release_held m d) as (m' & -> & _ & Hrc & Hconn); [lia|].
          simpl. split; [lia|]. rewrite Hrc, Hconn.
          split; [lia|]. intros _. apply Hiff. lia. }
  apply Hinv. split; [done|]. unfold Manager.is_connected. simpl.
  split; [done | lia].
Qed.

(** The translation of the names a [motors] argument stands for. *)
Lemma translate_motors_named v motors names :
  named v motors = Some names →
  translatable (local_to_bus v) names →
  ∃ gs, View._translate_motors v motors = Return gs ∧
        Forall2 (λ n g, dict_get (local_to_bus v) n = Some g) names gs.
Proof.
  intros Hnamed Htr.
  destruct (getitems_translatable _ _ Htr) as (gs & Hgs & Hall).
  exists gs. split; [|done].
  destruct motors; simpl in *; simplify_eq; try done.
  unfold View.getitem. simpl in Hgs.
  destruct (dict_get (local_to_bus v) s); [|discriminate].
  destruct gs as [|g [|? ?]]; simplify_eq. done.
Qed.

(** One torque call on the double, with all it leaves unchanged. *)
Lemma disable_torque_on_double v motors gs nr m :
  is_Some (bus m) →
  View._translate_motors v motors = Return gs →
  ∃ m1, View.disable_torque v motors nr m = (m1, Return tt) ∧
        calls_seen m1
        = calls_seen m ++ match gs with
                          | [] => []
                          | _ => [EvDisableTorque gs nr]
                          end ∧
        _refcount m1 = _refcount m ∧
        Manager.is_connected m1 = Manager.is_connected m.
Proof.
  intros [b Hb] Ht.
  destruct m as [nm cfg defs cal vs ob rc]. simpl in Hb. subst ob.
  unfold View.disable_torque. py_unfold. rewrite Ht.
  unfold View.guarded_bus, calls_seen. simpl.
  destruct gs as [|g gs]; simpl.
  - rewrite app_nil_r. by eexists.
  - by eexists.
Qed.

(** X16. What the handle sees of [enable_torque], [disable_torque] and
    [configure_motors]: with a handle present and local names the view
    translates, the double receives one call, carrying the bus-global
    names of those motors in the order given (all local motors, in their
    order, for [None]), and the retry count as passed; when the list of
    names is empty it receives nothing at all. *)
Theorem subset_operations_reach_double v motors names nr m b :
  bus m = Some b →
  named v motors = Some names →
  translatable (local_to_bus v) names →
  ∃ gs,
    Forall2 (λ n g, dict_get (local_to_bus v) n = Some g) names gs ∧
    (∃ m1, View.enable_torque v motors nr m = (m1, Return tt) ∧
           calls_seen m1
           = calls_seen m ++ match gs with
                             | [] => []
                             | _ => [EvEnableTorque gs nr]
                             end) ∧
    (∃ m2, View.disable_torque v motors nr m = (m2, Return tt) ∧
           calls_seen m2
           = calls_seen m ++ match gs with
                             | [] => []
                             | _ => [EvDisableTorque gs nr]
                             end) ∧
    (∃ m3, View.configure_motors v motors m = (m3, Return tt) ∧
           calls_seen m3
           = calls_seen m ++ match gs with
                             | [] => []
                             | _ => [EvConfigureMotors gs]
                             end).
Proof.
  intros Hb Hnamed Htr.
  destruct (translate_motors_named v motors names Hnamed Htr) as (gs & Ht & Hall).
  exists gs. split; [done|].
  destruct m as [nm cfg defs cal vs ob rc]. simpl in Hb. subst ob.
  unfold View.enable_torque, View.disable_torque, View.configure_motors.
  py_unfold. rewrite Ht. unfold View.guarded_bus, calls_seen. simpl.
  destruct gs as [|g gs]; simpl.
  - rewrite app_nil_r. split_and!; by eexists.
  - split_and!; by eexists.
Qed.

(** X17. What the handle sees of [disconnect] on an attached view whose bus
    is connected: first, when torque is to be disabled and the view has
    motors, one [disable_torque] for the bus-global names of exactly the
    view's own motors; then, only if this view held the last reference,
    one [disconnect] with the same flag.  The count goes down by one and
    the view is detached. *)
Theorem disconnect_on_double lm l2b m d :
  let v := {| local_motors := lm; local_to_bus := l2b; _connected := true |} in
  0 < _refcount m → Manager.is_connected m = true →
  translatable l2b (dict_keys lm) →
  ∃ gs m',
    Forall2 (λ n g, dict_get l2b n = Some g) (dict_keys lm) gs ∧
    View.disconnect d (v, m)
    = (({| local_motors := lm; local_to_bus := l2b; _connected := false |}, m'),
       Return tt) ∧
    _refcount m' = _refcount m - 1 ∧
    calls_seen m'
    = calls_seen m
      ++ (if d then match gs with [] => [] | _ => [EvDisableTorque gs 0] end
          else [])
      ++ (if bool_decide (_refcount m = 1) then [EvDisconnect d] else []).
Proof.
  intros v Hpos Hconn Htr.
  destruct (translate_motors_named v MotorsNone (dict_keys lm) eq_refl Htr)
    as (gs & Ht & Hall).
  assert (is_Some (bus m)) as Hbus.
  { unfold Manager.is_connected in Hconn. destruct (bus m); [by eexists | done]. }
  assert (∃ m1, (if d && View.is_connected m
                 then View.disable_torque v MotorsNone 0
                 else mret tt) m = (m1, Return tt) ∧
                calls_seen m1
                = calls_seen m
                  ++ (if d then match gs with
                                | [] => []
                                | _ => [EvDisableTorque gs 0]
                                end
                      else []) ∧
                _refcount m1 = _refcount m ∧
                Manager.is_connected m1 = true) as (m1 & Hrun1 & Hcalls1 & Hrc1 & Hconn1).
  { change (View.is_connected m) with (Manager.is_connected m). rewrite Hconn.
    destruct d; simpl.
    - destruct (disable_torque_on_double v MotorsNone gs 0 m Hbus Ht)
        as (m1 & ? & ? & ? & ?).
      exists m1. split_and!; try done. congruence.
    - exists m. split_and!; try done. by rewrite app_nil_r. }
  assert (∃ m', Manager.release d m1 = (m', Return tt) ∧
                _refcount m' = _refcount m - 1 ∧
                calls_seen m'
                = calls_seen m1
                  ++ (if bool_decide (_refcount m = 1) then [EvDisconnect d]
                      else [])) as (m' & Hrun2 & Hrc2 & Hcalls2).
  { destruct (decide (_refcount m = 1)) as [Hone|Hmore].
    - rewrite bool_decide_eq_true_2 by done.
      destruct (release_last m1 d) as (m' & ? & ? & ? & ?); [congruence|done|].
      exists m'. split_and!; [done|lia|done].
    - rewrite bool_decide_eq_false_2 by done.
      destruct (release_held m1 d) as (m' & ? & ? & ? & ?); [lia|].
      exists m'. split_and!; [done|lia|]. by rewrite app_nil_r. }
  exists gs, m'. split_and!; [done| |done|].
  - unfold View.disconnect. py_unfold. simpl.
    destruct (d && View.is_connected m); simpl in *.
    + rewrite Hrun1. simpl. by rewrite Hrun2.
    + injection Hrun1 as <-. by rewrite Hrun2.
  - rewrite Hcalls2, Hcalls1. by rewrite <- app_assoc.
Qed.

End lifecycle_double.

(** ** The component binder *)

Section assembly_facts.
Context {B Config Robot : Type} `{!SubDevices Config Robot}.
Implicit Types (spec : SharedComponentAssemblyConfig.t)
               (ms : pydict string (FeetechBusManager B))
               (buses : pydict string SharedBusAssemblyConfig.t).

Lemma bind_component_unknown_type spec ms :
  dict_get Assembly.COMPONENT_REGISTRY (SharedComponentAssemblyConfig.type spec)
  = None →
  Assembly.bind_component spec ms
  = (ms, Raise (ValueError (Assembly.unsupported_type_message
                              (SharedComponentAssemblyConfig.type spec)))).
Proof. intros Hreg. unfold Assembly.bind_component. by rewrite Hreg. Qed.

Lemma bind_component_unknown_bus spec ms :
  is_Some (dict_get Assembly.COMPONENT_REGISTRY
             (SharedComponentAssemblyConfig.type spec)) →
  dict_get ms (SharedComponentAssemblyConfig.bus spec) = None →
  Assembly.bind_component spec ms
  = (ms, Raise (ValueError (Assembly.unknown_bus_message
                              (SharedComponentAssemblyConfig.name spec)
                              (SharedComponentAssemblyConfig.bus spec)))).
Proof.
  intros [cls Hreg] Hbus. unfold Assembly.bind_component. rewrite Hreg.
  py_unfold. by rewrite Hbus.
Qed.

(** What a turn of the loop that returns a binding has done. *)
Lemma bind_component_returns spec ms ms' binding :
  Assembly.bind_component spec ms = (ms', Return binding) →
  ∃ m r,
    dict_get ms (SharedComponentAssemblyConfig.bus spec) = Some m ∧
    binds spec (config m) r binding ∧
    NoDup (dict_keys (robot_motors r)) ∧
    (∀ n, n ∈ dict_keys (robot_motors r) →
          _motor_defs m !! (SharedComponentAssemblyConfig.prefix spec +:+ n)
          = None) ∧
    ms' = dict_setitem ms (SharedComponentAssemblyConfig.bus spec)
            (Manager.set_view (SharedComponentAssemblyConfig.name spec)
               (registered_view (SharedComponentAssemblyConfig.prefix spec)
                  (SharedComponentAssemblyConfig.motor_id_offset spec)
                  (robot_motors r))
               (committed (SharedComponentAssemblyConfig.prefix spec)
                  (SharedComponentAssemblyConfig.motor_id_offset spec)
                  (Some (robot_calibration r)) (robot_motors r) m)).
Proof.
  unfold Assembly.bind_component, Assembly.on_manager_at.
  destruct (dict_get Assembly.COMPONENT_REGISTRY _) as [cls|] eqn:Hreg;
    [|discriminate].
  py_unfold.
  destruct (dict_get ms _) as [m|] eqn:Hm; [|discriminate].
  destruct (Assembly._make_config cls _ _) as [cfg|e] eqn:Hcfg; [|discriminate].
  simpl.
  destruct (robot_cls cls cfg) as [r|e] eqn:Hr; [|discriminate]. simpl.
  destruct (Manager.register_component _ _ _ _ _ m) as [m' [view|e]] eqn:Hrun;
    [|discriminate].
  simpl. intros [= <- <-].
  destruct (register_component_returns _ _ _ _ _ _ _ _ Hrun)
    as (Hnd & Hfresh & -> & ->).
  exists m, r. split_and!; try done.
  exists cls, cfg. by split_and!.
Qed.

Lemma bind_components_app pre post acc ms ms1 bs1 :
  Assembly.bind_components pre acc ms = (ms1, Return bs1) →
  Assembly.bind_components (pre ++ post) acc ms
  = Assembly.bind_components post bs1 ms1.
Proof.
  revert acc ms. induction pre as [|spec pre IH]; intros acc ms Hrun; simpl in *.
  - by injection Hrun as -> ->.
  - py_unfold.
    destruct (Assembly.bind_component spec ms) as [ms0 [b|e]]; [|discriminate].
    by apply IH.
Qed.

Lemma closed_managers_initial buses :
  NoDup (dict_keys buses) →
  closed_managers buses
    (dict_of_items ((λ kv, (kv.1, Manager.__init__ (B:=B) kv.1 kv.2)) <$> buses)).
Proof.
  intros Hnd. unfold dict_keys in *.
  rewrite dict_of_items_NoDup by (by rewrite <- list_fmap_compose).
  split.
  - unfold dict_keys. by rewrite <- list_fmap_compose.
  - intros k m Hget. apply dict_get_Some_elem in Hget.
    apply list_elem_of_fmap in Hget as ([k' cfg] & [= -> ->] & Hin).
    simpl. split_and!; try done. by apply dict_get_elem.
Qed.

Lemma closed_managers_step buses spec ms ms' binding :
  closed_managers buses ms →
  Assembly.bind_component spec ms = (ms', Return binding) →
  closed_managers buses ms' ∧
  (∀ k g x, registered_at ms k g x → registered_at ms' k g x) ∧
  ∃ bus_cfg r,
    dict_get buses (SharedComponentAssemblyConfig.bus spec) = Some bus_cfg ∧
    binds spec bus_cfg r binding ∧
    ∀ n mot, (n, mot) ∈ robot_motors r →
      registered_at ms' (SharedComponentAssemblyConfig.bus spec)
        (SharedComponentAssemblyConfig.prefix spec +:+ n)
        (Manager.updated_motor mot
           (SharedComponentAssemblyConfig.motor_id_offset spec)).
Proof.
  intros [Hkeys Hclosed] Hrun.
  destruct (bind_component_returns _ _ _ _ Hrun)
    as (m & r & Hm & Hbinds & Hnd & Hfresh & ->).
  destruct (Hclosed _ _ Hm) as (Hname & Hcfg & Hbus & Hrc).
  set (k0 := SharedComponentAssemblyConfig.bus spec) in *.
  set (m' := Manager.set_view _ _ _).
  assert (k0 ∈ ms.*1) as Hin.
  { destruct (decide (k0 ∈ ms.*1)) as [?|Hnot]; [done|].
    apply dict_get_None in Hnot. congruence. }
  split_and!.
  - split.
    + unfold dict_keys in *. by rewrite dict_keys_setitem_bound.
    + intros k m1 Hget. destruct (decide (k0 = k)) as [<-|Hne].
      * rewrite dict_get_setitem_eq in Hget. injection Hget as <-. done.
      * rewrite dict_get_setitem_ne in Hget by done. by apply Hclosed.
  - intros k g x (m1 & Hget & Hg). destruct (decide (k0 = k)) as [<-|Hne].
    + exists m'. rewrite dict_get_setitem_eq. split; [done|].
      assert (m1 = m) as -> by congruence. simpl.
      rewrite add_defs_lookup_out; [done|].
      intros n Hn ->. rewrite Hfresh in Hg; done.
    + exists m1. by rewrite dict_get_setitem_ne.
  - exists (config m), r. split_and!; try done.
    intros n mot Hinr. exists m'. rewrite dict_get_setitem_eq. split; [done|].
    simpl. by apply add_defs_lookup_in.
Qed.

(** The loop, from managers as the binder keeps them. *)
Lemma bind_components_spec buses specs acc ms ms' bs :
  closed_managers buses ms →
  Assembly.bind_components specs acc ms = (ms', Return bs) →
  closed_managers buses ms' ∧
  (∀ k g x, registered_at ms k g x → registered_at ms' k g x) ∧
  ∃ new,
    bs = acc ++ new ∧
    Forall2 (λ spec binding,
               ∃ bus_cfg r,
                 dict_get buses (SharedComponentAssemblyConfig.bus spec)
                 = Some bus_cfg ∧
                 binds spec bus_cfg r binding ∧
                 ∀ n mot, (n, mot) ∈ robot_motors r →
                   registered_at ms' (SharedComponentAssemblyConfig.bus spec)
                     (SharedComponentAssemblyConfig.prefix spec +:+ n)
                     (Manager.updated_motor mot
                        (SharedComponentAssemblyConfig.motor_id_offset spec)))
            specs new.
Proof.
  revert acc ms. induction specs as [|spec specs IH]; intros acc ms Hclosed Hrun.
  - simpl in Hrun. injection Hrun as <- <-. split_and!; [done|done|].
    exists []. split; [by rewrite app_nil_r | constructor].
  - simpl in Hrun. py_unfold.
    destruct (Assembly.bind_component spec ms) as [ms1 [b|e]] eqn:Hstep;
      [|discriminate].
    destruct (closed_managers_step _ _ _ _ _ Hclosed Hstep)
      as (Hclosed1 & Hmono1 & bus_cfg & r & Hbus & Hbinds & Hreg).
    destruct (IH _ _ Hclosed1 Hrun) as (Hclosed' & Hmono' & new & -> & Hall).
    split_and!; [done|by auto|].
    exists (b :: new). split; [by rewrite <- app_assoc|].
    constructor; [|done]. exists bus_cfg, r. split_and!; [done|done|].
    intros n mot Hin. by apply Hmono', Hreg.
Qed.

(** X18. When [build_shared_components] returns, it has made one binding
    per component description, in the order of the descriptions: each
    carries the description's name, role and prefix and the key of its bus,
    its alias list, and the sub-device built by the class registered for
    the description's type from the description's configuration, with the
    bus reference replaced by the view that maps every motor name [n] of
    the sub-device to prefix ∥ [n].  In particular every type is a
    registered one and every bus a configured one. *)
Theorem build_binds_in_order buses specs bindings ms :
  NoDup (dict_keys buses) →
  Assembly.build_shared_components (B:=B) buses specs = Return (bindings, ms) →
  Forall2 (λ spec binding,
             ∃ bus_cfg r,
               dict_get buses (SharedComponentAssemblyConfig.bus spec)
               = Some bus_cfg ∧
               binds spec bus_cfg r binding)
          specs bindings.
Proof.
  intros Hnd. unfold Assembly.build_shared_components.
  destruct (Assembly.bind_components specs [] _) as [ms1 [bs|e]] eqn:Hrun;
    [|discriminate].
  intros [= <- <-].
  destruct (bind_components_spec buses _ _ _ _ _
              (closed_managers_initial buses Hnd) Hrun)
    as (_ & _ & new & -> & Hall).
  simpl. eapply Forall2_impl; [exact Hall|].
  intros spec b (bus_cfg & r & ? & ? & _). by exists bus_cfg, r.
Qed.

(** X19. The managers [build_shared_components] returns are one per
    configured bus, each named by the bus's key and holding its
    configuration; none has a handle and every reference count is zero (the
    binder never opens a bus); and the Global Namespace of a component's
    manager holds every motor of the component, under prefix ∥ name and
    with its id shifted by the component's offset. *)
Theorem build_registers_every_motor buses specs bindings ms :
  NoDup (dict_keys buses) →
  Assembly.build_shared_components (B:=B) buses specs = Return (bindings, ms) →
  closed_managers buses ms ∧
  Forall2 (λ spec binding,
             ∃ bus_cfg r,
               binds spec bus_cfg r binding ∧
               ∀ n mot, (n, mot) ∈ robot_motors r →
                 registered_at ms (SharedComponentAssemblyConfig.bus spec)
                   (SharedComponentAssemblyConfig.prefix spec +:+ n)
                   (Motor.make
                      (Motor.id mot
                       + SharedComponentAssemblyConfig.motor_id_offset spec)
                      (Motor.model mot) (Motor.norm_mode mot)))
          specs bindings.
Proof.
  intros Hnd. unfold Assembly.build_shared_components.
  destruct (Assembly.bind_components specs [] _) as [ms1 [bs|e]] eqn:Hrun;
    [|discriminate].
  intros [= <- <-].
  destruct (bind_components_spec buses _ _ _ _ _
              (closed_managers_initial buses Hnd) Hrun)
    as (Hclosed & _ & new & -> & Hall).
  split; [done|]. simpl. eapply Forall2_impl; [exact Hall|].
  intros spec b (bus_cfg & r & _ & ? & Hreg). exists bus_cfg, r. by split.
Qed.

(** X20. The binder stops at the first component it cannot place, and
    looks at the type before the bus: after components that bind, a
    component whose type is not in the registry makes the build raise the
    unsupported-type [ValueError], whatever its bus; a component of a
    registered type whose bus is not configured makes it raise the
    unknown-bus [ValueError]; the components after it are not looked at. *)
Theorem build_stops_at_unplaceable_component buses pre spec post bs ms :
  NoDup (dict_keys buses) →
  Assembly.build_shared_components (B:=B) buses pre = Return (bs, ms) →
  (dict_get Assembly.COMPONENT_REGISTRY (SharedComponentAssemblyConfig.type spec)
   = None →
   Assembly.build_shared_components (B:=B) buses (pre ++ spec :: post)
   = Raise (ValueError (Assembly.unsupported_type_message
                          (SharedComponentAssemblyConfig.type spec)))) ∧
  (is_Some (dict_get Assembly.COMPONENT_REGISTRY
              (SharedComponentAssemblyConfig.type spec)) →
   dict_get buses (SharedComponentAssemblyConfig.bus spec) = None →
   Assembly.build_shared_components (B:=B) buses (pre ++ spec :: post)
   = Raise (ValueError (Assembly.unknown_bus_message
                          (SharedComponentAssemblyConfig.name spec)
                          (SharedComponentAssemblyConfig.bus spec)))).
Proof.
  intros Hnd. unfold Assembly.build_shared_components.
  destruct (Assembly.bind_components pre [] _) as [ms1 [bs1|e]] eqn:Hrun;
    [|discriminate].
  intros [= <- <-]. split.
  - intros Hreg. rewrite (bind_components_app _ _ _ _ _ _ Hrun). simpl.
    py_unfold. by rewrite bind_component_unknown_type.
  - intros Hreg Hbus. rewrite (bind_components_app _ _ _ _ _ _ Hrun). simpl.
    py_unfold. rewrite bind_component_unknown_bus; [done|done|].
    destruct (bind_components_spec buses _ _ _ _ _
                (closed_managers_initial buses Hnd) Hrun) as ([Hkeys _] & _).
    apply dict_get_None. unfold dict_keys in Hkeys. rewrite Hkeys.
    by apply dict_get_None.
Qed.

End assembly_facts.

Section assembly_pure.
Context {Config Robot : Type} `{!SubDevices Config Robot}.

(** X21. The alias list of a binding starts with the configured aliases,
    in order, and has at most the prefix added at the end; a non-empty
    prefix is always among the aliases, an empty one is never added, and a
    prefix that is already an alias is not added again. *)
Theorem binding_aliases_spec action_aliases prefix :
  let configured := default [] action_aliases in
  let result := Assembly.binding_aliases action_aliases prefix in
  (result = configured ∨ result = configured ++ [prefix]) ∧
  (prefix ≠ ""%string → prefix ∈ result) ∧
  (prefix = ""%string ∨ prefix ∈ configured → result = configured) ∧
  (NoDup configured → NoDup result).
Proof.
  unfold Assembly.binding_aliases. simpl.
  destruct (decide (prefix = ""%string)) as [->|Hne].
  - rewrite bool_decide_eq_true_2 by done. simpl.
    split_and!; [by left|done|done|done].
  - rewrite bool_decide_eq_false_2 by done. simpl.
    destruct (decide (prefix ∈ default [] action_aliases)) as [Hin|Hnotin].
    + rewrite bool_decide_eq_true_2 by done. simpl.
      split_and!; [by left|done|done|done].
    + rewrite bool_decide_eq_false_2 by done. simpl. split_and!.
      * by right.
      * intros _. apply elem_of_app. right. apply list_elem_of_here.
      * intros [?|?]; done.
      * intros Hnd. apply NoDup_app. split_and!; [done| |apply NoDup_singleton].
        intros x Hx Hx'. apply list_elem_of_singleton in Hx'. by subst.
Qed.

(** X22. [_make_config] hands the configuration class the component's own
    settings with a port: the component's own [port] entry when it has
    one, the port of the shared bus otherwise; every other key is passed
    as given. *)
Theorem make_config_defaults_port cls raw_cfg port :
  ∃ kwargs,
    Assembly._make_config cls raw_cfg port = config_cls cls kwargs ∧
    dict_get kwargs "port"%string
    = Some (default (PyStr port) (dict_get raw_cfg "port"%string)) ∧
    (∀ k, k ≠ "port"%string → dict_get kwargs k = dict_get raw_cfg k) ∧
    (is_Some (dict_get raw_cfg "port"%string) → kwargs = raw_cfg).
Proof.
  unfold Assembly._make_config, dict_setdefault, dict_contains.
  destruct (dict_get raw_cfg "port"%string) as [p|] eqn:Hp.
  - exists raw_cfg. by split_and!.
  - exists (dict_setitem raw_cfg "port"%string (PyStr port)). split_and!.
    + done.
    + apply dict_get_setitem_eq.
    + intros k Hk. by apply dict_get_setitem_ne.
    + by intros [? ?].
Qed.

End assembly_pure.

Section assembly_success.
Context {B Config Robot : Type} `{!SubDevices Config Robot}.
Implicit Types (spec : SharedComponentAssemblyConfig.t)
               (ms : pydict string (FeetechBusManager B))
               (buses : pydict string SharedBusAssemblyConfig.t).

Lemma bind_component_fresh buses spec (r : Robot) ms m :
  closed_managers buses ms →
  constructible buses spec r →
  dict_get ms (SharedComponentAssemblyConfig.bus spec) = Some m →
  NoDup (dict_keys (robot_motors r)) →
  (∀ n, n ∈ dict_keys (robot_motors r) →
        _motor_defs m !! (SharedComponentAssemblyConfig.prefix spec +:+ n)
        = None) →
  ∃ binding,
    Assembly.bind_component spec ms
    = (dict_setitem ms (SharedComponentAssemblyConfig.bus spec)
         (Manager.set_view (SharedComponentAssemblyConfig.name spec)
            (registered_view (SharedComponentAssemblyConfig.prefix spec)
               (SharedComponentAssemblyConfig.motor_id_offset spec)
               (robot_motors r))
            (committed (SharedComponentAssemblyConfig.prefix spec)
               (SharedComponentAssemblyConfig.motor_id_offset spec)
               (Some (robot_calibration r)) (robot_motors r) m)),
       Return binding).
Proof.
  intros [_ Hclosed] (bus_cfg & cls & cfg & Hbus & Hreg & Hcfg & Hr) Hm Hnd Hfresh.
  destruct (Hclosed _ _ Hm) as (_ & Hcfgm & _).
  assert (config m = bus_cfg) as Hsame by congruence.
  unfold Assembly.bind_component, Assembly.on_manager_at. rewrite Hreg.
  py_unfold. rewrite Hm, Hsame, Hcfg. simpl. rewrite Hr. simpl.
  rewrite register_component_fresh by done. simpl. by eexists.
Qed.

Lemma bind_components_succeed buses specs (robots : list Robot) acc ms :
  closed_managers buses ms →
  Forall2 (constructible buses) specs robots →
  (∀ k m, dict_get ms k = Some m →
          NoDup (global_names_on k specs robots) ∧
          ∀ g, g ∈ global_names_on k specs robots → _motor_defs m !! g = None) →
  ∃ ms' bs, Assembly.bind_components specs acc ms = (ms', Return bs).
Proof.
  intros Hclosed Hall. revert acc ms Hclosed.
  induction Hall as [|spec r specs robots Hc Hall IH]; intros acc ms Hclosed Hnames.
  - by eexists _, _.
  - set (k0 := SharedComponentAssemblyConfig.bus spec).
    assert (∃ m, dict_get ms k0 = Some m) as [m Hm].
    { destruct Hc as (bus_cfg & _ & _ & Hbus & _).
      destruct (dict_get ms k0) as [m|] eqn:Hget; [by eexists|].
      apply dict_get_None in Hget. destruct Hclosed as [Hkeys _].
      unfold dict_keys in Hkeys. rewrite Hkeys in Hget.
      apply dict_get_None in Hget. fold k0 in Hbus. congruence. }
    destruct (Hnames _ _ Hm) as [Hnd Hfree]. simpl in Hnd, Hfree.
    rewrite decide_True in Hnd, Hfree by done.
    apply NoDup_app in Hnd as (Hnew & Hdis & Hrest).
    assert (NoDup (dict_keys (robot_motors r))) as Hkeys.
    { by apply NoDup_fmap_1 in Hnew. }
    destruct (bind_component_fresh buses spec r ms m) as [b Hstep]; try done.
    { intros n Hn. apply Hfree. apply elem_of_app. left.
      apply list_elem_of_fmap. by exists n. }
    destruct (closed_managers_step _ _ _ _ _ Hclosed Hstep) as (Hclosed' & _).
    destruct (IH (acc ++ [b]) _ Hclosed') as (ms' & bs & Hrun).
    { intros k m1 Hget. destruct (decide (k0 = k)) as [<-|Hne].
      - rewrite dict_get_setitem_eq in Hget. injection Hget as <-.
        split; [done|]. intros g Hg. simpl.
        rewrite add_defs_lookup_out.
        + apply Hfree. apply elem_of_app. by right.
        + intros n Hn ->. apply (Hdis (SharedComponentAssemblyConfig.prefix spec +:+ n));
            [|done]. apply list_elem_of_fmap. by exists n.
      - rewrite dict_get_setitem_ne in Hget by done.
        destruct (Hnames _ _ Hget) as [Hnd1 Hfree1]. simpl in Hnd1, Hfree1.
        rewrite decide_False in Hnd1, Hfree1 by done. done. }
    exists ms', bs. simpl. py_unfold. by rewrite Hstep.
Qed.

(** X23. [build_shared_components] goes through whenever every sub-device
    can be constructed and, on each bus, the bus-global names computed for
    the components of that bus (prefix ∥ motor name) are all distinct:
    a name collision is the only thing in the binder's own steps that can
    stop an assembly whose types and buses are known. *)
Theorem build_succeeds_when_names_distinct buses specs (robots : list Robot) :
  NoDup (dict_keys buses) →
  Forall2 (constructible buses) specs robots →
  (∀ k, NoDup (global_names_on k specs robots)) →
  ∃ bindings ms,
    Assembly.build_shared_components (B:=B) buses specs
    = Return (bindings, ms).
Proof.
  intros Hnd Hall Hnames. unfold Assembly.build_shared_components.
  pose proof (closed_managers_initial (B:=B) buses Hnd) as Hclosed.
  destruct (bind_components_succeed buses specs robots [] _ Hclosed Hall)
    as (ms' & bs & ->); [|by eexists _, _].
  intros k m Hget. split; [done|]. intros g _.
  rewrite dict_of_items_NoDup in Hget
    by (unfold dict_keys in Hnd; by rewrite <- list_fmap_compose).
  apply dict_get_Some_elem in Hget.
  by apply list_elem_of_fmap in Hget as ([k' cfg] & [= -> ->] & _).
Qed.

End assembly_success.

(** ** Validation of the shared-bus configuration *)

Section config_facts.
Context {Part : Type} `{!Dataclasses}.
Implicit Types (self : XLeRobotConfig.t Part)
               (buses : pydict string SharedBusAssemblyConfig.t)
               (comps : list SharedComponentAssemblyConfig.t).

Lemma convert_buses_returns items acc buses :
  NoDup (acc.*1 ++ items.*1) →
  XLeRobotConfig.convert_buses items acc = Return buses →
  ∃ new, buses = acc ++ new ∧ Forall2 accepted_bus items new.
Proof.
  revert acc. induction items as [|[k e] items IH]; intros acc Hnd Hrun.
  - simpl in Hrun. injection Hrun as <-. exists [].
    split; [by rewrite app_nil_r | constructor].
  - simpl in Hrun.
    destruct (match e with
              | Instance c => Return c
              | Kwargs d => bus_config_of_kwargs d
              end) as [c|err] eqn:He; [|discriminate].
    destruct (decide (SharedBusAssemblyConfig.type c = "feetech"%string))
      as [Hty|Hty].
    + rewrite bool_decide_eq_false_2 in Hrun by (by intros ?).
      assert (k ∉ acc.*1) as Hk.
      { apply NoDup_app in Hnd as (_ & Hdis & _). intros Hin.
        apply (Hdis k Hin). simpl. apply list_elem_of_here. }
      rewrite dict_setitem_fresh in Hrun by done.
      destruct (IH (acc ++ [(k, c)])) as (new & -> & Hall); [|done|].
      * rewrite fmap_app. simpl. by rewrite <- app_assoc.
      * exists ((k, c) :: new). split; [by rewrite <- app_assoc|].
        constructor; [|done]. split_and!; [done| |done].
        unfold bus_entry_gives. simpl. destruct e; congruence.
    + by rewrite bool_decide_eq_true_2 in Hrun.
Qed.

Lemma convert_buses_accepts items acc new :
  NoDup (acc.*1 ++ items.*1) →
  Forall2 accepted_bus items new →
  XLeRobotConfig.convert_buses items acc = Return (acc ++ new).
Proof.
  intros Hnd Hall. revert acc Hnd.
  induction Hall as [|[k e] [k' c] items new (Hk & He & Hty) Hall IH];
    intros acc Hnd.
  - simpl. by rewrite app_nil_r.
  - simpl in *. subst k'.
    assert ((match e with
             | Instance c => Return c
             | Kwargs d => bus_config_of_kwargs d
             end) = Return c) as ->.
    { unfold bus_entry_gives in He. destruct e; congruence. }
    rewrite bool_decide_eq_false_2 by (by intros ?).
    assert (k ∉ acc.*1) as Hkacc.
    { apply NoDup_app in Hnd as (_ & Hdis & _). intros Hin.
      apply (Hdis k Hin). apply list_elem_of_here. }
    rewrite dict_setitem_fresh by done. rewrite IH.
    + by rewrite <- app_assoc.
    + rewrite fmap_app. simpl. by rewrite <- app_assoc.
Qed.

Lemma convert_buses_rejects pre k e c post acc new :
  NoDup (acc.*1 ++ (pre ++ (k, e) :: post).*1) →
  Forall2 accepted_bus pre new →
  bus_entry_gives e c →
  SharedBusAssemblyConfig.type c ≠ "feetech"%string →
  XLeRobotConfig.convert_buses (pre ++ (k, e) :: post) acc
  = Raise (ValueError XLeRobotConfig.unsupported_bus_message).
Proof.
  intros Hnd Hall He Hty. revert acc Hnd.
  induction Hall as [|[k1 e1] [k1' c1] pre new (Hk & He1 & Hty1) Hall IH];
    intros acc Hnd.
  - simpl.
    assert ((match e with
             | Instance c => Return c
             | Kwargs d => bus_config_of_kwargs d
             end) = Return c) as ->.
    { unfold bus_entry_gives in He. destruct e; congruence. }
    by rewrite bool_decide_eq_true_2.
  - simpl in *. subst k1'.
    assert ((match e1 with
             | Instance c => Return c
             | Kwargs d => bus_config_of_kwargs d
             end) = Return c1) as ->.
    { unfold bus_entry_gives in He1. destruct e1; congruence. }
    rewrite bool_decide_eq_false_2 by (by intros ?).
    assert (k1 ∉ acc.*1) as Hkacc.
    { apply NoDup_app in Hnd as (_ & Hdis & _). intros Hin.
      apply (Hdis k1 Hin). apply list_elem_of_here. }
    rewrite dict_setitem_fresh by done. apply IH.
    rewrite fmap_app. simpl. by rewrite <- app_assoc.
Qed.

Lemma convert_components_returns buses items acc comps :
  XLeRobotConfig.convert_components buses items acc = Return comps →
  ∃ new, comps = acc ++ new ∧ Forall2 (accepted_component buses) items new.
Proof.
  revert acc. induction items as [|e items IH]; intros acc Hrun.
  - simpl in Hrun. injection Hrun as <-. exists [].
    split; [by rewrite app_nil_r | constructor].
  - simpl in Hrun.
    destruct (match e with
              | Instance c => Return c
              | Kwargs d => component_config_of_kwargs d
              end) as [c|err] eqn:He; [|discriminate].
    unfold dict_contains in Hrun.
    destruct (dict_get buses (SharedComponentAssemblyConfig.bus c)) as [b|]
      eqn:Hb; [|discriminate]. simpl in Hrun.
    destruct (IH _ Hrun) as (new & -> & Hall).
    exists (c :: new). split; [by rewrite <- app_assoc|].
    constructor; [|done]. split.
    + unfold component_entry_gives. destruct e; congruence.
    + rewrite Hb. by eexists.
Qed.

Lemma convert_components_accepts buses items acc new :
  Forall2 (accepted_component buses) items new →
  XLeRobotConfig.convert_components buses items acc = Return (acc ++ new).
Proof.
  intros Hall. revert acc.
  induction Hall as [|e c items new [He [b Hb]] Hall IH]; intros acc.
  - simpl. by rewrite app_nil_r.
  - simpl.
    assert ((match e with
             | Instance c => Return c
             | Kwargs d => component_config_of_kwargs d
             end) = Return c) as ->.
    { unfold component_entry_gives in He. destruct e; congruence. }
    unfold dict_contains. rewrite Hb. simpl. rewrite IH.
    by rewrite <- app_assoc.
Qed.

Lemma convert_components_rejects buses pre e c post acc new :
  Forall2 (accepted_component buses) pre new →
  component_entry_gives e c →
  dict_get buses (SharedComponentAssemblyConfig.bus c) = None →
  XLeRobotConfig.convert_components buses (pre ++ e :: post) acc
  = Raise (ValueError (XLeRobotConfig.unknown_bus_message
                         (SharedComponentAssemblyConfig.name c)
                         (SharedComponentAssemblyConfig.bus c))).
Proof.
  intros Hall He Hb. revert acc.
  induction Hall as [|e1 c1 pre new [He1 [b1 Hb1]] Hall IH]; intros acc.
  - simpl.
    assert ((match e with
             | Instance c => Return c
             | Kwargs d => component_config_of_kwargs d
             end) = Return c) as ->.
    { unfold component_entry_gives in He. destruct e; congruence. }
    unfold dict_contains. by rewrite Hb.
  - simpl.
    assert ((match e1 with
             | Instance c => Return c
             | Kwargs d => component_config_of_kwargs d
             end) = Return c1) as ->.
    { unfold component_entry_gives in He1. destruct e1; congruence. }
    unfold dict_contains. rewrite Hb1. simpl. apply IH.
Qed.

Lemma accepted_bus_keys items new :
  Forall2 accepted_bus items new → dict_keys new = dict_keys items.
Proof.
  unfold dict_keys.
  induction 1 as [|kv kc items new (Hk & _) Hall IH]; [done|].
  rewrite !fmap_cons. by rewrite Hk, IH.
Qed.

(** The validation past its two emptiness checks. *)
Lemma init_shared_mode_unfold self :
  XLeRobotConfig.shared_buses self ≠ [] →
  XLeRobotConfig.shared_components self ≠ [] →
  XLeRobotConfig._init_shared_mode self
  = match XLeRobotConfig.convert_buses (XLeRobotConfig.shared_buses self) [] with
    | Raise e => (XLeRobotConfig.clear_parts self, Raise e)
    | Return buses =>
        match XLeRobotConfig.convert_components buses
                (XLeRobotConfig.shared_components self) [] with
        | Raise e => (XLeRobotConfig.clear_parts self, Raise e)
        | Return comps =>
            (XLeRobotConfig.set_shared_configs buses comps
               (XLeRobotConfig.clear_parts self), Return tt)
        end
    end.
Proof.
  intros Hb Hc. unfold XLeRobotConfig._init_shared_mode. py_unfold.
  destruct (XLeRobotConfig.shared_buses self) as [|kv items]; [done|].
  destruct (XLeRobotConfig.shared_components self) as [|e es]; [done|].
  destruct (XLeRobotConfig.convert_buses (kv :: items) []) as [buses|err];
    [|reflexivity].
  destruct (XLeRobotConfig.convert_components buses (e :: es) [])
    as [comps|err]; reflexivity.
Qed.

(** What a validation that returns has established. *)
Lemma init_shared_mode_returns self self' :
  NoDup (dict_keys (XLeRobotConfig.shared_buses self)) →
  XLeRobotConfig._init_shared_mode self = (self', Return tt) →
  ∃ buses comps,
    self' = XLeRobotConfig.set_shared_configs buses comps
              (XLeRobotConfig.clear_parts self) ∧
    buses ≠ [] ∧ comps ≠ [] ∧
    Forall2 accepted_bus (XLeRobotConfig.shared_buses self) buses ∧
    Forall2 (accepted_component buses)
            (XLeRobotConfig.shared_components self) comps.
Proof.
  intros Hnd Hrun.
  assert (XLeRobotConfig.shared_buses self ≠ []) as Hb.
  { intros Hb. unfold XLeRobotConfig._init_shared_mode in Hrun. py_unfold.
    by rewrite Hb in Hrun. }
  assert (XLeRobotConfig.shared_components self ≠ []) as Hc.
  { intros Hc. unfold XLeRobotConfig._init_shared_mode in Hrun. py_unfold.
    rewrite Hc in Hrun. by destruct (XLeRobotConfig.shared_buses self). }
  rewrite init_shared_mode_unfold in Hrun by done.
  destruct (XLeRobotConfig.convert_buses _ _) as [buses|err] eqn:Hcb;
    [|discriminate].
  destruct (XLeRobotConfig.convert_components buses _ _) as [comps|err] eqn:Hcc;
    [|discriminate].
  injection Hrun as <-.
  apply convert_buses_returns in Hcb as (new & -> & Hall); [|done].
  apply convert_components_returns in Hcc as (new' & -> & Hall').
  simpl in *. exists new, new'. split_and!; try done.
  - intros ->. apply Forall2_nil_inv_r in Hall. done.
  - intros ->. apply Forall2_nil_inv_r in Hall'. done.
Qed.

(** X24. When [_init_shared_mode] returns, [shared_bus_configs] holds
    every entry of [shared_buses], in order and under the same key, as a
    bus configuration of type "feetech", and [shared_component_configs]
    holds every entry of [shared_components], in order, as a component
    description whose bus is a key of [shared_bus_configs]; neither is
    empty, entries given as instances are kept as they are, and the
    separate-mode attributes are all [None]. *)
Theorem init_shared_mode_validates self self' :
  NoDup (dict_keys (XLeRobotConfig.shared_buses self)) →
  XLeRobotConfig._init_shared_mode self = (self', Return tt) →
  ∃ buses comps,
    XLeRobotConfig.shared_bus_configs self' = Some buses ∧
    XLeRobotConfig.shared_component_configs self' = Some comps ∧
    buses ≠ [] ∧ comps ≠ [] ∧
    dict_keys buses = dict_keys (XLeRobotConfig.shared_buses self) ∧
    Forall2 accepted_bus (XLeRobotConfig.shared_buses self) buses ∧
    Forall2 (accepted_component buses)
            (XLeRobotConfig.shared_components self) comps ∧
    XLeRobotConfig.arms self' = None ∧ XLeRobotConfig.base self' = None ∧
    XLeRobotConfig.mount self' = None ∧
    XLeRobotConfig.arms_config self' = None ∧
    XLeRobotConfig.base_config self' = None ∧
    XLeRobotConfig.mount_config self' = None ∧
    XLeRobotConfig.base_type self' = None.
Proof.
  intros Hnd Hrun.
  destruct (init_shared_mode_returns _ _ Hnd Hrun)
    as (buses & comps & -> & Hb & Hc & Hall & Hall').
  exists buses, comps. split_and!; try done.
  by apply accepted_bus_keys.
Qed.

(** X25. What [_init_shared_mode] refuses, and in which order.  An empty
    [shared_buses] is refused first, then an empty [shared_components],
    both before anything is assigned.  Then the first bus entry whose type
    is not "feetech" is refused, and only when all buses are accepted the
    first component whose bus is not one of them; in these two cases the
    separate-mode attributes have already been set to [None], while
    [shared_bus_configs] and [shared_component_configs] have not been
    assigned. *)
Theorem init_shared_mode_rejects self :
  NoDup (dict_keys (XLeRobotConfig.shared_buses self)) →
  (XLeRobotConfig.shared_buses self = [] →
   XLeRobotConfig._init_shared_mode self
   = (self, Raise (ValueError XLeRobotConfig.missing_buses_message))) ∧
  (XLeRobotConfig.shared_buses self ≠ [] →
   XLeRobotConfig.shared_components self = [] →
   XLeRobotConfig._init_shared_mode self
   = (self, Raise (ValueError XLeRobotConfig.missing_components_message))) ∧
  (∀ pre k e c post accepted,
     XLeRobotConfig.shared_components self ≠ [] →
     XLeRobotConfig.shared_buses self = pre ++ (k, e) :: post →
     Forall2 accepted_bus pre accepted →
     bus_entry_gives e c →
     SharedBusAssemblyConfig.type c ≠ "feetech"%string →
     XLeRobotConfig._init_shared_mode self
     = (XLeRobotConfig.clear_parts self,
        Raise (ValueError XLeRobotConfig.unsupported_bus_message))) ∧
  (∀ buses pre e c post accepted,
     XLeRobotConfig.shared_buses self ≠ [] →
     Forall2 accepted_bus (XLeRobotConfig.shared_buses self) buses →
     XLeRobotConfig.shared_components self = pre ++ e :: post →
     Forall2 (accepted_component buses) pre accepted →
     component_entry_gives e c →
     dict_get buses (SharedComponentAssemblyConfig.bus c) = None →
     XLeRobotConfig._init_shared_mode self
     = (XLeRobotConfig.clear_parts self,
        Raise (ValueError (XLeRobotConfig.unknown_bus_message
                             (SharedComponentAssemblyConfig.name c)
                             (SharedComponentAssemblyConfig.bus c))))).
Proof.
  intros Hnd. split_and!.
  - intros Hb. unfold XLeRobotConfig._init_shared_mode. py_unfold.
    by rewrite Hb.
  - intros Hb Hc. unfold XLeRobotConfig._init_shared_mode. py_unfold.
    rewrite Hc. by destruct (XLeRobotConfig.shared_buses self).
  - intros pre k e c post accepted Hcomps Hbuses Hall He Hty.
    rewrite init_shared_mode_unfold; [|rewrite Hbuses; by destruct pre|done].
    rewrite Hbuses in Hnd |- *.
    by rewrite (convert_buses_rejects pre k e c post [] accepted).
  - intros buses pre e c post accepted Hne Hall Hcomps Hall' He Hb.
    rewrite init_shared_mode_unfold; [|done|rewrite Hcomps; by destruct pre].
    rewrite (convert_buses_accepts _ [] buses Hnd Hall). simpl.
    rewrite Hcomps.
    by rewrite (convert_components_rejects buses pre e c post [] accepted).
Qed.

End config_facts.

Section config_then_build.
Context {Part B Config Robot : Type} `{!Dataclasses}
        `{!SubDevices Config Robot}.

(** X26. A configuration that [_init_shared_mode] accepted never fails in
    the binder for an unknown bus: if the sub-device of every accepted
    component can be constructed (its type is registered and the two
    classes return, for the port of its bus) and the bus-global names on
    each bus are distinct, [build_shared_components] on the accepted
    buses and components returns. *)
Theorem validated_configuration_builds
    (self self' : XLeRobotConfig.t Part) buses comps (robots : list Robot) :
  NoDup (dict_keys (XLeRobotConfig.shared_buses self)) →
  XLeRobotConfig._init_shared_mode self = (self', Return tt) →
  XLeRobotConfig.shared_bus_configs self' = Some buses →
  XLeRobotConfig.shared_component_configs self' = Some comps →
  Forall2 (λ spec r,
             ∀ bus_cfg,
               dict_get buses (SharedComponentAssemblyConfig.bus spec)
               = Some bus_cfg →
               ∃ cls cfg,
                 dict_get Assembly.COMPONENT_REGISTRY
                   (SharedComponentAssemblyConfig.type spec) = Some cls ∧
                 Assembly._make_config cls
                   (SharedComponentAssemblyConfig.config spec)
                   (SharedBusAssemblyConfig.port bus_cfg) = Return cfg ∧
                 robot_cls cls cfg = Return r)
          comps robots →
  (∀ k, NoDup (global_names_on k comps robots)) →
  ∃ bindings ms,
    Assembly.build_shared_components (B:=B) buses comps
    = Return (bindings, ms).
Proof.
  intros Hnd Hrun Hb Hc Hall Hnames.
  destruct (init_shared_mode_returns _ _ Hnd Hrun)
    as (buses' & comps' & -> & _ & _ & Hbuses & Hcomps).
  simpl in Hb, Hc. injection Hb as ->. injection Hc as ->.
  assert (NoDup (dict_keys buses)) as Hndb.
  { by rewrite (accepted_bus_keys _ _ Hbuses). }
  assert (Forall2 (constructible buses) comps robots) as Hcons.
  { assert (Forall (λ c, is_Some (dict_get buses
                                    (SharedComponentAssemblyConfig.bus c)))
                   comps) as Hknown.
    { clear -Hcomps. induction Hcomps as [|e c es cs [_ ?] _ IH]; by constructor. }
    clear -Hall Hknown. induction Hall as [|spec r specs rs Hone Hall IH].
    - constructor.
    - apply Forall_cons in Hknown as [[bus_cfg Hbus] Hknown].
      constructor; [|by apply IH].
      destruct (Hone _ Hbus) as (cls & cfg & ? & ? & ?).
      by exists bus_cfg, cls, cfg. }
  unfold Assembly.build_shared_components.
  pose proof (closed_managers_initial (B:=B) buses Hndb) as Hclosed.
  destruct (bind_components_succeed buses comps robots [] _ Hclosed Hcons)
    as (ms' & bs & ->); [|by eexists _, _].
  intros k m Hget. split; [done|]. intros g _.
  rewrite dict_of_items_NoDup in Hget
    by (unfold dict_keys in Hndb; by rewrite <- list_fmap_compose).
  apply dict_get_Some_elem in Hget.
  by apply list_elem_of_fmap in Hget as ([k' cfg] & [= -> ->] & _).
Qed.

End config_then_build.

(** ** The assembly, checked against the further properties *)

Section extra_checks.
Import Scenario AssemblyScenario.
Local Open Scope string_scope.

Lemma register_component_succeeds_iff_witness :
  NoDup (dict_keys arm) ∧
  ∃ m' view,
    Manager.register_component "right" arm "right_" 6 None with_left
    = (m', Return view).
Proof.
  assert (NoDup (dict_keys arm)) as Hnd
    by (apply (bool_decide_unpack _); vm_compute; reflexivity).
  split; [exact Hnd|].
  destruct (register_component_succeeds_iff "right" arm "right_" 6 None
              with_left Hnd) as [[_ Hback] _].
  apply Hback. intros n Hn. apply list_elem_of_singleton in Hn as ->.
  vm_compute. reflexivity.
Defined.

Lemma registered_view_well_formed_witness :
  Manager.register_component "right" arm "right_" 6 None with_left
  = (with_both, Return right_view) ∧
  injective_map (local_to_bus right_view) ∧
  names_registered right_view with_both.
Proof.
  assert (Manager.register_component "right" arm "right_" 6 None with_left
          = (with_both, Return right_view)) as Hrun by (vm_compute; reflexivity).
  split; [exact Hrun|].
  destruct (registered_view_well_formed _ _ _ _ _ _ _ _ Hrun)
    as (Hinj & _ & _ & _ & Hreg & _).
  split; [exact Hinj | exact Hreg].
Defined.

Lemma register_component_only_adds_witness :
  Manager.register_component "right" arm "right_" 6 None with_left
  = (with_both, Return right_view) ∧
  size (_motor_defs with_both) = (size (_motor_defs with_left) + 1)%nat ∧
  (is_Some (bus with_both) ↔ is_Some (bus with_left)).
Proof.
  assert (Manager.register_component "right" arm "right_" 6 None with_left
          = (with_both, Return right_view)) as Hrun by (vm_compute; reflexivity).
  split; [exact Hrun|].
  destruct (register_component_only_adds _ _ _ _ _ _ _ _ Hrun)
    as (Hsize & _ & _ & Hbus & _).
  split; [exact Hsize | exact Hbus].
Defined.

Lemma registered_views_disjoint_witness :
  names_registered left_view with_left ∧
  Manager.register_component "right" arm "right_" 6 None with_left
  = (with_both, Return right_view) ∧
  ("left_shoulder" ∉ (local_to_bus right_view).*2) ∧
  (View._map_dict_to_local right_view [("left_shoulder", 10)] = []).
Proof.
  assert (names_registered left_view with_left) as Hreg.
  { intros g Hg. apply list_elem_of_singleton in Hg as ->.
    vm_compute. by eexists. }
  assert (Manager.register_component "right" arm "right_" 6 None with_left
          = (with_both, Return right_view)) as Hrun by (vm_compute; reflexivity).
  split; [exact Hreg|]. split; [exact Hrun|].
  destruct (registered_views_disjoint left_view _ _ _ _ _ _ _ _ Hreg Hrun)
    as (Hdis & _ & _ & Hdrop).
  split.
  - apply Hdis. apply list_elem_of_here.
  - apply (Hdrop Z). intros g Hg. apply list_elem_of_singleton in Hg as ->.
    apply list_elem_of_here.
Defined.

Lemma register_component_seeds_calibration_witness :
  Manager.register_component "left" arm "left_" 0 (Some arm_calibration)
    empty_manager = (with_left, Return left_view) ∧
  _calibration with_left !! ("left_" +:+ "shoulder")
  = Some shoulder_calibration.
Proof.
  assert (Manager.register_component "left" arm "left_" 0
            (Some arm_calibration) empty_manager
          = (with_left, Return left_view)) as Hrun by (vm_compute; reflexivity).
  split; [exact Hrun|].
  destruct (register_component_seeds_calibration _ _ _ _ _ _ _ _ Hrun)
    as [Hseed _].
  apply (Hseed "shoulder"). apply list_elem_of_here.
Defined.

Lemma register_component_ignores_id_clash_witness :
  NoDup (dict_keys arm) ∧
  _motor_defs with_left !! "left_shoulder" = Some shoulder ∧
  ∃ m' view mot',
    Manager.register_component "twin" arm "right_" 0 None with_left
    = (m', Return view) ∧
    _motor_defs m' !! "left_shoulder" = Some shoulder ∧
    _motor_defs m' !! ("right_" +:+ "shoulder") = Some mot' ∧
    Motor.id mot' = Motor.id shoulder.
Proof.
  assert (NoDup (dict_keys arm)) as Hnd
    by (apply (bool_decide_unpack _); vm_compute; reflexivity).
  assert (_motor_defs with_left !! "left_shoulder" = Some shoulder) as Hold
    by (vm_compute; reflexivity).
  split; [exact Hnd|]. split; [exact Hold|].
  destruct (register_component_ignores_id_clash "twin" arm "right_" 0 None
              with_left "left_shoulder" shoulder "shoulder" shoulder Hnd)
    as (m' & view & mot' & Hrun & _ & Hkept & Hnew & Hid).
  - intros k Hk. apply list_elem_of_singleton in Hk as ->.
    vm_compute. reflexivity.
  - exact Hold.
  - apply list_elem_of_here.
  - reflexivity.
  - exists m', view, mot'. split_and!; assumption.
Defined.

Lemma translate_then_map_back_witness :
  let values := [("shoulder", 2048)] in
  injective_map (local_to_bus left_view) ∧ NoDup (dict_keys values) ∧
  translatable (local_to_bus left_view) (dict_keys values) ∧
  ∃ payload,
    View._translate_dict left_view values = Return payload ∧
    View._map_dict_to_local left_view payload = values.
Proof.
  intros values.
  assert (injective_map (local_to_bus left_view)) as Hinj.
  { split; apply (bool_decide_unpack _); vm_compute; reflexivity. }
  assert (NoDup (dict_keys values)) as Hnd
    by (apply (bool_decide_unpack _); vm_compute; reflexivity).
  assert (translatable (local_to_bus left_view) (dict_keys values)) as Htr.
  { intros n Hn. apply list_elem_of_singleton in Hn as ->. by eexists. }
  split; [exact Hinj|]. split; [exact Hnd|]. split; [exact Htr|].
  destruct (translate_then_map_back left_view values Hinj Hnd Htr)
    as (payload & Ht & _ & _ & Hback).
  exists payload. split; [exact Ht | exact Hback].
Defined.

Lemma map_back_then_translate_witness :
  let res := [("right_shoulder", 20)] in
  injective_map (local_to_bus right_view) ∧ NoDup (dict_keys res) ∧
  View._translate_dict right_view (View._map_dict_to_local right_view res)
  = Return res.
Proof.
  intros res.
  assert (injective_map (local_to_bus right_view)) as Hinj.
  { split; apply (bool_decide_unpack _); vm_compute; reflexivity. }
  assert (NoDup (dict_keys res)) as Hnd
    by (apply (bool_decide_unpack _); vm_compute; reflexivity).
  split; [exact Hinj|]. split; [exact Hnd|].
  apply (map_back_then_translate right_view res Hinj Hnd).
  intros g Hg. apply list_elem_of_singleton in Hg as ->.
  apply list_elem_of_here.
Defined.

Lemma unknown_name_raises_before_handle_witness :
  dict_get (local_to_bus left_view) "wrist" = None ∧
  is_Some (bus live) ∧
  View.write left_view "Goal_Position" (MotorName "wrist") 0 true 0 live
  = (live, Raise (KeyError "wrist")) ∧
  bus with_both = None ∧
  View.write left_view "Goal_Position" (MotorName "wrist") 0 true 0 with_both
  = (with_both, Raise View.UninitializedBusError).
Proof.
  assert (is_Some (bus live)) as Hbus by (vm_compute; by eexists).
  split; [reflexivity|]. split; [exact Hbus|].
  destruct (unknown_name_raises_before_handle (Value:=Z) left_view live "wrist"
              eq_refl) as [Hguarded _].
  destruct (Hguarded Hbus) as (Hwrite & _).
  split; [apply Hwrite|]. split; [reflexivity|].
  destruct (unknown_name_raises_before_handle (Value:=Z) left_view with_both
              "wrist" eq_refl) as (_ & _ & Habsent).
  destruct (Habsent eq_refl) as (Hwrite' & _).
  apply Hwrite'.
Defined.

Lemma calibration_is_own_part_witness :
  bus live = Some live_bus ∧
  injective_map (local_to_bus left_view) ∧
  dict_get (View.calibration left_view live) "shoulder"
  = Some shoulder_calibration.
Proof.
  assert (bus live = Some live_bus) as Hbus by (vm_compute; reflexivity).
  assert (injective_map (local_to_bus left_view)) as Hinj.
  { split; apply (bool_decide_unpack _); vm_compute; reflexivity. }
  split; [exact Hbus|]. split; [exact Hinj|].
  destruct (calibration_is_own_part left_view live) as [_ Hown].
  apply (Hown live_bus Hbus Hinj). exists "left_shoulder".
  split; [reflexivity | vm_compute; reflexivity].
Defined.

Lemma is_calibrated_matches_calibration_witness :
  bus live = Some live_bus ∧ bus_is_connected live_bus = true ∧
  injective_map (local_to_bus left_view) ∧
  View.is_calibrated left_view live = Return true.
Proof.
  assert (bus live = Some live_bus) as Hbus by (vm_compute; reflexivity).
  assert (injective_map (local_to_bus left_view)) as Hinj.
  { split; apply (bool_decide_unpack _); vm_compute; reflexivity. }
  assert (bus_is_connected live_bus = true) as Hconn by reflexivity.
  split; [exact Hbus|]. split; [exact Hconn|]. split; [exact Hinj|].
  apply (is_calibrated_matches_calibration left_view live live_bus Hbus
           Hconn Hinj).
  intros n Hn. apply list_elem_of_singleton in Hn as ->.
  vm_compute. by eexists.
Defined.

Lemma refcount_never_negative_witness :
  (0 ≤ _refcount with_both)%Z ∧
  (0 ≤ _refcount (after_ops with_both
                    [OpRelease true; OpAcquire None; OpRelease false;
                     OpRelease false]))%Z.
Proof.
  assert (0 ≤ _refcount with_both)%Z as Hz by (vm_compute; discriminate).
  split; [exact Hz|].
  exact (refcount_never_negative with_both _ Hz).
Defined.

Lemma failed_connect_keeps_count_witness :
  bus stuck_manager = Some tt ∧ _refcount stuck_manager = 0 ∧
  @View.connect Z unit stuck_bus (Some true) (left_view, stuck_manager)
  = ((left_view, Manager.set_refcount 1 stuck_manager),
     Raise (BusError "could not open port")).
Proof.
  split; [reflexivity|]. split; [reflexivity|].
  destruct (@failed_connect_keeps_count Z unit stuck_bus left_view
              stuck_manager tt tt "could not open port" (Some true)
              eq_refl eq_refl eq_refl eq_refl eq_refl) as [Hfail _].
  exact Hfail.
Defined.

Lemma subset_operations_reach_double_witness :
  bus live = Some live_bus ∧
  named left_view MotorsNone = Some ["shoulder"] ∧
  translatable (local_to_bus left_view) ["shoulder"] ∧
  ∃ m2,
    View.disable_torque left_view MotorsNone 3 live = (m2, Return tt) ∧
    calls_seen m2 = [EvConnect true; EvDisableTorque ["left_shoulder"] 3].
Proof.
  assert (bus live = Some live_bus) as Hbus by (vm_compute; reflexivity).
  assert (translatable (local_to_bus left_view) ["shoulder"]) as Htr.
  { intros n Hn. apply list_elem_of_singleton in Hn as ->. by eexists. }
  split; [exact Hbus|]. split; [reflexivity|]. split; [exact Htr|].
  destruct (subset_operations_reach_double left_view MotorsNone ["shoulder"] 3
              live live_bus Hbus eq_refl Htr)
    as (gs & Hall & _ & (m2 & Hrun & Hcalls) & _).
  exists m2. split; [exact Hrun|].
  rewrite Hcalls.
  apply Forall2_cons_inv_l in Hall as (g & gs' & Hg & Hrest & ->).
  apply Forall2_nil_inv_l in Hrest as ->.
  vm_compute in Hg. injection Hg as <-. reflexivity.
Defined.

Lemma disconnect_on_double_witness :
  let attached := {| local_motors := local_motors left_view;
                     local_to_bus := local_to_bus left_view;
                     _connected := true |} in
  (0 < _refcount live)%Z ∧ Manager.is_connected live = true ∧
  translatable (local_to_bus left_view) (dict_keys (local_motors left_view)) ∧
  ∃ m', View.disconnect true (attached, live) = ((left_view, m'), Return tt) ∧
        _refcount m' = 0.
Proof.
  intros attached.
  assert (translatable (local_to_bus left_view)
            (dict_keys (local_motors left_view))) as Htr.
  { intros n Hn. apply list_elem_of_singleton in Hn as ->. by eexists. }
  split; [reflexivity|]. split; [reflexivity|]. split; [exact Htr|].
  destruct (disconnect_on_double (local_motors left_view)
              (local_to_bus left_view) live true eq_refl eq_refl Htr)
    as (gs & m' & _ & Hrun & Hrc & _).
  exists m'. split; [exact Hrun | exact Hrc].
Defined.

Lemma build_binds_in_order_witness :
  NoDup (dict_keys buses) ∧
  @Assembly.build_shared_components (EchoBus.t Z) _ _ devices buses
    [left_spec; right_spec] = Return (built.1, built.2) ∧
  Assembly.name <$> built.1 = ["left"; "right"].
Proof.
  assert (NoDup (dict_keys buses)) as Hnd
    by (apply (bool_decide_unpack _); vm_compute; reflexivity).
  assert (@Assembly.build_shared_components (EchoBus.t Z) _ _ devices buses
            [left_spec; right_spec] = Return (built.1, built.2)) as Hrun
    by (vm_compute; reflexivity).
  split; [exact Hnd|]. split; [exact Hrun|].
  pose proof (@build_binds_in_order (EchoBus.t Z) _ _ devices buses _ _ _
                Hnd Hrun) as Hall.
  destruct built as [bindings ms]. simpl in *.
  apply Forall2_cons_inv_l in Hall
    as (b1 & rest & (? & ? & _ & (? & ? & _ & _ & _ & ->)) & Hall & ->).
  apply Forall2_cons_inv_l in Hall
    as (b2 & rest' & (? & ? & _ & (? & ? & _ & _ & _ & ->)) & Hall & ->).
  apply Forall2_nil_inv_l in Hall as ->. reflexivity.
Defined.

Lemma build_registers_every_motor_witness :
  NoDup (dict_keys buses) ∧
  @Assembly.build_shared_components (EchoBus.t Z) _ _ devices buses
    [left_spec; right_spec] = Return (built.1, built.2) ∧
  closed_managers buses built.2.
Proof.
  assert (NoDup (dict_keys buses)) as Hnd
    by (apply (bool_decide_unpack _); vm_compute; reflexivity).
  assert (@Assembly.build_shared_components (EchoBus.t Z) _ _ devices buses
            [left_spec; right_spec] = Return (built.1, built.2)) as Hrun
    by (vm_compute; reflexivity).
  split; [exact Hnd|]. split; [exact Hrun|].
  exact (proj1 (@build_registers_every_motor (EchoBus.t Z) _ _ devices buses
                  _ _ _ Hnd Hrun)).
Defined.

Lemma build_stops_at_unplaceable_component_witness :
  NoDup (dict_keys buses) ∧
  @Assembly.build_shared_components (EchoBus.t Z) _ _ devices buses
    [left_spec; gripper_spec; right_spec]
  = Raise (ValueError "Unsupported shared component type 'gripper'.") ∧
  @Assembly.build_shared_components (EchoBus.t Z) _ _ devices buses
    [left_spec; stray_spec; right_spec]
  = Raise (ValueError "Component 'mount' references unknown bus 'bus9'.").
Proof.
  assert (NoDup (dict_keys buses)) as Hnd
    by (apply (bool_decide_unpack _); vm_compute; reflexivity).
  assert (∃ bs ms, @Assembly.build_shared_components (EchoBus.t Z) _ _ devices
                     buses [left_spec] = Return (bs, ms)) as (bs & ms & Hpre)
    by (vm_compute; by eexists _, _).
  split; [exact Hnd|]. split.
  - destruct (@build_stops_at_unplaceable_component (EchoBus.t Z) _ _ devices
                buses [left_spec] gripper_spec [right_spec] bs ms Hnd Hpre)
      as [Htype _].
    exact (Htype eq_refl).
  - destruct (@build_stops_at_unplaceable_component (EchoBus.t Z) _ _ devices
                buses [left_spec] stray_spec [right_spec] bs ms Hnd Hpre)
      as [_ Hbus].
    apply Hbus; [vm_compute; by eexists | reflexivity].
Defined.

Lemma binding_aliases_spec_witness :
  "right_" ≠ "" ∧
  "right_" ∈ Assembly.binding_aliases (Some ["right_arm"]) "right_" ∧
  Assembly.binding_aliases (Some ["right_arm"]) "right_"
  = ["right_arm"; "right_"].
Proof.
  split; [discriminate|]. split; [|reflexivity].
  destruct (binding_aliases_spec (Some ["right_arm"]) "right_")
    as (_ & Hin & _).
  apply Hin. discriminate.
Defined.

Lemma make_config_defaults_port_witness :
  ∃ kwargs,
    @Assembly._make_config _ _ devices SO101Follower [("id", PyStr "left")]
      "/dev/ttyACM0" = @config_cls _ _ devices SO101Follower kwargs ∧
    dict_get kwargs "port" = Some (PyStr "/dev/ttyACM0") ∧
    dict_get kwargs "id" = Some (PyStr "left").
Proof.
  destruct (@make_config_defaults_port _ _ devices SO101Follower
              [("id", PyStr "left")] "/dev/ttyACM0")
    as (kwargs & Hrun & Hport & Hother & _).
  exists kwargs. split; [exact Hrun|]. split; [exact Hport|].
  rewrite Hother; [reflexivity | discriminate].
Defined.

Lemma build_succeeds_when_names_distinct_witness :
  NoDup (dict_keys buses) ∧
  Forall2 (@constructible _ _ devices buses) [left_spec; right_spec]
          [left_robot; left_robot] ∧
  ∃ bindings ms,
    @Assembly.build_shared_components (EchoBus.t Z) _ _ devices buses
      [left_spec; right_spec] = Return (bindings, ms).
Proof.
  assert (NoDup (dict_keys buses)) as Hnd
    by (apply (bool_decide_unpack _); vm_compute; reflexivity).
  assert (Forall2 (@constructible _ _ devices buses) [left_spec; right_spec]
            [left_robot; left_robot]) as Hcons.
  { repeat constructor;
      exists bus_config, SO101Follower, [("port", PyStr "/dev/ttyACM0")];
      split_and!; reflexivity. }
  split; [exact Hnd|]. split; [exact Hcons|].
  apply (@build_succeeds_when_names_distinct (EchoBus.t Z) _ _ devices buses
           _ _ Hnd Hcons).
  intros k. simpl. destruct (decide ("bus0" = k)) as [<-|Hne].
  - apply (bool_decide_unpack _). vm_compute. reflexivity.
  - apply NoDup_nil_2.
Defined.

Lemma init_shared_mode_validates_witness :
  NoDup (dict_keys (XLeRobotConfig.shared_buses raw_config)) ∧
  @XLeRobotConfig._init_shared_mode unit dataclasses raw_config
  = (validated_config, Return tt) ∧
  XLeRobotConfig.shared_bus_configs validated_config = Some buses ∧
  XLeRobotConfig.arms validated_config = None.
Proof.
  assert (NoDup (dict_keys (XLeRobotConfig.shared_buses raw_config))) as Hnd
    by (apply (bool_decide_unpack _); vm_compute; reflexivity).
  assert (@XLeRobotConfig._init_shared_mode unit dataclasses raw_config
          = (validated_config, Return tt)) as Hrun by (vm_compute; reflexivity).
  split; [exact Hnd|]. split; [exact Hrun|].
  destruct (@init_shared_mode_validates unit dataclasses raw_config
              validated_config Hnd Hrun)
    as (bs & comps & _ & _ & _ & _ & _ & _ & _ & Harms & _).
  split; [reflexivity | exact Harms].
Defined.

Lemma init_shared_mode_rejects_witness :
  let empty := XLeRobotConfig.make (Part:=unit) None None None None None None
                 None "shared_buses" [] [Instance left_spec] None None in
  NoDup (dict_keys (XLeRobotConfig.shared_buses empty)) ∧
  @XLeRobotConfig._init_shared_mode unit dataclasses empty
  = (empty,
     Raise (ValueError
              "shared_buses must be provided when bus_mode is 'shared_buses'.")).
Proof.
  intros empty.
  assert (NoDup (dict_keys (XLeRobotConfig.shared_buses empty))) as Hnd
    by apply NoDup_nil_2.
  split; [exact Hnd|].
  destruct (@init_shared_mode_rejects unit dataclasses empty Hnd) as [Hfirst _].
  exact (Hfirst eq_refl).
Defined.

Lemma validated_configuration_builds_witness :
  NoDup (dict_keys (XLeRobotConfig.shared_buses raw_config)) ∧
  @XLeRobotConfig._init_shared_mode unit dataclasses raw_config
  = (validated_config, Return tt) ∧
  ∃ bindings ms,
    @Assembly.build_shared_components (EchoBus.t Z) _ _ devices buses
      [left_spec; right_spec] = Return (bindings, ms).
Proof.
  assert (NoDup (dict_keys (XLeRobotConfig.shared_buses raw_config))) as Hnd
    by (apply (bool_decide_unpack _); vm_compute; reflexivity).
  assert (@XLeRobotConfig._init_shared_mode unit dataclasses raw_config
          = (validated_config, Return tt)) as Hrun by (vm_compute; reflexivity).
  split; [exact Hnd|]. split; [exact Hrun|].
  apply (@validated_configuration_builds unit (EchoBus.t Z) _ _ dataclasses
           devices raw_config validated_config buses [left_spec; right_spec]
           [left_robot; left_robot] Hnd Hrun eq_refl eq_refl).
  - repeat constructor; intros bus_cfg [= <-];
      exists SO101Follower, [("port", PyStr "/dev/ttyACM0")];
      split_and!; reflexivity.
  - intros k. simpl. destruct (decide ("bus0" = k)) as [<-|Hne].
    + apply (bool_decide_unpack _). vm_compute. reflexivity.
    + apply NoDup_nil_2.
Defined.

End extra_checks.
